(** * isupipe (ISUCON13 web application): ranking, moderation and icon cache

    A shallow embedding of the Go handlers that compute the statistics
    ranking ([getUserStatisticsHandler], [getLivestreamStatisticsHandler]),
    of the livecomment handlers ([postLivecommentHandler],
    [moderateHandler]) and of the icon hash cache ([IconHashCache],
    [getIconHandler]), with the properties of the specification stated
    and proved (or refuted) against them.  The embedding then covers
    [GetPaymentResult], [verifyUserSessionWithUserID],
    [postReactionHandler], [postIconHandler], [getLivecommentsHandler]
    with [fillLivecommentResponses], [getNgwords] and the totals of
    [getUserStatisticsHandler]; Part III proves properties that the
    code of all these handlers shows.

    Conventions:
    - a Go [int64] is a [Z]; arithmetic on it wraps around ([Int64.add]);
    - a Go [string] is a [string] of bytes, compared byte-wise;
    - a Go [map] is a [gmap]; a missing key reads as the zero value;
    - the relational store is a record of tables (lists of rows); a query
      is a function of the tables; a statement that can fail takes its
      failure from an explicit environment of faults. *)

From Stdlib Require Import ZArith Lia.
From stdpp Require Import base decidable option list sorting gmap strings.

Local Open Scope Z_scope.

(** * Part I: the program *)

(** ** Go [int64] *)

Module Int64.

Definition min_int : Z := - 2 ^ 63.
Definition max_int : Z := 2 ^ 63 - 1.

(** Two's complement wrap-around of an unbounded integer. *)
Definition wrap (z : Z) : Z := (z + 2 ^ 63) mod 2 ^ 64 - 2 ^ 63.

Definition in_range (z : Z) : Prop := min_int <= z <= max_int.

(** [x + y] on [int64]. *)
Definition add (x y : Z) : Z := wrap (x + y).

#[global] Instance in_range_dec z : Decision (in_range z).
Proof. unfold in_range. apply _. Defined.

End Int64.

(** ** Go [strings.Contains]

    [strings.Contains(s, substr)] reports whether [substr] occurs in [s];
    the comparison is on bytes, so it is case-sensitive, and the empty
    string occurs in every string. *)

Fixpoint strings_Contains (s substr : string) : bool :=
  if String.prefix substr s then true
  else match s with
       | EmptyString => false
       | String _ s' => strings_Contains s' substr
       end.

(** ** Tie-break keys

    [LivestreamRanking.Less] compares [int64] ids with [<];
    [UserRanking.Less] compares names with Go's [<] on strings, which is
    the lexicographic order on bytes. *)

Class KeyOrder {K : Type} (key_ltb : K -> K -> bool) : Prop := {
  key_ltb_irrefl : forall k, key_ltb k k = false;
  key_ltb_trans : forall a b c,
    key_ltb a b = true -> key_ltb b c = true -> key_ltb a c = true;
  key_ltb_total : forall a b,
    key_ltb a b = false -> key_ltb b a = false -> a = b
}.

(** ** Ranking entries and [sort.Interface]

    [LivestreamRankingEntry] and [UserRankingEntry] have the same shape:
    a tie-break key ([LivestreamID] or [Username]) and a [Score]. *)

Record RankingEntry (K : Type) : Type := mkEntry { Key : K; Score : Z }.
Arguments mkEntry {K} _ _.
Arguments Key {K} _.
Arguments Score {K} _.

#[global] Instance RankingEntry_eq_dec {K} `{EqDecision K} : EqDecision (RankingEntry K).
Proof. solve_decision. Defined.

Definition LivestreamRankingEntry : Type := RankingEntry Z.
Definition UserRankingEntry : Type := RankingEntry string.
Definition LivestreamID (e : LivestreamRankingEntry) : Z := Key e.
Definition Username (e : UserRankingEntry) : string := Key e.

Section Ranking.
Context {K : Type} `{EqDecision K}.
Variable key_ltb : K -> K -> bool.

(** [Less(i, j)] of [LivestreamRanking] and of [UserRanking]. *)
Definition Less (ri rj : RankingEntry K) : bool :=
  if Score ri =? Score rj then key_ltb (Key ri) (Key rj)
  else Score ri <? Score rj.

(** [sort.Sort(ranking)]: the slice is rearranged so that no element is
    [Less] than an element standing before it.  The library's algorithm
    is modelled by an insertion sort; [sort_Sort_unique] shows that the
    result does not depend on the algorithm. *)
Fixpoint sort_insert (x : RankingEntry K) (l : list (RankingEntry K))
  : list (RankingEntry K) :=
  match l with
  | [] => [x]
  | y :: l' => if Less x y then x :: y :: l' else y :: sort_insert x l'
  end.

Fixpoint sort_Sort (l : list (RankingEntry K)) : list (RankingEntry K) :=
  match l with
  | [] => []
  | x :: l' => sort_insert x (sort_Sort l')
  end.

(** The rank loop of both handlers:
    [rank := 1; for i := len(ranking)-1; i >= 0; i-- {
       if ranking[i].key == target { break }; rank++ }].
    [walk] is the part of the slice not yet visited, last index first. *)
Fixpoint rank_loop (target : K) (walk : list (RankingEntry K)) (rank : Z) : Z :=
  match walk with
  | [] => rank
  | entry :: rest =>
      if decide (Key entry = target) then rank
      else rank_loop target rest (Int64.add rank 1)
  end.

(** [sort.Sort(ranking)] followed by the rank loop. *)
Definition compute_rank (target : K) (ranking : list (RankingEntry K)) : Z :=
  rank_loop target (reverse (sort_Sort ranking)) 1.

(** What [sort.Sort] establishes between an element and a later one. *)
Definition not_after (a b : RankingEntry K) : Prop := Less b a = false.

(** Number of entries of [l] that [Less] places strictly after [e]. *)
Definition count_above (e : RankingEntry K) (l : list (RankingEntry K)) : nat :=
  length (filter (fun x => Less e x = true) l).

End Ranking.

(** The two instances of the source. *)
Definition LivestreamRanking_Less
  : LivestreamRankingEntry -> LivestreamRankingEntry -> bool := Less Z.ltb.
Definition UserRanking_Less
  : UserRankingEntry -> UserRankingEntry -> bool := Less String.ltb.

(** ** HTTP replies

    What a handler hands back to echo: [echo.NewHTTPError(status, msg)],
    [c.JSON(status, body)], [c.NoContent(status)],
    [c.Blob(status, contentType, bytes)], [c.File(path)], or a run-time
    panic (a nil pointer dereference).  The text that the source appends to a
    message from the driver's error ([err.Error()]) is not part of the
    model: a message is its fixed prefix. *)

Inductive Reply (B : Type) : Type :=
| HTTPError (status : Z) (message : string)
| JSON (status : Z) (body : B)
| NoContent (status : Z)
| Blob (status : Z) (contentType : string) (b : string)
| File (file : string)
| Panic.
Arguments HTTPError {B} _ _.
Arguments JSON {B} _ _.
Arguments NoContent {B} _.
Arguments Blob {B} _ _ _.
Arguments File {B} _.
Arguments Panic {B}.

Definition StatusOK : Z := 200.
Definition StatusCreated : Z := 201.
Definition StatusNotModified : Z := 304.
Definition StatusBadRequest : Z := 400.
Definition StatusUnauthorized : Z := 401.
Definition StatusForbidden : Z := 403.
Definition StatusNotFound : Z := 404.
Definition StatusInternalServerError : Z := 500.

(** ** Rows of the tables *)

Module UserModel.
Record t : Type := mk {
  ID : Z; Name : string; DisplayName : string; Description : string;
  HashedPassword : string }.
#[global] Instance eq_dec : EqDecision t.
Proof. solve_decision. Defined.
End UserModel.

(** Modelled from the spec: the declaration of [LivestreamModel] is not
    among the sources; the handlers read its columns [id] and [user_id]
    ("Livestream: id, owner user id, title/metadata"). *)
Module LivestreamModel.
Record t : Type := mk { ID : Z; UserID : Z }.
#[global] Instance eq_dec : EqDecision t.
Proof. solve_decision. Defined.
End LivestreamModel.

Module ReactionModel.
Record t : Type := mk {
  ID : Z; EmojiName : string; UserID : Z; LivestreamID : Z; CreatedAt : Z }.
#[global] Instance eq_dec : EqDecision t.
Proof. solve_decision. Defined.
End ReactionModel.

Module LivecommentModel.
Record t : Type := mk {
  ID : Z; UserID : Z; LivestreamID : Z; Comment : string; Tip : Z;
  CreatedAt : Z; IsDeleted : bool }.
#[global] Instance eq_dec : EqDecision t.
Proof. solve_decision. Defined.
End LivecommentModel.

Module NGWord.
Record t : Type := mk {
  ID : Z; UserID : Z; LivestreamID : Z; Word : string; CreatedAt : Z }.
#[global] Instance eq_dec : EqDecision t.
Proof. solve_decision. Defined.
End NGWord.

(** ** The relational store

    One list of rows per table, and the [AUTO_INCREMENT] counter of the
    two tables the handlers insert into. *)

Record Storage : Type := mkStorage {
  users : list UserModel.t;
  livestreams : list LivestreamModel.t;
  reactions : list ReactionModel.t;
  livecomments : list LivecommentModel.t;
  ng_words : list NGWord.t;
  livecomments_auto_increment : Z;
  ng_words_auto_increment : Z;
  icons : list (Z * string)
}.

Definition set_livecomments (f : list LivecommentModel.t -> list LivecommentModel.t)
  (st : Storage) : Storage :=
  mkStorage (users st) (livestreams st) (reactions st) (f (livecomments st))
    (ng_words st) (livecomments_auto_increment st) (ng_words_auto_increment st)
    (icons st).

(** [INSERT INTO livecomments (user_id, livestream_id, comment, tip,
    created_at) VALUES (?, ?, ?, ?, ?)]: the id is assigned by the table,
    [is_deleted] takes its default 0. *)
Definition insert_livecomment (row : LivecommentModel.t) (st : Storage) : Storage :=
  mkStorage (users st) (livestreams st) (reactions st)
    (livecomments st ++
       [LivecommentModel.mk (livecomments_auto_increment st)
          (LivecommentModel.UserID row) (LivecommentModel.LivestreamID row)
          (LivecommentModel.Comment row) (LivecommentModel.Tip row)
          (LivecommentModel.CreatedAt row) false])
    (ng_words st) (livecomments_auto_increment st + 1) (ng_words_auto_increment st)
    (icons st).

(** [INSERT INTO ng_words(user_id, livestream_id, word, created_at)
    VALUES (:user_id, :livestream_id, :word, :created_at)]. *)
Definition insert_ng_word (row : NGWord.t) (st : Storage) : Storage :=
  mkStorage (users st) (livestreams st) (reactions st) (livecomments st)
    (ng_words st ++
       [NGWord.mk (ng_words_auto_increment st) (NGWord.UserID row)
          (NGWord.LivestreamID row) (NGWord.Word row) (NGWord.CreatedAt row)])
    (livecomments_auto_increment st) (ng_words_auto_increment st + 1) (icons st).

(** [UPDATE livecomments SET is_deleted = 1 WHERE id IN (?)]. *)
Definition hide_row (ids : list Z) (lc : LivecommentModel.t) : LivecommentModel.t :=
  if decide (LivecommentModel.ID lc ∈ ids)
  then LivecommentModel.mk (LivecommentModel.ID lc) (LivecommentModel.UserID lc)
         (LivecommentModel.LivestreamID lc) (LivecommentModel.Comment lc)
         (LivecommentModel.Tip lc) (LivecommentModel.CreatedAt lc) true
  else lc.

Definition update_is_deleted (ids : list Z) (st : Storage) : Storage :=
  set_livecomments (fmap (hide_row ids)) st.

(** [SELECT * FROM livestreams WHERE id = ?]. *)
Definition select_livestream (id : Z) (st : Storage) : list LivestreamModel.t :=
  filter (fun l => LivestreamModel.ID l = id) (livestreams st).

(** [SELECT * FROM livestreams WHERE id = ? AND user_id = ?]. *)
Definition select_owned_livestreams (id userID : Z) (st : Storage)
  : list LivestreamModel.t :=
  filter (fun l => LivestreamModel.ID l = id /\ LivestreamModel.UserID l = userID)
    (livestreams st).

(** [SELECT * FROM ng_words WHERE livestream_id = ?]. *)
Definition select_ng_words (livestreamID : Z) (st : Storage) : list NGWord.t :=
  filter (fun w => NGWord.LivestreamID w = livestreamID) (ng_words st).

(** [SELECT id, user_id, livestream_id, word FROM ng_words WHERE
    livestream_id = ?]: [created_at] is not selected and stays zero. *)
Definition select_ng_words_no_created_at (livestreamID : Z) (st : Storage)
  : list NGWord.t :=
  (fun w => NGWord.mk (NGWord.ID w) (NGWord.UserID w) (NGWord.LivestreamID w)
              (NGWord.Word w) 0) <$> select_ng_words livestreamID st.

(** [SELECT * FROM livecomments WHERE livestream_id = ? and is_deleted = 0]. *)
Definition select_visible_livecomments (livestreamID : Z) (st : Storage)
  : list LivecommentModel.t :=
  filter (fun lc => LivecommentModel.LivestreamID lc = livestreamID
                    /\ LivecommentModel.IsDeleted lc = false)
    (livecomments st).

(** [SELECT * FROM users WHERE id = ?]. *)
Definition select_user (id : Z) (st : Storage) : list UserModel.t :=
  filter (fun u => UserModel.ID u = id) (users st).

(** ** The environment of a request

    The clock ([time.Now().Unix()]) and, for every call to the database
    that returns an [error], whether it fails in this run. *)

Inductive Stmt : Type :=
| StmtConnx | StmtBeginTxx | StmtCommit
| StmtSelectLivestream | StmtSelectOwnedLivestreams
| StmtSelectNGWords | StmtSelectLivecomments
| StmtInsertLivecomment | StmtInsertNGWord | StmtLastInsertId
| StmtUpdateLivecomments
| StmtFillSelectUser | StmtFillUser | StmtFillSelectLivestream | StmtFillLivestream
| StmtSelectUserByName
| StmtSelectUsers | StmtSelectLivestreams
| StmtQueryReactions | StmtQueryTips
| StmtReadFile | StmtSelectIcon | StmtWriteFile.

Record Env : Type := mkEnv { now : Z; fails : Stmt -> bool }.

(** ** The handler monad

    A connection sees the committed tables, or the working copy of the
    open transaction.  A handler step returns a value or leaves the
    handler with a reply. *)

Record DB : Type := mkDB { committed : Storage; working : option Storage }.

Definition view (db : DB) : Storage := default (committed db) (working db).

Definition apply_update (u : Storage -> Storage) (db : DB) : DB :=
  match working db with
  | Some w => mkDB (committed db) (Some (u w))
  | None => mkDB (u (committed db)) None
  end.

Definition M (B A : Type) : Type := DB -> DB * (A + Reply B).

#[global] Instance M_ret {B} : MRet (M B) := fun A a db => (db, inl a).
#[global] Instance M_bind {B} : MBind (M B) := fun A A' f m db =>
  match m db with
  | (db', inl a) => f a db'
  | (db', inr r) => (db', inr r)
  end.

(** [return reply] in the middle of a handler. *)
Definition abort {B A} (r : Reply B) : M B A := fun db => (db, inr r).

(** A read-only statement. *)
Definition query {B A} (env : Env) (s : Stmt) (message : string)
  (q : Storage -> A) : M B A :=
  fun db =>
    if fails env s then (db, inr (HTTPError StatusInternalServerError message))
    else (db, inl (q (view db))).

(** A statement that changes the tables and returns a value read before
    the change. *)
Definition exec {B A} (env : Env) (s : Stmt) (message : string)
  (r : Storage -> A) (u : Storage -> Storage) : M B A :=
  fun db =>
    if fails env s then (db, inr (HTTPError StatusInternalServerError message))
    else (apply_update u db, inl (r (view db))).

(** A call that only may fail. *)
Definition attempt {B} (env : Env) (s : Stmt) (message : string) : M B unit :=
  query env s message (fun _ => tt).

(** [dbConn.BeginTxx(ctx, nil)]. *)
Definition BeginTxx {B} (env : Env) : M B unit :=
  fun db =>
    if fails env StmtBeginTxx
    then (db, inr (HTTPError StatusInternalServerError "failed to begin transaction: "))
    else (mkDB (committed db) (Some (committed db)), inl tt).

(** [tx.Commit()]. *)
Definition Commit {B} (env : Env) : M B unit :=
  fun db =>
    if fails env StmtCommit
    then (db, inr (HTTPError StatusInternalServerError "failed to commit: "))
    else (match working db with
          | Some w => mkDB w None
          | None => db
          end, inl tt).

(** [tx.Rollback()]: drops the working copy; does nothing once the
    transaction is committed. *)
Definition Rollback (db : DB) : DB := mkDB (committed db) None.

(** [defer cleanup()] in front of the rest of the handler: the cleanup
    runs on every way out, a panic included. *)
Definition defer {B A} (cleanup : DB -> DB) (rest : M B A) : M B A :=
  fun db => let '(db', r) := rest db in (cleanup db', r).

(** Running a handler on the committed tables. *)
Definition serve {B} (handler : M B (Reply B)) (st : Storage) : Storage * Reply B :=
  match handler (mkDB st None) with
  | (db, inl r) => (committed db, r)
  | (db, inr r) => (committed db, r)
  end.

(** ** Requests *)

(** The values of the session cookie: [session.Get] may fail; [EXPIRES]
    and [USERID] may be missing. *)
Record Session : Type := mkSession {
  session_error : bool; EXPIRES : option Z; USERID : option Z }.

(** The request body as [json.Decoder.Decode(&req)] leaves it, for
    [var req *T]: an error, a nil pointer (the JSON value [null]), or a
    decoded struct. *)
Inductive Body (R : Type) : Type :=
| BodyMalformed
| BodyNull
| BodyOf (req : R).
Arguments BodyMalformed {R}.
Arguments BodyNull {R}.
Arguments BodyOf {R} _.

(** [param_livestream_id] is the result of
    [strconv.Atoi(c.Param("livestream_id"))], [None] for its error. *)
Record EchoContext (R : Type) : Type := mkContext {
  sess : Session; param_livestream_id : option Z; body : Body R }.
Arguments mkContext {R} _ _ _.
Arguments sess {R} _.
Arguments param_livestream_id {R} _.
Arguments body {R} _.

Definition verifyUserSession {B} (env : Env) (s : Session) : M B unit :=
  if session_error s
  then abort (HTTPError StatusUnauthorized "failed to get session")
  else match EXPIRES s with
       | None => abort (HTTPError StatusForbidden "failed to get EXPIRES value from session")
       | Some sessionExpires =>
           match USERID s with
           | None => abort (HTTPError StatusUnauthorized "failed to get USERID value from session")
           | Some _ =>
               if now env >? sessionExpires
               then abort (HTTPError StatusUnauthorized "session has expired")
               else mret tt
           end
       end.

(** [strconv.Atoi(c.Param("livestream_id"))] and its error reply. *)
Definition livestream_id_param {B R} (c : EchoContext R) : M B Z :=
  match param_livestream_id c with
  | None => abort (HTTPError StatusBadRequest "livestream_id in path must be integer")
  | Some id => mret id
  end.

(** [sess.Values[defaultUserIDKey].(int64)]. *)
Definition session_userID {B} (s : Session) : M B Z :=
  match USERID s with
  | None => abort Panic
  | Some userID => mret userID
  end.

(** [json.NewDecoder(c.Request().Body).Decode(&req)]: the result is the
    pointer [req], [None] for nil. *)
Definition decode_body {B R} (b : Body R) : M B (option R) :=
  match b with
  | BodyMalformed => abort (HTTPError StatusBadRequest "failed to decode the request body as json")
  | BodyNull => mret None
  | BodyOf req => mret (Some req)
  end.

(** Reading a field through the pointer [req]. *)
Definition deref {B R} (req : option R) : M B R :=
  match req with
  | None => abort Panic
  | Some r => mret r
  end.

(** ** Livecomments: [postLivecommentHandler] *)

Module PostLivecommentRequest.
Record t : Type := mk { Comment : string; Tip : Z }.
End PostLivecommentRequest.

(** The response struct; the nested [User] and [Livestream] objects are
    represented by their ids. *)
Module Livecomment.
Record t : Type := mk {
  ID : Z; User : Z; Livestream : Z; Comment : string; Tip : Z; CreatedAt : Z }.
End Livecomment.

(** The spam loop:
    [for _, ngword := range ngwords {
       if strings.Contains(comment, ngword.Word) { ...; break / return } }]. *)
Fixpoint contains_ngword (comment : string) (ngwords : list NGWord.t) : bool :=
  match ngwords with
  | [] => false
  | ngword :: rest =>
      if strings_Contains comment (NGWord.Word ngword) then true
      else contains_ngword comment rest
  end.

(** [fillLivecommentResponse]; the caller turns every error of it into
    the same reply.  [fillUserResponse] (icon hash, theme) only may fail
    here.  [fillLivestreamResponse] is not among the sources: it enters
    as a call that may fail, and the livestream of the reply is the row
    that was read. *)
Definition fillLivecommentResponse {B} (env : Env) (message : string)
  (livecommentModel : LivecommentModel.t) : M B Livecomment.t :=
  owners ← query env StmtFillSelectUser message
             (select_user (LivecommentModel.UserID livecommentModel));
  commentOwnerModel ← match owners with
                      | [] => abort (HTTPError StatusInternalServerError message)
                      | u :: _ => mret u
                      end;
  _ ← attempt env StmtFillUser message;
  found ← query env StmtFillSelectLivestream message
            (select_livestream (LivecommentModel.LivestreamID livecommentModel));
  livestreamModel ← match found with
                    | [] => abort (HTTPError StatusInternalServerError message)
                    | l :: _ => mret l
                    end;
  _ ← attempt env StmtFillLivestream message;
  mret (Livecomment.mk (LivecommentModel.ID livecommentModel)
          (UserModel.ID commentOwnerModel) (LivestreamModel.ID livestreamModel)
          (LivecommentModel.Comment livecommentModel)
          (LivecommentModel.Tip livecommentModel)
          (LivecommentModel.CreatedAt livecommentModel)).

Definition spam_message : string := "このコメントがスパム判定されました".

(** [postLivecommentHandler].  The connection comes from [Connx]: every
    statement commits on its own.  A nil [req] is first read in the spam
    loop or, with no NG word, when the row is built; no statement lies
    between the two places, so the model reads it once. *)
Definition postLivecommentHandler (env : Env)
  (c : EchoContext PostLivecommentRequest.t) : M Livecomment.t (Reply Livecomment.t) :=
  _ ← verifyUserSession env (sess c);
  livestreamID ← livestream_id_param c;
  userID ← session_userID (sess c);
  req ← decode_body (body c);
  _ ← attempt env StmtConnx "failed to get connection: ";
  found ← query env StmtSelectLivestream "failed to get livestream: "
            (select_livestream livestreamID);
  livestreamModel ← match found with
                    | [] => abort (HTTPError StatusNotFound "livestream not found")
                    | l :: _ => mret l
                    end;
  ngwords ← query env StmtSelectNGWords "failed to get NG words: "
              (select_ng_words_no_created_at (LivestreamModel.ID livestreamModel));
  req ← deref req;
  if contains_ngword (PostLivecommentRequest.Comment req) ngwords
  then abort (HTTPError StatusBadRequest spam_message)
  else
    let livecommentModel :=
      LivecommentModel.mk 0 userID livestreamID
        (PostLivecommentRequest.Comment req) (PostLivecommentRequest.Tip req)
        (now env) false in
    assigned ← exec env StmtInsertLivecomment "failed to insert livecomment: "
                 livecomments_auto_increment (insert_livecomment livecommentModel);
    _ ← attempt env StmtLastInsertId "failed to get last inserted livecomment id: ";
    let livecommentModel :=
      LivecommentModel.mk assigned userID livestreamID
        (PostLivecommentRequest.Comment req) (PostLivecommentRequest.Tip req)
        (now env) false in
    livecomment ← fillLivecommentResponse env "failed to fill livecomment: "
                    livecommentModel;
    mret (JSON StatusCreated livecomment).

(** ** Moderation: [moderateHandler] *)

Module ModerateRequest.
Record t : Type := mk { NGWord : string }.
End ModerateRequest.

(** The sweep loop that fills [ng_livecomment_ids]. *)
Fixpoint collect_ng_livecomment_ids (livecomments : list LivecommentModel.t)
  (ngwords : list NGWord.t) : list Z :=
  match livecomments with
  | [] => []
  | livecomment :: rest =>
      if contains_ngword (LivecommentModel.Comment livecomment) ngwords
      then LivecommentModel.ID livecomment :: collect_ng_livecomment_ids rest ngwords
      else collect_ng_livecomment_ids rest ngwords
  end.

(** [sqlx.In(query, ids)]: an empty slice is an error. *)
Definition sqlx_In {B} (message : string) (ids : list Z) : M B (list Z) :=
  match ids with
  | [] => abort (HTTPError StatusInternalServerError message)
  | _ :: _ => mret ids
  end.

Definition not_owner_message : string :=
  "A streamer can't moderate livestreams that other streamers own".

(** [moderateHandler]; the reply body is [word_id].  [time.Sleep] has no
    effect on the tables. *)
Definition moderateHandler (env : Env) (c : EchoContext ModerateRequest.t)
  : M Z (Reply Z) :=
  _ ← verifyUserSession env (sess c);
  livestreamID ← livestream_id_param c;
  userID ← session_userID (sess c);
  req ← decode_body (body c);
  _ ← BeginTxx env;
  defer Rollback (
    ownedLivestreams ← query env StmtSelectOwnedLivestreams "failed to get livestreams: "
                         (select_owned_livestreams livestreamID userID);
    if decide (length ownedLivestreams = 0%nat)
    then abort (HTTPError StatusBadRequest not_owner_message)
    else
      req ← deref req;
      assigned ← exec env StmtInsertNGWord "failed to insert new NG word: "
                   ng_words_auto_increment
                   (insert_ng_word (NGWord.mk 0 userID livestreamID
                                      (ModerateRequest.NGWord req) (now env)));
      _ ← attempt env StmtLastInsertId "failed to get last inserted NG word id: ";
      let wordID := assigned in
      ngwords ← query env StmtSelectNGWords "failed to get NG words: "
                  (select_ng_words livestreamID);
      livecomments ← query env StmtSelectLivecomments "failed to get livecomments: "
                       (select_visible_livecomments livestreamID);
      let ng_livecomment_ids := collect_ng_livecomment_ids livecomments ngwords in
      _ ← (if decide (0 < length ng_livecomment_ids)%nat
           then
             args ← sqlx_In "failed to build delete query: " ng_livecomment_ids;
             exec env StmtUpdateLivecomments "failed to delete livecomments: "
               (fun _ => tt) (update_is_deleted args)
           else mret tt);
      _ ← Commit env;
      mret (JSON StatusCreated wordID)).

(** ** Statistics: scores and rank *)

Definition sum_Z (l : list Z) : Z := foldr Z.add 0 l.

(** [SELECT key, SUM(value) ... GROUP BY key] over rows [(key, value)]:
    one row per key that occurs.  [COUNT] is the sum of ones. *)
Definition group_by_sum (rows : list (Z * Z)) : list (Z * Z) :=
  (fun k => (k, sum_Z ((filter (fun r => r.1 = k) rows).*2)))
    <$> remove_dups (rows.*1).

(** [SELECT livestream_id, COUNT( * ) FROM reactions
     WHERE livestream_id IN (?) GROUP BY livestream_id]. *)
Definition livestream_reactions_rows (ids : list Z) (st : Storage) : list (Z * Z) :=
  group_by_sum
    ((fun r => (ReactionModel.LivestreamID r, 1))
       <$> filter (fun r => ReactionModel.LivestreamID r ∈ ids) (reactions st)).

(** [SELECT livestream_id, IFNULL(SUM(tip), 0) FROM livecomments
     WHERE livestream_id IN (?) and is_deleted = 0 GROUP BY livestream_id]. *)
Definition livestream_tips_rows (ids : list Z) (st : Storage) : list (Z * Z) :=
  group_by_sum
    ((fun lc => (LivecommentModel.LivestreamID lc, LivecommentModel.Tip lc))
       <$> filter (fun lc => LivecommentModel.LivestreamID lc ∈ ids
                             /\ LivecommentModel.IsDeleted lc = false)
             (livecomments st)).

(** [... INNER JOIN livestreams l ON x.livestream_id = l.id]: the owners
    of the livestream rows that join with [livestream_id]. *)
Definition joined_owners (livestream_id : Z) (st : Storage) : list Z :=
  LivestreamModel.UserID <$> select_livestream livestream_id st.

(** [SELECT l.user_id, COUNT(r.id) FROM reactions r
     INNER JOIN livestreams l ON r.livestream_id = l.id
     WHERE l.user_id IN (?) GROUP BY l.user_id]. *)
Definition user_reactions_rows (ids : list Z) (st : Storage) : list (Z * Z) :=
  group_by_sum
    (r ← reactions st;
     owner ← joined_owners (ReactionModel.LivestreamID r) st;
     if decide (owner ∈ ids) then [(owner, 1)] else []).

(** [SELECT l.user_id, IFNULL(SUM(lc.tip), 0) FROM livecomments lc
     INNER JOIN livestreams l ON lc.livestream_id = l.id
     WHERE l.user_id IN (?) AND lc.is_deleted = 0 GROUP BY l.user_id]. *)
Definition user_tips_rows (ids : list Z) (st : Storage) : list (Z * Z) :=
  group_by_sum
    (lc ← livecomments st;
     owner ← joined_owners (LivecommentModel.LivestreamID lc) st;
     if decide (owner ∈ ids /\ LivecommentModel.IsDeleted lc = false)
     then [(owner, LivecommentModel.Tip lc)] else []).

(** [for rows.Next() { rows.Scan(&id, &value); m[id] = value }]: [Scan]
    fails on an aggregate that does not fit an [int64]. *)
Fixpoint scan_rows {B} (message : string) (rows : list (Z * Z)) (m : gmap Z Z)
  : M B (gmap Z Z) :=
  match rows with
  | [] => mret m
  | (k, v) :: rest =>
      if decide (Int64.in_range v) then scan_rows message rest (<[k := v]> m)
      else abort (HTTPError StatusInternalServerError message)
  end.

(** [m[k]] on a Go map: the zero value for a missing key. *)
Definition map_get (m : gmap Z Z) (k : Z) : Z := default 0 (m !! k).

(** [score := reactions + totalTips]. *)
Definition score (reactionsMap tipsMap : gmap Z Z) (id : Z) : Z :=
  Int64.add (map_get reactionsMap id) (map_get tipsMap id).

Definition livestream_ranking (livestreams : list LivestreamModel.t)
  (reactionsMap tipsMap : gmap Z Z) : list LivestreamRankingEntry :=
  (fun livestream =>
     mkEntry (LivestreamModel.ID livestream)
       (score reactionsMap tipsMap (LivestreamModel.ID livestream)))
    <$> livestreams.

Definition user_ranking (users : list UserModel.t)
  (reactionsMap tipsMap : gmap Z Z) : list UserRankingEntry :=
  (fun user =>
     mkEntry (UserModel.Name user)
       (score reactionsMap tipsMap (UserModel.ID user)))
    <$> users.

(** The two score maps of [getLivestreamStatisticsHandler]. *)
Definition livestream_score_maps {B} (env : Env) (livestreamIDs : list Z)
  : M B (gmap Z Z * gmap Z Z) :=
  args ← sqlx_In "failed to build reactions query: " livestreamIDs;
  rows ← query env StmtQueryReactions "failed to fetch reactions: "
           (livestream_reactions_rows args);
  reactionsMap ← scan_rows "failed to scan reactions: " rows ∅;
  args ← sqlx_In "failed to build tips query: " livestreamIDs;
  rows ← query env StmtQueryTips "failed to fetch tips: "
           (livestream_tips_rows args);
  tipsMap ← scan_rows "failed to scan tips: " rows ∅;
  mret (reactionsMap, tipsMap).

(** [getLivestreamStatisticsHandler] up to the rank; the reply body is
    the field [Rank].  The other fields of [LivestreamStatistics] come
    from further aggregate queries that do not enter the rank. *)
Definition getLivestreamStatisticsHandler (env : Env) (c : EchoContext unit)
  : M Z (Reply Z) :=
  _ ← verifyUserSession env (sess c);
  livestreamID ← livestream_id_param c;
  _ ← attempt env StmtConnx "failed to get connection: ";
  found ← query env StmtSelectLivestream "failed to get livestream: "
            (select_livestream livestreamID);
  _ ← match found with
      | [] => abort (HTTPError StatusBadRequest
                       "cannot get stats of not found livestream")
      | _ :: _ => mret tt
      end;
  livestreams ← query env StmtSelectLivestreams "failed to get livestreams: "
                  livestreams;
  maps ← livestream_score_maps env (LivestreamModel.ID <$> livestreams);
  let ranking := livestream_ranking livestreams maps.1 maps.2 in
  let rank := compute_rank Z.ltb livestreamID ranking in
  mret (JSON StatusOK rank).

(** The two score maps of [getUserStatisticsHandler]. *)
Definition user_score_maps {B} (env : Env) (userIDs : list Z)
  : M B (gmap Z Z * gmap Z Z) :=
  args ← sqlx_In "failed to build reactions query: " userIDs;
  rows ← query env StmtQueryReactions "failed to fetch reactions: "
           (user_reactions_rows args);
  reactionsMap ← scan_rows "failed to scan reactions: " rows ∅;
  args ← sqlx_In "failed to build tips query: " userIDs;
  rows ← query env StmtQueryTips "failed to fetch tips: "
           (user_tips_rows args);
  tipsMap ← scan_rows "failed to scan tips: " rows ∅;
  mret (reactionsMap, tipsMap).

(** [getUserStatisticsHandler] up to the rank, for the path parameter
    [username]; the reply body is the field [Rank]. *)
Definition getUserStatisticsHandler (env : Env) (s : Session) (username : string)
  : M Z (Reply Z) :=
  _ ← verifyUserSession env s;
  _ ← attempt env StmtConnx "failed to get connection: ";
  found ← query env StmtSelectUserByName "failed to get user: "
            (fun st => filter (fun u => UserModel.Name u = username) (users st));
  _ ← match found with
      | [] => abort (HTTPError StatusBadRequest
                       "not found user that has the given username")
      | _ :: _ => mret tt
      end;
  users ← query env StmtSelectUsers "failed to get users: " users;
  maps ← user_score_maps env (UserModel.ID <$> users);
  let ranking := user_ranking users maps.1 maps.2 in
  let rank := compute_rank String.ltb username ranking in
  mret (JSON StatusOK rank).

(** The score as the specification words it: the number of reactions on
    the livestream plus the tips of its livecomments that are not
    hidden. *)
Definition reaction_count (st : Storage) (livestreamID : Z) : Z :=
  Z.of_nat (length (filter (fun r => ReactionModel.LivestreamID r = livestreamID)
                      (reactions st))).

Definition visible_tips (st : Storage) (livestreamID : Z) : Z :=
  sum_Z (LivecommentModel.Tip
           <$> filter (fun lc => LivecommentModel.LivestreamID lc = livestreamID
                                 /\ LivecommentModel.IsDeleted lc = false)
                 (livecomments st)).

Definition spec_livestream_score (st : Storage) (livestreamID : Z) : Z :=
  reaction_count st livestreamID + visible_tips st livestreamID.

(** A livestream is owned by [userID]. *)
Definition owned_by (st : Storage) (userID livestreamID : Z) : Prop :=
  exists l, l ∈ livestreams st /\ LivestreamModel.ID l = livestreamID
            /\ LivestreamModel.UserID l = userID.

#[global] Instance owned_by_dec st userID livestreamID :
  Decision (owned_by st userID livestreamID).
Proof.
  refine (cast_if (decide (Exists (fun l => LivestreamModel.ID l = livestreamID
                                   /\ LivestreamModel.UserID l = userID)
                             (livestreams st))));
    unfold owned_by; rewrite Exists_exists in *; naive_solver.
Defined.

(** The same for a user: reactions on, and visible tips of, the
    livestreams the user owns. *)
Definition user_reaction_count (st : Storage) (userID : Z) : Z :=
  Z.of_nat (length (filter (fun r => owned_by st userID (ReactionModel.LivestreamID r))
                      (reactions st))).

Definition user_visible_tips (st : Storage) (userID : Z) : Z :=
  sum_Z (LivecommentModel.Tip
           <$> filter (fun lc => owned_by st userID (LivecommentModel.LivestreamID lc)
                                 /\ LivecommentModel.IsDeleted lc = false)
                 (livecomments st)).

Definition spec_user_score (st : Storage) (userID : Z) : Z :=
  user_reaction_count st userID + user_visible_tips st userID.

(** The rankings with these scores. *)
Definition spec_livestream_ranking (st : Storage) : list LivestreamRankingEntry :=
  (fun l => mkEntry (LivestreamModel.ID l)
              (spec_livestream_score st (LivestreamModel.ID l)))
    <$> livestreams st.

Definition spec_user_ranking (st : Storage) : list UserRankingEntry :=
  (fun u => mkEntry (UserModel.Name u) (spec_user_score st (UserModel.ID u)))
    <$> users st.

(** The aggregates and the scores fit an [int64]. *)
Definition livestream_scores_fit (st : Storage) : Prop :=
  forall id, Int64.in_range (reaction_count st id)
             /\ Int64.in_range (visible_tips st id)
             /\ Int64.in_range (spec_livestream_score st id).

Definition user_scores_fit (st : Storage) : Prop :=
  forall id, Int64.in_range (user_reaction_count st id)
             /\ Int64.in_range (user_visible_tips st id)
             /\ Int64.in_range (spec_user_score st id).

(** The sum of the values of the rows with key [k]. *)
Definition sum_by (k : Z) (rows : list (Z * Z)) : Z :=
  sum_Z ((filter (fun r => r.1 = k) rows).*2).

(** The Go map that the scan loop builds from the rows. *)
Definition rows_to_map (rows : list (Z * Z)) (m : gmap Z Z) : gmap Z Z :=
  foldl (fun m r => <[r.1 := r.2]> m) m rows.

(** ** The icon hash cache

    [time.Time] values are instants in nanoseconds; [time.Duration] is a
    number of nanoseconds. *)

(** What a call on a lock-protected object comes to: it returns, or the
    calling goroutine blocks. *)
Inductive Outcome (S A : Type) : Type :=
| Returns (a : A) (s : S)
| Blocks (s : S).
Arguments Returns {S A} _ _.
Arguments Blocks {S A} _.

(** [sync.RWMutex]: the number of read locks held, and whether a writer
    holds the lock or has announced itself and waits for the readers to
    leave.  An announced writer keeps new readers out. *)
Module RWMutex.

Record t : Type := mk { readers : nat; writer : bool }.

Inductive Acquire : Type :=
| Acquired (mu : t)
| Waiting (mu : t).

Definition RLock (mu : t) : Acquire :=
  if writer mu then Waiting mu else Acquired (mk (S (readers mu)) false).

Definition RUnlock (mu : t) : t := mk (Nat.pred (readers mu)) (writer mu).

Definition Lock (mu : t) : Acquire :=
  if writer mu then Waiting mu
  else match readers mu with
       | O => Acquired (mk O true)
       | S _ => Waiting (mk (readers mu) true)
       end.

Definition Unlock (mu : t) : t := mk (readers mu) false.

End RWMutex.

Module IconHash.
Record t : Type := mk { IconHash : string; ExpireTime : Z }.
End IconHash.

Module IconHashCache.

Record t : Type := mk { mu : RWMutex.t; m : gmap string IconHash.t; ttl : Z }.

Definition with_mu (mu' : RWMutex.t) (c : t) : t := mk mu' (m c) (ttl c).

(** [func (c *IconHashCache) Get(username string) string] at the instant
    [time_Now].  The read lock taken on entry is released by the deferred
    [RUnlock], that is, when [Get] returns.  On an expired entry [Get]
    calls [c.mu.Lock()] with that read lock still held: the writer waits
    for a reader that is the caller itself.  (The source deletes from the
    global [iconHashCache.m]; [c] is that one instance.) *)
Definition Get (c : t) (time_Now : Z) (username : string) : Outcome t string :=
  match RWMutex.RLock (mu c) with
  | RWMutex.Waiting mu0 => Blocks (with_mu mu0 c)
  | RWMutex.Acquired mu1 =>
      match m c !! username with
      | None => Returns "" (with_mu (RWMutex.RUnlock mu1) c)
      | Some iconHash =>
          if IconHash.ExpireTime iconHash <? time_Now
          then match RWMutex.Lock mu1 with
               | RWMutex.Waiting mu2 => Blocks (with_mu mu2 c)
               | RWMutex.Acquired mu2 =>
                   Returns ""
                     (mk (RWMutex.RUnlock (RWMutex.Unlock mu2))
                        (delete username (m c)) (ttl c))
               end
          else Returns (IconHash.IconHash iconHash)
                 (with_mu (RWMutex.RUnlock mu1) c)
      end
  end.

(** [func (c *IconHashCache) Set(username string, iconHash string)]. *)
Definition Set_ (c : t) (time_Now : Z) (username iconHash : string)
  : Outcome t unit :=
  match RWMutex.Lock (mu c) with
  | RWMutex.Waiting mu0 => Blocks (with_mu mu0 c)
  | RWMutex.Acquired mu1 =>
      Returns tt
        (mk (RWMutex.Unlock mu1)
           (<[username := IconHash.mk iconHash (time_Now + ttl c)]> (m c))
           (ttl c))
  end.

End IconHashCache.

Definition time_Second : Z := 1000000000.

(** [var iconHashCache = &IconHashCache{...}]. *)
Definition iconHashCache : IconHashCache.t :=
  IconHashCache.mk (RWMutex.mk 0 false) ∅ (100 * time_Second).

(** ** [getIconHandler] *)

(** The process state the handler touches besides the tables: the cache
    and the icon files [./icons/<user id>.png]. *)
Record IconState : Type := mkIconState {
  icon_cache : IconHashCache.t;
  icon_files : gmap Z string
}.

Definition fallbackImage : string := "../img/NoImage.jpg".

(** The header value as compared with the cached hash:
    [if len(ifNoneMatch) > 2 { ifNoneMatch = ifNoneMatch[1 : len(ifNoneMatch)-1] }]. *)
Definition strip_quotes (ifNoneMatch : string) : string :=
  if decide (2 < String.length ifNoneMatch)%nat
  then String.substring 1 (String.length ifNoneMatch - 2) ifNoneMatch
  else ifNoneMatch.

Section Icon.

(** [getIconHash]: the hexadecimal SHA-256 digest of the image, computed
    by the standard library. *)
Variable getIconHash : string -> string.

(** The handler after the [If-None-Match] test. *)
Definition icon_response (env : Env) (st : Storage) (time_Now : Z)
  (username : string) (s : IconState) : Outcome IconState (Reply unit) :=
  if fails env StmtConnx
  then Returns (HTTPError StatusInternalServerError "failed to get connection: ") s
  else if fails env StmtSelectUserByName
  then Returns (HTTPError StatusInternalServerError "failed to get user: ") s
  else match filter (fun u => UserModel.Name u = username) (users st) with
  | [] => Returns (HTTPError StatusNotFound
                     "not found user that has the given username") s
  | user :: _ =>
      if fails env StmtReadFile
      then Returns (HTTPError StatusInternalServerError "failed to get user icon: ") s
      else
        let image := default "" (icon_files s !! UserModel.ID user) in
        if decide (String.length image = 0%nat)
        then
          if fails env StmtSelectIcon
          then Returns (HTTPError StatusInternalServerError "failed to get user icon: ") s
          else match filter (fun row => row.1 = UserModel.ID user) (icons st) with
          | [] => Returns (File fallbackImage) s
          | row :: _ =>
              let image := row.2 in
              let files' := if fails env StmtWriteFile then icon_files s
                            else <[UserModel.ID user := image]> (icon_files s) in
              match IconHashCache.Set_ (icon_cache s) time_Now username
                      (getIconHash image) with
              | Blocks cache' => Blocks (mkIconState cache' files')
              | Returns _ cache' =>
                  Returns (Blob StatusOK "image/jpeg" image)
                    (mkIconState cache' files')
              end
          end
        else Returns (Blob StatusOK "image/jpeg" image) s
  end.

(** [getIconHandler] for the path parameter [username] and the request
    header [If-None-Match] (empty when the header is missing). *)
Definition getIconHandler (env : Env) (st : Storage) (time_Now : Z)
  (username ifNoneMatch : string) (s : IconState)
  : Outcome IconState (Reply unit) :=
  match IconHashCache.Get (icon_cache s) time_Now username with
  | Blocks cache' => Blocks (mkIconState cache' (icon_files s))
  | Returns cachedIconHash cache' =>
      let s' := mkIconState cache' (icon_files s) in
      let ifNoneMatch := strip_quotes ifNoneMatch in
      if decide (ifNoneMatch <> "" /\ cachedIconHash = ifNoneMatch)
      then Returns (NoContent StatusNotModified) s'
      else icon_response env st time_Now username s'
  end.

End Icon.

(** ** Vocabulary of the statements *)

(** [sub] occurs in [s], as the specification words a match: substring
    containment, byte for byte. *)
Definition is_substring (sub s : string) : Prop :=
  exists p q : string, s = String.append p (String.append sub q).

(** Some rule in [rules] for the livestream matches [comment]. *)
Definition rule_matches (rules : list NGWord.t) (livestreamID : Z)
  (comment : string) : Prop :=
  exists w, w ∈ rules /\ NGWord.LivestreamID w = livestreamID
            /\ is_substring (NGWord.Word w) comment.

(** No call to the database fails. *)
Definition no_faults (env : Env) : Prop := forall s, fails env s = false.

(** [verifyUserSession] lets the request of user [userID] through. *)
Definition session_valid (env : Env) (s : Session) (userID : Z) : Prop :=
  session_error s = false
  /\ USERID s = Some userID
  /\ exists sessionExpires, EXPIRES s = Some sessionExpires
                            /\ now env <= sessionExpires.

(** The tables after a committed [moderateHandler]: the new rule, and the
    sweep over the visible comments of the livestream. *)
Definition moderate_committed (env : Env) (userID livestreamID : Z)
  (word : string) (st : Storage) : Storage :=
  let st1 := insert_ng_word (NGWord.mk 0 userID livestreamID word (now env)) st in
  update_is_deleted
    (collect_ng_livecomment_ids (select_visible_livecomments livestreamID st1)
       (select_ng_words livestreamID st1))
    st1.

(** A livecomment row with the soft-delete flag set. *)
Definition hidden (lc : LivecommentModel.t) : LivecommentModel.t :=
  LivecommentModel.mk (LivecommentModel.ID lc) (LivecommentModel.UserID lc)
    (LivecommentModel.LivestreamID lc) (LivecommentModel.Comment lc)
    (LivecommentModel.Tip lc) (LivecommentModel.CreatedAt lc) true.

(** ** Example data *)

(** Two users; livestream 10 of user 1 and livestream 11 of user 2;
    three reactions and the three comments of the specification's
    cascade example on livestream 10, with tips 100, 50 and 0. *)
Definition example_storage : Storage :=
  mkStorage
    [UserModel.mk 1 "alice" "" "" ""; UserModel.mk 2 "bob" "" "" ""]
    [LivestreamModel.mk 10 1; LivestreamModel.mk 11 2]
    [ReactionModel.mk 1 "heart" 2 10 0; ReactionModel.mk 2 "heart" 2 10 0;
     ReactionModel.mk 3 "smile" 2 10 0]
    [LivecommentModel.mk 1 2 10 "hello world" 100 0 false;
     LivecommentModel.mk 2 2 10 "spam here" 50 0 false;
     LivecommentModel.mk 3 2 10 "clean" 0 0 false]
    [] 4 1 [].

(** The same tables with the rule "banned" on livestream 10. *)
Definition example_storage_banned : Storage :=
  insert_ng_word (NGWord.mk 0 1 10 "banned" 0) example_storage.

(** The clock reads 100 and nothing fails. *)
Definition example_env : Env := mkEnv 100 (fun _ => false).

(** The same, with a [tx.Commit()] that fails. *)
Definition example_env_commit_fails : Env :=
  mkEnv 100 (fun s => match s with StmtCommit => true | _ => false end).

(** A live session of user 1 (alice). *)
Definition example_session : Session := mkSession false (Some 1000) (Some 1).

(** The cache after [iconHashCache.Set("alice", "abc")] at instant 0:
    the entry expires at 100 s. *)
Definition example_cache : IconHashCache.t :=
  IconHashCache.mk (RWMutex.mk 0 false)
    (<["alice" := IconHash.mk "abc" (100 * time_Second)]> ∅)
    (100 * time_Second).

(** The request header [If-None-Match: "abc"], quotes included. *)
Definition example_if_none_match : string :=
  String (Ascii.ascii_of_nat 34)
    (String.append "abc" (String (Ascii.ascii_of_nat 34) EmptyString)).

(** ** Further vocabulary *)

(** No visible livecomment matches a rule of its livestream. *)
Definition no_visible_spam (st : Storage) : Prop :=
  forall lc, lc ∈ livecomments st ->
             LivecommentModel.IsDeleted lc = false ->
             ~ rule_matches (ng_words st) (LivecommentModel.LivestreamID lc)
                 (LivecommentModel.Comment lc).

(** The example tables with an icon row for user 1 (alice). *)
Definition example_storage_icon : Storage :=
  mkStorage (users example_storage) (livestreams example_storage)
    (reactions example_storage) (livecomments example_storage)
    (ng_words example_storage) 4 1 [(1, "image-bytes")].

(** ** Further handlers

    The calls of the handlers below that may fail and that [Stmt] does
    not name; [last_insert_id] is the id that a table whose counter is
    not part of [Storage] assigns to the row a request inserts. *)

Inductive Stmt2 : Type :=
| StmtSumTips
| StmtInsertReaction
| StmtDeleteIcons | StmtInsertIcon | StmtSelectUserByID
| StmtSelectUsersIn | StmtSelectLivestreamsIn
| StmtCountReactions | StmtSelectUserLivestreams.

Record Env2 : Type := mkEnv2 {
  base : Env; fails2 : Stmt2 -> bool; last_insert_id : Z }.

(** [query], [exec] for these calls. *)
Definition query2 {B A} (env : Env2) (s : Stmt2) (message : string)
  (q : Storage -> A) : M B A :=
  fun db =>
    if fails2 env s then (db, inr (HTTPError StatusInternalServerError message))
    else (db, inl (q (view db))).

Definition exec2 {B A} (env : Env2) (s : Stmt2) (message : string)
  (r : Storage -> A) (u : Storage -> Storage) : M B A :=
  fun db =>
    if fails2 env s then (db, inr (HTTPError StatusInternalServerError message))
    else (apply_update u db, inl (r (view db))).

(** ** Payment: [GetPaymentResult] *)

(** [SELECT IFNULL(SUM(tip), 0) FROM livecomments]: every row, hidden
    or not. *)
Definition select_sum_tip (st : Storage) : Z :=
  sum_Z (LivecommentModel.Tip <$> livecomments st).

(** [GetPaymentResult]; the reply body is [total_tip].  Reading the sum
    into an [int64] fails when it does not fit. *)
Definition GetPaymentResult (env : Env2) : M Z (Reply Z) :=
  _ ← attempt (base env) StmtConnx "failed to get connection: ";
  sum ← query2 env StmtSumTips "failed to count total tip: " select_sum_tip;
  totalTip ← (if decide (Int64.in_range sum) then mret sum
              else abort (HTTPError StatusInternalServerError
                            "failed to count total tip: "));
  mret (JSON StatusOK totalTip).

(** ** Sessions: [verifyUserSessionWithUserID] *)

Definition verifyUserSessionWithUserID {B} (env : Env) (s : Session) : M B Z :=
  if session_error s
  then abort (HTTPError StatusUnauthorized "failed to get session")
  else match EXPIRES s with
       | None => abort (HTTPError StatusForbidden "failed to get EXPIRES value from session")
       | Some sessionExpires =>
           match USERID s with
           | None => abort (HTTPError StatusUnauthorized "failed to get USERID value from session")
           | Some userID =>
               if now env >? sessionExpires
               then abort (HTTPError StatusUnauthorized "session has expired")
               else mret userID
           end
       end.

(** ** Reactions: [postReactionHandler] *)

Module PostReactionRequest.
Record t : Type := mk { EmojiName : string }.
End PostReactionRequest.

(** The response struct; the nested [User] and [Livestream] objects are
    represented by their ids. *)
Module Reaction.
Record t : Type := mk {
  ID : Z; EmojiName : string; User : Z; Livestream : Z; CreatedAt : Z }.
End Reaction.

(** [INSERT INTO reactions (user_id, livestream_id, emoji_name,
    created_at) VALUES (:user_id, :livestream_id, :emoji_name,
    :created_at)]; the table assigns the id [id]. *)
Definition insert_reaction (id : Z) (row : ReactionModel.t) (st : Storage) : Storage :=
  mkStorage (users st) (livestreams st)
    (reactions st ++
       [ReactionModel.mk id (ReactionModel.EmojiName row) (ReactionModel.UserID row)
          (ReactionModel.LivestreamID row) (ReactionModel.CreatedAt row)])
    (livecomments st) (ng_words st) (livecomments_auto_increment st)
    (ng_words_auto_increment st) (icons st).

(** [fillReactionResponse]; as in [fillLivecommentResponse], the caller
    turns every error of it into the same reply, [fillUserResponse] and
    [fillLivestreamResponse] enter as calls that may fail. *)
Definition fillReactionResponse {B} (env : Env) (message : string)
  (reactionModel : ReactionModel.t) : M B Reaction.t :=
  found ← query env StmtFillSelectUser message
            (select_user (ReactionModel.UserID reactionModel));
  userModel ← match found with
              | [] => abort (HTTPError StatusInternalServerError message)
              | u :: _ => mret u
              end;
  _ ← attempt env StmtFillUser message;
  found ← query env StmtFillSelectLivestream message
            (select_livestream (ReactionModel.LivestreamID reactionModel));
  livestreamModel ← match found with
                    | [] => abort (HTTPError StatusInternalServerError message)
                    | l :: _ => mret l
                    end;
  _ ← attempt env StmtFillLivestream message;
  mret (Reaction.mk (ReactionModel.ID reactionModel)
          (ReactionModel.EmojiName reactionModel)
          (UserModel.ID userModel) (LivestreamModel.ID livestreamModel)
          (ReactionModel.CreatedAt reactionModel)).

(** [postReactionHandler].  The path parameter is read before the
    session is verified; a nil [req] is read when the row is built,
    inside the transaction. *)
Definition postReactionHandler (env : Env2) (c : EchoContext PostReactionRequest.t)
  : M Reaction.t (Reply Reaction.t) :=
  livestreamID ← livestream_id_param c;
  _ ← verifyUserSession (base env) (sess c);
  userID ← session_userID (sess c);
  req ← decode_body (body c);
  _ ← BeginTxx (base env);
  defer Rollback (
    req ← deref req;
    let reactionModel :=
      ReactionModel.mk 0 (PostReactionRequest.EmojiName req) userID livestreamID
        (now (base env)) in
    _ ← exec2 env StmtInsertReaction "failed to insert reaction: "
          (fun _ => tt) (insert_reaction (last_insert_id env) reactionModel);
    _ ← attempt (base env) StmtLastInsertId "failed to get last inserted reaction id: ";
    let reactionModel :=
      ReactionModel.mk (last_insert_id env) (PostReactionRequest.EmojiName req)
        userID livestreamID (now (base env)) in
    reaction ← fillReactionResponse (base env) "failed to fill reaction: "
                 reactionModel;
    _ ← Commit (base env);
    mret (JSON StatusCreated reaction)).

(** The tables after a committed [postReactionHandler]. *)
Definition reaction_committed (env : Env2) (userID livestreamID : Z)
  (emojiName : string) (st : Storage) : Storage :=
  insert_reaction (last_insert_id env)
    (ReactionModel.mk 0 emojiName userID livestreamID (now (base env))) st.

(** Nothing fails. *)
Definition example_env2 : Env2 := mkEnv2 example_env (fun _ => false) 4.

(** ** Icons: [postIconHandler] *)

Module PostIconRequest.
Record t : Type := mk { Image : string }.
End PostIconRequest.

Definition set_icons (f : list (Z * string) -> list (Z * string)) (st : Storage)
  : Storage :=
  mkStorage (users st) (livestreams st) (reactions st) (livecomments st)
    (ng_words st) (livecomments_auto_increment st) (ng_words_auto_increment st)
    (f (icons st)).

(** [DELETE FROM icons WHERE user_id = ?]. *)
Definition delete_icons (userID : Z) (st : Storage) : Storage :=
  set_icons (filter (fun row => row.1 <> userID)) st.

(** [INSERT INTO icons (user_id, image) VALUES (?, ?)]. *)
Definition insert_icon (userID : Z) (image : string) (st : Storage) : Storage :=
  set_icons (fun rows => rows ++ [(userID, image)]) st.

Section PostIcon.
Variable getIconHash : string -> string.

(** [postIconHandler] at the instant [time_Now], for a session whose
    value [USERNAME] is [USERNAME] ([None] when it is missing).  The
    statements run on a plain connection; the icon file and the cache
    are written before the first of them.  The reply body is the id of
    the new icon row. *)
Definition postIconHandler (env : Env2) (time_Now : Z) (session : Session)
  (USERNAME : option string) (body : Body PostIconRequest.t)
  (st : Storage) (s : IconState) : Outcome (Storage * IconState) (Reply Z) :=
  match (verifyUserSession (B:=Z) (base env) session (mkDB st None)).2 with
  | inr reply => Returns reply (st, s)
  | inl _ =>
  match USERID session with
  | None => Returns Panic (st, s)
  | Some userID =>
  match body with
  | BodyMalformed =>
      Returns (HTTPError StatusBadRequest "failed to decode the request body as json")
        (st, s)
  | BodyNull => Returns Panic (st, s)
  | BodyOf req =>
  let image := PostIconRequest.Image req in
  if fails (base env) StmtWriteFile
  then Returns (HTTPError StatusInternalServerError "failed to write icon file: ")
         (st, s)
  else
  let files' := <[userID := image]> (icon_files s) in
  match USERNAME with
  | None => Returns Panic (st, mkIconState (icon_cache s) files')
  | Some username =>
  match IconHashCache.Set_ (icon_cache s) time_Now username (getIconHash image) with
  | Blocks cache' => Blocks (st, mkIconState cache' files')
  | Returns _ cache1 =>
  let s1 := mkIconState cache1 files' in
  if fails (base env) StmtConnx
  then Returns (HTTPError StatusInternalServerError "failed to get connection: ")
         (st, s1)
  else if fails2 env StmtDeleteIcons
  then Returns (HTTPError StatusInternalServerError "failed to delete old user icon: ")
         (st, s1)
  else
  let st1 := delete_icons userID st in
  if fails2 env StmtInsertIcon
  then Returns (HTTPError StatusInternalServerError "failed to insert new user icon: ")
         (st1, s1)
  else
  let st2 := insert_icon userID image st1 in
  if fails (base env) StmtLastInsertId
  then Returns (HTTPError StatusInternalServerError
                  "failed to get last inserted icon id: ") (st2, s1)
  else
  let iconID := last_insert_id env in
  if fails2 env StmtSelectUserByID
  then Returns (HTTPError StatusInternalServerError "failed to get user: ") (st2, s1)
  else
  match select_user userID st2 with
  | [] => Returns (HTTPError StatusInternalServerError "failed to get user: ")
            (st2, s1)
  | userModel :: _ =>
  match IconHashCache.Set_ cache1 time_Now (UserModel.Name userModel)
          (getIconHash image) with
  | Blocks cache' => Blocks (st2, mkIconState cache' files')
  | Returns _ cache2 =>
      Returns (JSON StatusCreated iconID) (st2, mkIconState cache2 files')
  end end end end end end end.

End PostIcon.

(** What a call leaves behind, whether it returns or blocks. *)
Definition final_state {S A} (o : Outcome S A) : S :=
  match o with
  | Returns _ s => s
  | Blocks s => s
  end.

(** ** Listing: [getLivecommentsHandler], [getNgwords] *)

(** A query parameter read with [strconv.Atoi]: absent or empty, not an
    integer, or an integer. *)
Inductive QueryParam : Type :=
| ParamAbsent
| ParamMalformed
| ParamOf (n : Z).

(** [fillUserResponses], with the users represented by their ids: one
    [User] per model, in the order of the models and with the id of the
    model; nothing is done for an empty slice.  The icon hashes, read
    from the cache, the files and the icons table, only may fail here. *)
Definition fillUserResponses {B} (env : Env) (message : string)
  (userModels : list UserModel.t) : M B (list Z) :=
  if decide (length userModels = 0%nat) then mret []
  else
    _ ← attempt env StmtFillUser message;
    mret (UserModel.ID <$> userModels).

(** [fillLivestreamResponses] is not among the sources: as
    [fillLivestreamResponse] in [fillLivecommentResponse], it enters as
    a call that may fail, and the livestreams it returns are the rows
    that were read. *)
Definition fillLivestreamResponses {B} (env : Env) (message : string)
  (livestreamModels : list LivestreamModel.t) : M B (list Z) :=
  _ ← attempt env StmtFillLivestream message;
  mret (LivestreamModel.ID <$> livestreamModels).

(** [m := make(map[int64]T); for _, x := range xs { m[x.ID] = x }], the
    values represented by their ids. *)
Definition map_by_id (ids : list Z) : gmap Z Z :=
  foldl (fun m id => <[id := id]> m) ∅ ids.

(** The last loop of [fillLivecommentResponses]. *)
Fixpoint build_livecomments {B} (message : string) (userMap livestreamMap : gmap Z Z)
  (livecommentModels : list LivecommentModel.t) : M B (list Livecomment.t) :=
  match livecommentModels with
  | [] => mret []
  | livecommentModel :: rest =>
      match userMap !! LivecommentModel.UserID livecommentModel with
      | None => abort (HTTPError StatusInternalServerError message)
      | Some commentOwner =>
          match livestreamMap !! LivecommentModel.LivestreamID livecommentModel with
          | None => abort (HTTPError StatusInternalServerError message)
          | Some livestream =>
              livecomments ← build_livecomments message userMap livestreamMap rest;
              mret (Livecomment.mk (LivecommentModel.ID livecommentModel)
                      commentOwner livestream
                      (LivecommentModel.Comment livecommentModel)
                      (LivecommentModel.Tip livecommentModel)
                      (LivecommentModel.CreatedAt livecommentModel)
                    :: livecomments)
          end
      end
  end.

(** [fillLivecommentResponses]; the caller turns every error of it into
    the same reply. *)
Definition fillLivecommentResponses {B} (env : Env2) (message : string)
  (livecommentModels : list LivecommentModel.t) : M B (list Livecomment.t) :=
  if decide (length livecommentModels = 0%nat) then mret []
  else
    let userIDs := LivecommentModel.UserID <$> livecommentModels in
    let livestreamIDs := LivecommentModel.LivestreamID <$> livecommentModels in
    userModels ← (if decide (0 < length userIDs)%nat
                  then
                    args ← sqlx_In message userIDs;
                    query2 env StmtSelectUsersIn message
                      (fun st => filter (fun u => UserModel.ID u ∈ args) (users st))
                  else mret []);
    users ← fillUserResponses (base env) message userModels;
    let userMap := map_by_id users in
    livestreamModels ← (if decide (0 < length livestreamIDs)%nat
                        then
                          args ← sqlx_In message livestreamIDs;
                          query2 env StmtSelectLivestreamsIn message
                            (fun st => filter (fun l => LivestreamModel.ID l ∈ args)
                                         (livestreams st))
                        else mret []);
    livestreams ← fillLivestreamResponses (base env) message livestreamModels;
    let livestreamMap := map_by_id livestreams in
    build_livecomments message userMap livestreamMap livecommentModels.

Section Listing.

(** [ORDER BY created_at DESC]: the rows sorted by the key, greatest
    first; the order among rows of equal key is the server's. *)
Variable order_by_desc : forall A : Type, (A -> Z) -> list A -> list A.

(** [SELECT * FROM livecomments WHERE livestream_id = ? AND is_deleted = 0
    ORDER BY created_at DESC], with [LIMIT n] when a limit is given. *)
Definition select_livecomments_newest_first (livestreamID : Z) (limit : option Z)
  (st : Storage) : list LivecommentModel.t :=
  let rows := order_by_desc _ LivecommentModel.CreatedAt
                (select_visible_livecomments livestreamID st) in
  match limit with
  | None => rows
  | Some n => take (Z.to_nat n) rows
  end.

(** [getLivecommentsHandler] for the query parameter [limit].  A
    negative number after [LIMIT] is an error of the statement;
    [SelectContext] reports no [sql.ErrNoRows], an empty result is an
    empty slice. *)
Definition getLivecommentsHandler (env : Env2) (c : EchoContext unit)
  (limit : QueryParam) : M (list Livecomment.t) (Reply (list Livecomment.t)) :=
  _ ← verifyUserSession (base env) (sess c);
  livestreamID ← livestream_id_param c;
  _ ← attempt (base env) StmtConnx "failed to get connection: ";
  limit ← match limit with
          | ParamAbsent => mret None
          | ParamMalformed =>
              abort (HTTPError StatusBadRequest "limit query parameter must be integer")
          | ParamOf n => mret (Some n)
          end;
  livecommentModels ←
    match limit with
    | Some n =>
        if decide (n < 0)
        then abort (HTTPError StatusInternalServerError "failed to get livecomments: ")
        else query (base env) StmtSelectLivecomments "failed to get livecomments: "
               (select_livecomments_newest_first livestreamID (Some n))
    | None =>
        query (base env) StmtSelectLivecomments "failed to get livecomments: "
          (select_livecomments_newest_first livestreamID None)
    end;
  livecomments ← fillLivecommentResponses env "failed to fill livecomments: "
                   livecommentModels;
  mret (JSON StatusOK livecomments).

(** [SELECT * FROM ng_words WHERE user_id = ? AND livestream_id = ?
    ORDER BY created_at DESC]. *)
Definition select_own_ng_words (userID livestreamID : Z) (st : Storage)
  : list NGWord.t :=
  order_by_desc _ NGWord.CreatedAt
    (filter (fun w => NGWord.UserID w = userID /\ NGWord.LivestreamID w = livestreamID)
       (ng_words st)).

(** [getNgwords]. *)
Definition getNgwords (env : Env) (c : EchoContext unit)
  : M (list NGWord.t) (Reply (list NGWord.t)) :=
  _ ← verifyUserSession env (sess c);
  userID ← session_userID (sess c);
  livestreamID ← livestream_id_param c;
  _ ← attempt env StmtConnx "failed to get connection: ";
  ngWords ← query env StmtSelectNGWords "failed to get NG words: "
              (select_own_ng_words userID livestreamID);
  mret (JSON StatusOK ngWords).

End Listing.

(** The response that lists a livecomment row. *)
Definition Livecomment_of (lc : LivecommentModel.t) : Livecomment.t :=
  Livecomment.mk (LivecommentModel.ID lc) (LivecommentModel.UserID lc)
    (LivecommentModel.LivestreamID lc) (LivecommentModel.Comment lc)
    (LivecommentModel.Tip lc) (LivecommentModel.CreatedAt lc).

(** The rows are in the order of [ORDER BY key DESC]. *)
Definition sorted_desc {A} (key : A -> Z) (l : list A) : Prop :=
  StronglySorted (fun a b => key b <= key a) l.

(** An instance of [ORDER BY key DESC]. *)
Definition example_order_by_desc (A : Type) (key : A -> Z) (l : list A) : list A :=
  merge_sort (H:=fun a b => Z_le_dec (key b) (key a)) (fun a b => key b <= key a) l.

(** ** Statistics: the totals of [getUserStatisticsHandler] *)

(** [SELECT COUNT( * ) FROM users u
     INNER JOIN livestreams l ON l.user_id = u.id
     INNER JOIN reactions r ON r.livestream_id = l.id
     WHERE u.name = ?]. *)
Definition count_user_reactions (username : string) (st : Storage) : Z :=
  Z.of_nat
    (length (u ← filter (fun u => UserModel.Name u = username) (users st);
             l ← filter (fun l => LivestreamModel.UserID l = UserModel.ID u)
                   (livestreams st);
             filter (fun r => ReactionModel.LivestreamID r = LivestreamModel.ID l)
               (reactions st))).

(** [for _, livecomment := range livecomments {
       totalTip += livecomment.Tip; totalLivecomments++ }], on the pair
    [(totalLivecomments, totalTip)]. *)
Definition add_livecomments (livecomments : list LivecommentModel.t)
  (totals : Z * Z) : Z * Z :=
  foldl (fun totals livecomment =>
           (Int64.add totals.1 1,
            Int64.add totals.2 (LivecommentModel.Tip livecomment)))
    totals livecomments.

(** The loop over the livestreams of the user. *)
Fixpoint sum_livestreams {B} (env : Env) (livestreams : list LivestreamModel.t)
  (totals : Z * Z) : M B (Z * Z) :=
  match livestreams with
  | [] => mret totals
  | livestream :: rest =>
      livecomments ← query env StmtSelectLivecomments "failed to get livecomments: "
                       (select_visible_livecomments (LivestreamModel.ID livestream));
      sum_livestreams env rest (add_livecomments livecomments totals)
  end.

(** The fields [TotalReactions], [TotalLivecomments] and [TotalTip] of
    [UserStatistics]. *)
Module UserStatistics.
Record t : Type := mk { TotalReactions : Z; TotalLivecomments : Z; TotalTip : Z }.
End UserStatistics.

(** [getUserStatisticsHandler] after the rank, up to [TotalTip], for the
    path parameter [username] and the row [user] that the handler read
    for it first.  Reading the count into an [int64] fails when it does
    not fit. *)
Definition user_statistics_totals {B} (env : Env2) (username : string)
  (user : UserModel.t) : M B UserStatistics.t :=
  count ← query2 env StmtCountReactions "failed to count total reactions: "
            (count_user_reactions username);
  totalReactions ← (if decide (Int64.in_range count) then mret count
                    else abort (HTTPError StatusInternalServerError
                                  "failed to count total reactions: "));
  livestreams ← query2 env StmtSelectUserLivestreams "failed to get livestreams: "
                  (fun st => filter (fun l => LivestreamModel.UserID l = UserModel.ID user)
                               (livestreams st));
  totals ← sum_livestreams (base env) livestreams (0, 0);
  mret (UserStatistics.mk totalReactions totals.1 totals.2).

(** * Part II: properties *)

(** ** Arithmetic on [int64] *)

Lemma Int64_wrap_in_range z : Int64.in_range z -> Int64.wrap z = z.
Proof.
  unfold Int64.in_range, Int64.min_int, Int64.max_int, Int64.wrap. intros Hz.
  rewrite Z.mod_small; lia.
Qed.

Lemma Int64_wrap_range z : Int64.in_range (Int64.wrap z).
Proof.
  unfold Int64.in_range, Int64.min_int, Int64.max_int, Int64.wrap.
  pose proof (Z.mod_pos_bound (z + 2 ^ 63) (2 ^ 64)). lia.
Qed.

Lemma Int64_add_exact x y : Int64.in_range (x + y) -> Int64.add x y = x + y.
Proof. apply Int64_wrap_in_range. Qed.

(** ** The key orders of the two rankings *)

#[global] Instance Z_KeyOrder : KeyOrder Z.ltb.
Proof.
  split.
  - intros k. apply Z.ltb_irrefl.
  - intros a b c H1 H2. apply Z.ltb_lt. apply Z.ltb_lt in H1, H2. lia.
  - intros a b H1 H2. apply Z.ltb_ge in H1, H2. lia.
Qed.

Lemma string_compare_refl (s : string) : String.compare s s = Eq.
Proof.
  induction s as [|c s IH]; simpl; [reflexivity|].
  unfold Ascii.compare. rewrite N.compare_refl. exact IH.
Qed.

Lemma ascii_compare_lt_trans (a b c : Ascii.ascii) :
  Ascii.compare a b = Lt -> Ascii.compare b c = Lt -> Ascii.compare a c = Lt.
Proof.
  unfold Ascii.compare. rewrite !N.compare_lt_iff. lia.
Qed.

Lemma string_compare_lt_trans (s1 s2 s3 : string) :
  String.compare s1 s2 = Lt -> String.compare s2 s3 = Lt ->
  String.compare s1 s3 = Lt.
Proof.
  revert s2 s3.
  induction s1 as [|c1 s1 IH]; intros [|c2 s2] [|c3 s3]; simpl; try congruence.
  destruct (Ascii.compare c1 c2) eqn:H12; try discriminate.
  - apply Ascii.compare_eq_iff in H12. subst c2.
    destruct (Ascii.compare c1 c3) eqn:H13; try congruence.
    intros Ha Hb. eapply IH; eassumption.
  - intros _.
    destruct (Ascii.compare c2 c3) eqn:H23; try discriminate.
    + apply Ascii.compare_eq_iff in H23. subst c3. rewrite H12. reflexivity.
    + rewrite (ascii_compare_lt_trans _ _ _ H12 H23). reflexivity.
Qed.

#[global] Instance string_KeyOrder : KeyOrder String.ltb.
Proof.
  split.
  - intros k. unfold String.ltb. rewrite string_compare_refl. reflexivity.
  - intros a b c. unfold String.ltb.
    destruct (String.compare a b) eqn:Hab; try discriminate.
    destruct (String.compare b c) eqn:Hbc; try discriminate.
    rewrite (string_compare_lt_trans _ _ _ Hab Hbc). reflexivity.
  - intros a b. unfold String.ltb. rewrite (String.compare_antisym b a).
    destruct (String.compare a b) eqn:Hab; simpl; try discriminate.
    intros _ _. apply String.compare_eq_iff. exact Hab.
Qed.

(** ** [Less] is a strict total order; [sort.Sort] *)

Section RankingFacts.
Context {K : Type} `{EqDecision K}.
Context (key_ltb : K -> K -> bool) `{!KeyOrder key_ltb}.

Local Abbreviation lt := (Less key_ltb).
Local Abbreviation le := (not_after key_ltb).

Lemma Less_irrefl e : lt e e = false.
Proof. unfold Less. rewrite Z.eqb_refl. apply key_ltb_irrefl. Qed.

Lemma Less_total a b : lt a b = false -> lt b a = false -> a = b.
Proof.
  destruct a as [ka sa], b as [kb sb]. unfold Less. simpl.
  destruct (Z.eqb_spec sa sb) as [->|Hne].
  - rewrite Z.eqb_refl. intros H1 H2. f_equal. by apply key_ltb_total.
  - destruct (Z.eqb_spec sb sa) as [->|_]; [done|].
    rewrite !Z.ltb_ge. lia.
Qed.

Lemma Less_trans a b c : lt a b = true -> lt b c = true -> lt a c = true.
Proof.
  destruct a as [ka sa], b as [kb sb], c as [kc sc]. unfold Less. simpl.
  destruct (Z.eqb_spec sa sb), (Z.eqb_spec sb sc), (Z.eqb_spec sa sc);
    subst; rewrite ?Z.ltb_lt; try (intros; lia).
  apply key_ltb_trans.
Qed.

Lemma Less_asym a b : lt a b = true -> lt b a = false.
Proof.
  intros Hab. destruct (lt b a) eqn:Hba; [|done].
  pose proof (Less_trans _ _ _ Hab Hba) as Haa.
  by rewrite Less_irrefl in Haa.
Qed.

Lemma not_after_cases a b : le a b -> lt a b = true \/ a = b.
Proof.
  unfold not_after. intros Hba.
  destruct (lt a b) eqn:Hab; [by left|right]. by apply Less_total.
Qed.

#[local] Instance not_after_trans : Transitive le.
Proof.
  intros a b c Hab Hbc. unfold not_after.
  destruct (lt c a) eqn:Hca; [|done].
  destruct (not_after_cases _ _ Hab) as [Hlt| ->].
  - pose proof (Less_trans _ _ _ Hca Hlt) as Hcb.
    unfold not_after in Hbc. congruence.
  - unfold not_after in Hbc. congruence.
Qed.

#[local] Instance not_after_antisym : AntiSymm (=) le.
Proof. intros a b Hab Hba. by apply Less_total. Qed.

Lemma sort_insert_Permutation x l : sort_insert key_ltb x l ≡ₚ x :: l.
Proof.
  induction l as [|y l IH]; simpl; [done|].
  destruct (lt x y); [done|]. rewrite IH. apply Permutation_swap.
Qed.

Lemma sort_Sort_Permutation l : sort_Sort key_ltb l ≡ₚ l.
Proof.
  induction l as [|x l IH]; simpl; [done|].
  by rewrite sort_insert_Permutation, IH.
Qed.

Lemma sort_insert_sorted x l :
  StronglySorted le l -> StronglySorted le (sort_insert key_ltb x l).
Proof.
  induction l as [|y l IH]; simpl; intros Hl.
  - repeat constructor.
  - apply StronglySorted_cons in Hl as [Hy Hl].
    destruct (lt x y) eqn:Hxy.
    + apply StronglySorted_cons. split.
      * constructor; [by apply Less_asym|].
        eapply Forall_impl; [exact Hy|]. intros z Hz.
        transitivity y; [|done]. by apply Less_asym.
      * by apply StronglySorted_cons.
    + apply StronglySorted_cons. split; [|by apply IH].
      rewrite sort_insert_Permutation. by constructor.
Qed.

Lemma sort_Sort_sorted l : StronglySorted le (sort_Sort key_ltb l).
Proof.
  induction l as [|x l IH]; simpl; [constructor|]. by apply sort_insert_sorted.
Qed.

(** Whatever algorithm [sort.Sort] runs, its result is this list: the
    rearrangement of the input in which no element is [Less] than an
    earlier one is unique. *)
Lemma sort_Sort_unique l l' :
  l' ≡ₚ l -> StronglySorted le l' -> l' = sort_Sort key_ltb l.
Proof.
  intros Hp Hs. eapply StronglySorted_unique; [apply _|done|apply sort_Sort_sorted|].
  by rewrite sort_Sort_Permutation.
Qed.

Lemma sort_Sort_reverse_sorted l :
  StronglySorted (flip le) (reverse (sort_Sort key_ltb l)).
Proof.
  apply Sorted_StronglySorted.
  - intros a b c Hab Hbc. unfold flip in *. by transitivity b.
  - apply Sorted_reverse, StronglySorted_Sorted, sort_Sort_sorted.
Qed.

(** *** The rank loop *)


Lemma rank_loop_found target (pre : list (RankingEntry K)) e post rank :
  Forall (fun x => Key x <> target) pre ->
  Key e = target ->
  Int64.min_int <= rank ->
  rank + Z.of_nat (length pre) <= Int64.max_int ->
  rank_loop target (pre ++ e :: post) rank = rank + Z.of_nat (length pre).
Proof.
  revert rank. induction pre as [|x pre IH]; intros rank Hall He Hlo Hhi; simpl.
  - destruct (decide (Key e = target)); [lia|done].
  - apply Forall_cons in Hall as [Hx Hall].
    destruct (decide (Key x = target)); [done|].
    simpl length in Hhi.
    rewrite Int64_add_exact by (unfold Int64.in_range; lia).
    rewrite IH; [lia|done|done|lia|lia].
Qed.




(** *** Rank as a count of the entries above *)

Lemma count_above_none e (l : list (RankingEntry K)) :
  Forall (fun y => lt e y = false) l -> count_above key_ltb e l = O.
Proof.
  unfold count_above. induction 1 as [|y l Hy _ IH]; [done|].
  rewrite filter_cons_False; [done|]. by rewrite Hy.
Qed.

Lemma count_above_Permutation e (l l' : list (RankingEntry K)) :
  l ≡ₚ l' -> count_above key_ltb e l = count_above key_ltb e l'.
Proof. unfold count_above. by intros ->. Qed.

Lemma count_above_le_length e (l : list (RankingEntry K)) :
  (count_above key_ltb e l <= length l)%nat.
Proof. apply length_filter. Qed.

Lemma rank_loop_count e (walk : list (RankingEntry K)) rank :
  StronglySorted (flip le) walk ->
  NoDup (Key <$> walk) ->
  e ∈ walk ->
  Int64.min_int <= rank ->
  rank + Z.of_nat (length walk) <= Int64.max_int ->
  rank_loop (Key e) walk rank = rank + Z.of_nat (count_above key_ltb e walk).
Proof.
  revert rank.
  induction walk as [|x walk IH]; intros rank Hs Hnd Hin Hlo Hhi.
  - by apply elem_of_nil in Hin.
  - apply StronglySorted_cons in Hs as [Hx Hs].
    rewrite fmap_cons in Hnd. apply NoDup_cons in Hnd as [Hxk Hnd].
    simpl. destruct (decide (Key x = Key e)) as [Heq|Hne].
    + assert (e = x) as ->.
      { apply elem_of_cons in Hin as [->|Hin]; [done|].
        exfalso. apply Hxk. rewrite Heq. apply list_elem_of_fmap. by exists e. }
      rewrite count_above_none; [lia|].
      constructor; [apply Less_irrefl|]. exact Hx.
    + apply elem_of_cons in Hin as [->|Hin]; [done|].
      assert (lt e x = true) as Hex.
      { rewrite Forall_forall in Hx. specialize (Hx e Hin).
        unfold flip, not_after in Hx.
        destruct (lt e x) eqn:Hex; [done|].
        exfalso. apply Hne. f_equal. by apply Less_total. }
      simpl length in Hhi.
      rewrite Int64_add_exact by (unfold Int64.in_range; lia).
      rewrite IH; [|done|done|done|lia|lia].
      unfold count_above. rewrite filter_cons_True by done. simpl length. lia.
Qed.

Lemma compute_rank_count e pop :
  NoDup (Key <$> pop) ->
  e ∈ pop ->
  Z.of_nat (length pop) < Int64.max_int ->
  compute_rank key_ltb (Key e) pop = 1 + Z.of_nat (count_above key_ltb e pop).
Proof.
  intros Hnd Hin Hlen. unfold compute_rank.
  assert (Hperm : reverse (sort_Sort key_ltb pop) ≡ₚ pop)
    by (by rewrite reverse_Permutation, sort_Sort_Permutation).
  rewrite rank_loop_count.
  - by rewrite (count_above_Permutation _ _ _ Hperm).
  - apply sort_Sort_reverse_sorted.
  - by rewrite Hperm.
  - by rewrite Hperm.
  - unfold Int64.min_int. lia.
  - rewrite Hperm. lia.
Qed.

Lemma filter_length_lt {A} (P Q : A -> Prop)
  `{forall x, Decision (P x)} `{forall x, Decision (Q x)} (l : list A) x :
  (forall y, P y -> Q y) -> x ∈ l -> Q x -> ~ P x ->
  (length (filter P l) < length (filter Q l))%nat.
Proof.
  intros HPQ Hin HQ HP.
  assert (Hle : forall k : list A, (length (filter P k) <= length (filter Q k))%nat).
  { induction k as [|y k IH]; [done|].
    rewrite !filter_cons. destruct (decide (P y)) as [Hy|Hy].
    - rewrite decide_True by auto. simpl. lia.
    - destruct (decide (Q y)); simpl; lia. }
  induction l as [|y l IH]; [by apply elem_of_nil in Hin|].
  rewrite !filter_cons.
  apply elem_of_cons in Hin as [<-|Hin].
  - rewrite decide_False by done. rewrite decide_True by done.
    simpl. specialize (Hle l). lia.
  - specialize (IH Hin). destruct (decide (P y)) as [Hy|Hy].
    + rewrite decide_True by auto. simpl. lia.
    + destruct (decide (Q y)); simpl; lia.
Qed.

(** Between two entries of equal score, the one with the greater key
    stands nearer the end of the sorted slice, where the walk starts. *)
Lemma compute_rank_tie a b pop :
  NoDup (Key <$> pop) ->
  a ∈ pop -> b ∈ pop ->
  Score a = Score b ->
  key_ltb (Key a) (Key b) = true ->
  Z.of_nat (length pop) < Int64.max_int ->
  compute_rank key_ltb (Key b) pop < compute_rank key_ltb (Key a) pop.
Proof.
  intros Hnd Ha Hb Hs Hk Hlen.
  rewrite !compute_rank_count by done.
  assert (Hab : lt a b = true).
  { unfold Less. rewrite Hs, Z.eqb_refl. exact Hk. }
  enough (count_above key_ltb b pop < count_above key_ltb a pop)%nat by lia.
  unfold count_above. apply (filter_length_lt _ _ pop b).
  - intros y Hy. by eapply Less_trans.
  - done.
  - done.
  - rewrite Less_irrefl. done.
Qed.

End RankingFacts.

(** ** The ranking of the two statistics handlers *)

(** The population of the specification's example: ids 3, 1, 2, each
    with score 5. *)
Example trio_ranks :
  let pop : list LivestreamRankingEntry := [mkEntry 3 5; mkEntry 1 5; mkEntry 2 5] in
  sort_Sort Z.ltb pop = [mkEntry 1 5; mkEntry 2 5; mkEntry 3 5]
  /\ compute_rank Z.ltb 3 pop = 1
  /\ compute_rank Z.ltb 2 pop = 2
  /\ compute_rank Z.ltb 1 pop = 3.
Proof. vm_compute. auto. Qed.

(** C1, as stated, fails: in the population ids 3, 1, 2 with equal
    scores 5, the lowest id 1 receives rank 3, the numerically largest of
    the trio, and id 3 receives rank 1; so id 1 does not rank best. *)
Lemma C1_lowest_key_ranks_worst :
  let pop : list LivestreamRankingEntry := [mkEntry 3 5; mkEntry 1 5; mkEntry 2 5] in
  compute_rank Z.ltb 1 pop = 3
  /\ compute_rank Z.ltb 3 pop = 1
  /\ ~ (compute_rank Z.ltb 1 pop <= compute_rank Z.ltb 2 pop
        /\ compute_rank Z.ltb 1 pop <= compute_rank Z.ltb 3 pop).
Proof. vm_compute. repeat split; try done. intros [H _]. by apply H. Qed.

(** C1 (amended): in a population with distinct tie-break keys, of two
    entities with equal scores the one with the greater tie-break key
    (greater livestream id, lexicographically greater user name) receives
    the numerically smaller, better, rank. *)
Theorem C1_tie_break_greatest_key_ranks_best :
  (forall (pop : list LivestreamRankingEntry) (a b : LivestreamRankingEntry),
      NoDup (LivestreamID <$> pop) ->
      a ∈ pop -> b ∈ pop ->
      Score a = Score b ->
      LivestreamID a < LivestreamID b ->
      Z.of_nat (length pop) < Int64.max_int ->
      compute_rank Z.ltb (LivestreamID b) pop
      < compute_rank Z.ltb (LivestreamID a) pop)
  /\ (forall (pop : list UserRankingEntry) (a b : UserRankingEntry),
      NoDup (Username <$> pop) ->
      a ∈ pop -> b ∈ pop ->
      Score a = Score b ->
      String.ltb (Username a) (Username b) = true ->
      Z.of_nat (length pop) < Int64.max_int ->
      compute_rank String.ltb (Username b) pop
      < compute_rank String.ltb (Username a) pop).
Proof.
  split.
  - intros pop a b Hnd Ha Hb Hs Hk Hlen.
    apply (compute_rank_tie Z.ltb a b pop); try done. by apply Z.ltb_lt.
  - intros pop a b Hnd Ha Hb Hs Hk Hlen.
    by apply (compute_rank_tie String.ltb a b pop).
Qed.

Lemma C1_tie_break_witness :
  compute_rank Z.ltb 3 [mkEntry 3 5; mkEntry 1 5; mkEntry 2 5]
  < compute_rank Z.ltb 1 [mkEntry 3 5; mkEntry 1 5; mkEntry 2 5]
  /\ compute_rank String.ltb "bob" [mkEntry "bob" 5; mkEntry "alice" 5]
     < compute_rank String.ltb "alice" [mkEntry "bob" 5; mkEntry "alice" 5].
Proof.
  split.
  - apply (proj1 C1_tie_break_greatest_key_ranks_best
             [mkEntry 3 5; mkEntry 1 5; mkEntry 2 5] (mkEntry 1 5) (mkEntry 3 5)).
    + apply (bool_decide_unpack _). vm_compute. exact I.
    + apply (bool_decide_unpack _). vm_compute. exact I.
    + apply (bool_decide_unpack _). vm_compute. exact I.
    + reflexivity.
    + reflexivity.
    + vm_compute. reflexivity.
  - apply (proj2 C1_tie_break_greatest_key_ranks_best
             [mkEntry "bob" 5; mkEntry "alice" 5]
             (mkEntry "alice" 5) (mkEntry "bob" 5)).
    + apply (bool_decide_unpack _). vm_compute. exact I.
    + apply (bool_decide_unpack _). vm_compute. exact I.
    + apply (bool_decide_unpack _). vm_compute. exact I.
    + reflexivity.
    + reflexivity.
    + vm_compute. reflexivity.
Defined.



(** ** [strings.Contains] is substring containment *)

Lemma append_String c (s q : string) :
  String.append (String c s) q = String c (String.append s q).
Proof. reflexivity. Qed.

Lemma append_empty (q : string) : String.append "" q = q.
Proof. reflexivity. Qed.

Lemma prefix_is_append (sub s : string) :
  String.prefix sub s = true <-> exists q, s = String.append sub q.
Proof.
  revert s. induction sub as [|c sub IH]; intros s.
  - split; [intros _; by exists s|intros _; by destruct s].
  - destruct s as [|d s]; simpl.
    + split; [done|]. intros [q Hq]. by rewrite append_String in Hq.
    + destruct (Ascii.ascii_dec c d) as [->|Hne].
      * rewrite IH. split; intros [q Hq]; exists q;
          rewrite append_String in *; congruence.
      * split; [done|]. intros [q Hq]. rewrite append_String in Hq. congruence.
Qed.

Lemma strings_Contains_unfold (s sub : string) :
  strings_Contains s sub =
  if String.prefix sub s then true
  else match s with
       | EmptyString => false
       | String _ s' => strings_Contains s' sub
       end.
Proof. by destruct s. Qed.

Lemma strings_Contains_spec (s sub : string) :
  strings_Contains s sub = true <-> is_substring sub s.
Proof.
  unfold is_substring. split.
  - induction s as [|c s IH]; rewrite strings_Contains_unfold.
    + destruct (String.prefix sub "") eqn:Hp; [|done].
      intros _. apply prefix_is_append in Hp as [q Hq].
      exists "", q. by rewrite append_empty.
    + destruct (String.prefix sub (String c s)) eqn:Hp.
      * intros _. apply prefix_is_append in Hp as [q Hq].
        exists "", q. by rewrite append_empty.
      * intros Hc. destruct (IH Hc) as (p & q & ->).
        exists (String c p), q. by rewrite append_String.
  - intros (p & q & ->). induction p as [|c p IH];
      rewrite strings_Contains_unfold.
    + rewrite append_empty.
      assert (String.prefix sub (String.append sub q) = true) as Hp
        by (apply prefix_is_append; by exists q).
      by rewrite Hp.
    + rewrite append_String, IH.
      by destruct (String.prefix sub _).
Qed.

Lemma contains_ngword_spec (comment : string) (ngwords : list NGWord.t) :
  contains_ngword comment ngwords = true
  <-> exists w, w ∈ ngwords /\ is_substring (NGWord.Word w) comment.
Proof.
  induction ngwords as [|w ngwords IH]; simpl.
  - split; [done|]. intros (w & Hw & _). by apply elem_of_nil in Hw.
  - destruct (strings_Contains comment (NGWord.Word w)) eqn:Hc.
    + split; [|done]. intros _. exists w. split; [left|].
      by apply strings_Contains_spec.
    + rewrite IH. split.
      * intros (w' & Hw' & Hs). exists w'. split; [by right|done].
      * intros (w' & Hw' & Hs). apply elem_of_cons in Hw' as [->|Hw'].
        -- apply strings_Contains_spec in Hs. congruence.
        -- by exists w'.
Qed.

(** ** Running a handler *)

Ltac run_handler :=
  unfold serve, moderateHandler, postLivecommentHandler, fillLivecommentResponse,
    verifyUserSession, livestream_id_param, session_userID, decode_body, deref,
    sqlx_In, BeginTxx, Commit, defer, attempt, query, exec, abort,
    mbind, M_bind, mret, M_ret, view, apply_update, Rollback; simpl.

(** Case analysis on every test of the handler in the goal, closing the
    cases that [tac] solves. *)
Ltac handler_cases tac :=
  repeat (case_match; simplify_eq/=; try (tac; fail)).

Lemma session_valid_inv env s userID :
  session_valid env s userID ->
  exists sessionExpires,
    s = mkSession false (Some sessionExpires) (Some userID)
    /\ (now env >? sessionExpires) = false.
Proof.
  destruct s as [e x u]. unfold session_valid. simpl.
  intros (-> & -> & sessionExpires & -> & Hle).
  exists sessionExpires. split; [done|]. lia.
Qed.

Lemma NoDup_fmap_eq {A B} (f : A -> B) (l : list A) x y :
  NoDup (f <$> l) -> x ∈ l -> y ∈ l -> f x = f y -> x = y.
Proof.
  induction l as [|z l IH]; intros Hnd Hx Hy Hf.
  - by apply elem_of_nil in Hx.
  - rewrite fmap_cons in Hnd. apply NoDup_cons in Hnd as [Hz Hnd].
    apply elem_of_cons in Hx as [->|Hx]; apply elem_of_cons in Hy as [->|Hy].
    + done.
    + exfalso. apply Hz. rewrite Hf. by apply list_elem_of_fmap_2.
    + exfalso. apply Hz. rewrite <- Hf. by apply list_elem_of_fmap_2.
    + by apply IH.
Qed.

(** ** Moderation *)

Lemma hide_row_nil lc : hide_row [] lc = lc.
Proof. unfold hide_row. rewrite decide_False; [done|]. apply not_elem_of_nil. Qed.

Lemma update_is_deleted_nil st : update_is_deleted [] st = st.
Proof.
  destruct st as [u l r lcs n a b i].
  unfold update_is_deleted, set_livecomments. simpl. f_equal.
  rewrite <- (list_fmap_id lcs) at 2. apply list_fmap_ext.
  intros j lc _. apply hide_row_nil.
Qed.

Lemma hide_row_cases ids lc :
  hide_row ids lc = if decide (LivecommentModel.ID lc ∈ ids) then hidden lc else lc.
Proof. reflexivity. Qed.

Lemma collect_ng_livecomment_ids_spec id lcs ngwords :
  id ∈ collect_ng_livecomment_ids lcs ngwords
  <-> exists lc, lc ∈ lcs /\ LivecommentModel.ID lc = id
                 /\ contains_ngword (LivecommentModel.Comment lc) ngwords = true.
Proof.
  induction lcs as [|lc lcs IH]; simpl.
  - split; [intros H; by apply elem_of_nil in H|].
    intros (lc & H & _). by apply elem_of_nil in H.
  - destruct (contains_ngword (LivecommentModel.Comment lc) ngwords) eqn:Hc.
    + rewrite elem_of_cons, IH. split.
      * intros [->|(lc' & Hin & Hid & Hm)].
        -- exists lc. split; [left|done].
        -- exists lc'. split; [by right|done].
      * intros (lc' & Hin & Hid & Hm).
        apply elem_of_cons in Hin as [->|Hin]; [by left|right; by exists lc'].
    + rewrite IH. split.
      * intros (lc' & Hin & Hid & Hm). exists lc'. split; [by right|done].
      * intros (lc' & Hin & Hid & Hm).
        apply elem_of_cons in Hin as [->|Hin]; [congruence|by exists lc'].
Qed.

Lemma select_owned_livestreams_nil st userID livestreamID :
  select_owned_livestreams livestreamID userID st = []
  <-> ~ owned_by st userID livestreamID.
Proof.
  unfold select_owned_livestreams, owned_by. split.
  - intros Hnil (l & Hin & Hid & Hu).
    assert (l ∈ filter (fun l => LivestreamModel.ID l = livestreamID
                                 /\ LivestreamModel.UserID l = userID)
                  (livestreams st)) as Hf
      by (by apply list_elem_of_filter).
    rewrite Hnil in Hf. by apply elem_of_nil in Hf.
  - intros Hno. apply elem_of_nil_inv. intros l Hl.
    apply list_elem_of_filter in Hl as [[Hid Hu] Hin].
    apply Hno. by exists l.
Qed.

(** Every run of [moderateHandler] either leaves the tables as they were
    and does not reply 201, or commits the rule together with the sweep
    and replies 201 with the id of the rule. *)
Lemma moderateHandler_cases env c st :
  let res := serve (moderateHandler env c) st in
  (res.1 = st /\ forall id, res.2 <> JSON StatusCreated id)
  \/ (exists userID livestreamID req,
        USERID (sess c) = Some userID
        /\ param_livestream_id c = Some livestreamID
        /\ body c = BodyOf req
        /\ res.1 = moderate_committed env userID livestreamID
                     (ModerateRequest.NGWord req) st
        /\ res.2 = JSON StatusCreated (ng_words_auto_increment st)
        /\ fails env StmtLastInsertId = false
        /\ fails env StmtSelectNGWords = false
        /\ fails env StmtSelectLivecomments = false
        /\ fails env StmtCommit = false
        /\ (fails env StmtUpdateLivecomments = true ->
            livecomments res.1 = livecomments st)).
Proof.
  destruct c as [[serr ex uid] pid bd].
  run_handler.
  handler_cases ltac:(left; split; [done|by intros]).
  all: right; eexists _, _, _; repeat split; try done.
  all: unfold moderate_committed.
  all: try (intros Hupd; congruence).
  all: try (match goal with
            | H : collect_ng_livecomment_ids _ _ = _ |- _ = _ => by rewrite H
            end).
  all: match goal with
       | n : ~ (0 < length ?l)%nat |- _ =>
           destruct l; [by rewrite update_is_deleted_nil|simpl in n; lia]
       end.
Qed.

Lemma moderateHandler_ok env c st userID livestreamID req :
  no_faults env ->
  session_valid env (sess c) userID ->
  param_livestream_id c = Some livestreamID ->
  body c = BodyOf req ->
  owned_by st userID livestreamID ->
  serve (moderateHandler env c) st
  = (moderate_committed env userID livestreamID (ModerateRequest.NGWord req) st,
     JSON StatusCreated (ng_words_auto_increment st)).
Proof.
  intros Hnf Hs Hp Hb Hown.
  destruct c as [s pid bd]. simpl in *. subst pid bd.
  destruct (session_valid_inv _ _ _ Hs) as (ex & -> & Hex).
  assert (select_owned_livestreams livestreamID userID st <> []) as Hne.
  { intros Hnil. by apply select_owned_livestreams_nil in Hnil. }
  run_handler. rewrite Hex. repeat (rewrite ?Hnf; simpl).
  destruct (select_owned_livestreams livestreamID userID st) as [|l ls] eqn:Hsel;
    [done|]. repeat (rewrite ?Hnf; simpl).
  unfold moderate_committed.
  destruct (collect_ng_livecomment_ids _ _) as [|id ids] eqn:Hids;
    repeat (rewrite ?Hnf; simpl).
  - by rewrite update_is_deleted_nil.
  - done.
Qed.

Lemma sweep_hits_row st1 livestreamID lc :
  NoDup (LivecommentModel.ID <$> livecomments st1) ->
  lc ∈ livecomments st1 ->
  LivecommentModel.ID lc
    ∈ collect_ng_livecomment_ids (select_visible_livecomments livestreamID st1)
        (select_ng_words livestreamID st1)
  <-> LivecommentModel.LivestreamID lc = livestreamID
      /\ LivecommentModel.IsDeleted lc = false
      /\ rule_matches (ng_words st1) livestreamID (LivecommentModel.Comment lc).
Proof.
  intros Hnd Hin. rewrite collect_ng_livecomment_ids_spec.
  unfold select_visible_livecomments, select_ng_words, rule_matches. split.
  - intros (lc' & Hlc' & Hid & Hm).
    apply list_elem_of_filter in Hlc' as [[Hls Hvis] Hin'].
    assert (lc' = lc) as -> by (by eapply NoDup_fmap_eq).
    repeat split; try done.
    apply contains_ngword_spec in Hm as (w & Hw & Hsub).
    apply list_elem_of_filter in Hw as [Hwl Hw]. by exists w.
  - intros (Hls & Hvis & w & Hw & Hwl & Hsub).
    exists lc. repeat split; [by apply list_elem_of_filter|].
    apply contains_ngword_spec. exists w. split; [|done].
    by apply list_elem_of_filter.
Qed.

(** The cascade example of the specification: after the rule "spam" is
    added, only "spam here" is hidden. *)
Example cascade_example :
  livecomments
    (serve (moderateHandler example_env
              (mkContext example_session (Some 10)
                 (BodyOf (ModerateRequest.mk "spam"))))
       example_storage).1
  = [LivecommentModel.mk 1 2 10 "hello world" 100 0 false;
     LivecommentModel.mk 2 2 10 "spam here" 50 0 true;
     LivecommentModel.mk 3 2 10 "clean" 0 0 false].
Proof. vm_compute. reflexivity. Qed.

(** C3: when no storage call fails and the requester owns the
    livestream, [moderateHandler] replies 201 with the id of the new
    rule, stores the rule, and hides (sets [is_deleted]) exactly the
    visible comments of the livestream whose text contains the word of
    some rule of the livestream's whole rule set, the new rule included;
    every other comment keeps its row unchanged. *)
Theorem C3_moderate_full_resweep env c st userID livestreamID req :
  no_faults env ->
  session_valid env (sess c) userID ->
  param_livestream_id c = Some livestreamID ->
  body c = BodyOf req ->
  owned_by st userID livestreamID ->
  NoDup (LivecommentModel.ID <$> livecomments st) ->
  let res := serve (moderateHandler env c) st in
  res.2 = JSON StatusCreated (ng_words_auto_increment st)
  /\ ng_words res.1
     = ng_words st ++ [NGWord.mk (ng_words_auto_increment st) userID livestreamID
                         (ModerateRequest.NGWord req) (now env)]
  /\ forall i lc,
       livecomments st !! i = Some lc ->
       let hit := LivecommentModel.LivestreamID lc = livestreamID
                  /\ LivecommentModel.IsDeleted lc = false
                  /\ rule_matches (ng_words res.1) livestreamID
                       (LivecommentModel.Comment lc) in
       (hit -> livecomments res.1 !! i = Some (hidden lc))
       /\ (~ hit -> livecomments res.1 !! i = Some lc).
Proof.
  intros Hnf Hs Hp Hb Hown Hnd res. subst res.
  rewrite (moderateHandler_ok env c st userID livestreamID req) by done.
  simpl. split; [done|]. split; [done|].
  intros i lc Hi.
  set (st1 := insert_ng_word
                (NGWord.mk 0 userID livestreamID (ModerateRequest.NGWord req) (now env))
                st).
  assert (Hin : lc ∈ livecomments st1) by (by eapply list_elem_of_lookup_2).
  pose proof (sweep_hits_row st1 livestreamID lc Hnd Hin) as Hiff.
  unfold moderate_committed. fold st1. simpl.
  rewrite list_lookup_fmap, Hi. simpl. rewrite hide_row_cases.
  split; intros Hhit.
  - rewrite decide_True; [done|]. by apply Hiff.
  - rewrite decide_False; [done|]. intros Hid. by apply Hhit, Hiff.
Qed.

Lemma C3_moderate_full_resweep_witness :
  let res := serve (moderateHandler example_env
                      (mkContext example_session (Some 10)
                         (BodyOf (ModerateRequest.mk "spam"))))
               example_storage in
  res.2 = JSON StatusCreated 1
  /\ ng_words res.1 = [] ++ [NGWord.mk 1 1 10 "spam" 100]
  /\ forall i lc,
       livecomments example_storage !! i = Some lc ->
       let hit := LivecommentModel.LivestreamID lc = 10
                  /\ LivecommentModel.IsDeleted lc = false
                  /\ rule_matches (ng_words res.1) 10 (LivecommentModel.Comment lc) in
       (hit -> livecomments res.1 !! i = Some (hidden lc))
       /\ (~ hit -> livecomments res.1 !! i = Some lc).
Proof.
  apply (C3_moderate_full_resweep example_env
           (mkContext example_session (Some 10) (BodyOf (ModerateRequest.mk "spam")))
           example_storage 1 10 (ModerateRequest.mk "spam")).
  - intros s. reflexivity.
  - unfold session_valid. simpl. repeat split. exists 1000. split; [reflexivity|lia].
  - reflexivity.
  - reflexivity.
  - exists (LivestreamModel.mk 10 1). repeat split. apply (bool_decide_unpack _).
    vm_compute. exact I.
  - apply (bool_decide_unpack _). vm_compute. exact I.
Defined.

(** C5, as stated, fails: user 1 asks to moderate livestream 11, which
    exists and belongs to user 2, and livestream 99, which does not
    exist; the two replies are the same. *)
Lemma C5_missing_and_foreign_livestream_same_reply :
  (exists l, l ∈ livestreams example_storage /\ LivestreamModel.ID l = 11)
  /\ (forall l, l ∈ livestreams example_storage -> LivestreamModel.ID l <> 99)
  /\ serve (moderateHandler example_env
              (mkContext example_session (Some 11) (BodyOf (ModerateRequest.mk "spam"))))
       example_storage
     = (example_storage, HTTPError StatusBadRequest not_owner_message)
  /\ serve (moderateHandler example_env
              (mkContext example_session (Some 99) (BodyOf (ModerateRequest.mk "spam"))))
       example_storage
     = (example_storage, HTTPError StatusBadRequest not_owner_message).
Proof.
  split; [|split; [|split]].
  - exists (LivestreamModel.mk 11 2). split; [|done].
    apply (bool_decide_unpack _). vm_compute. exact I.
  - intros l Hl. unfold example_storage in Hl. simpl in Hl.
    apply elem_of_cons in Hl as [->|Hl]; [done|].
    apply elem_of_cons in Hl as [->|Hl]; [done|].
    by apply elem_of_nil in Hl.
  - vm_compute. reflexivity.
  - vm_compute. reflexivity.
Qed.

(** C5 (amended): when the requesting user owns no livestream with the
    given id -- because the livestream belongs to someone else or because
    it does not exist -- [moderateHandler] replies 400 with the one
    message "A streamer can't moderate livestreams that other streamers
    own" and leaves the tables unchanged, so no rule is inserted; the two
    conditions are not told apart. *)
Theorem C5_moderate_not_owner env c st userID livestreamID :
  session_valid env (sess c) userID ->
  param_livestream_id c = Some livestreamID ->
  body c <> BodyMalformed ->
  fails env StmtBeginTxx = false ->
  fails env StmtSelectOwnedLivestreams = false ->
  ~ owned_by st userID livestreamID ->
  serve (moderateHandler env c) st
  = (st, HTTPError StatusBadRequest not_owner_message).
Proof.
  intros Hs Hp Hb Hbegin Hsel Hown.
  destruct c as [s pid bd]. simpl in *. subst pid.
  destruct (session_valid_inv _ _ _ Hs) as (ex & -> & Hex).
  apply select_owned_livestreams_nil in Hown.
  run_handler. rewrite Hex.
  destruct bd as [| |req]; [done| |];
    repeat (rewrite ?Hbegin, ?Hsel; simpl); by rewrite Hown.
Qed.

Lemma C5_moderate_not_owner_witness :
  serve (moderateHandler example_env
           (mkContext example_session (Some 99) (BodyOf (ModerateRequest.mk "spam"))))
    example_storage
  = (example_storage, HTTPError StatusBadRequest not_owner_message).
Proof.
  apply (C5_moderate_not_owner example_env
           (mkContext example_session (Some 99) (BodyOf (ModerateRequest.mk "spam")))
           example_storage 1 99).
  - unfold session_valid. simpl. repeat split. exists 1000. split; [reflexivity|lia].
  - reflexivity.
  - discriminate.
  - reflexivity.
  - reflexivity.
  - apply select_owned_livestreams_nil. vm_compute. reflexivity.
Defined.

(** C6: every run of [moderateHandler] ends in one of two ways: the
    tables are exactly as before and the reply is not the 201 success, or
    the new rule and the sweep are committed together and the reply is
    201 with the rule's id.  In particular, when [LastInsertId], the
    re-fetch of the rule set, the fetch of the visible comments or the
    commit fails, the tables are unchanged (the rule is not stored) and
    the request fails; and when the batch update fails, either the same
    holds or there was no comment to hide. *)
Theorem C6_moderate_atomic env c st :
  let res := serve (moderateHandler env c) st in
  ((res.1 = st /\ forall id, res.2 <> JSON StatusCreated id)
   \/ (exists userID livestreamID req,
         USERID (sess c) = Some userID
         /\ param_livestream_id c = Some livestreamID
         /\ body c = BodyOf req
         /\ res.1 = moderate_committed env userID livestreamID
                      (ModerateRequest.NGWord req) st
         /\ res.2 = JSON StatusCreated (ng_words_auto_increment st)))
  /\ (fails env StmtLastInsertId = true
      \/ fails env StmtSelectNGWords = true
      \/ fails env StmtSelectLivecomments = true
      \/ fails env StmtCommit = true ->
      res.1 = st /\ forall id, res.2 <> JSON StatusCreated id)
  /\ (fails env StmtUpdateLivecomments = true ->
      (res.1 = st /\ forall id, res.2 <> JSON StatusCreated id)
      \/ livecomments res.1 = livecomments st).
Proof.
  intros res.
  destruct (moderateHandler_cases env c st)
    as [Hsame|(userID & livestreamID & req & Hu & Hp & Hb & Hst & Hr
               & H1 & H2 & H3 & H4 & H5)].
  - split; [by left|]. split; [done|]. intros _. by left.
  - split; [right; by exists userID, livestreamID, req|].
    split; [intros [?|[?|[?|?]]]; congruence|].
    intros Hupd. right. by apply H5.
Qed.

Lemma C6_moderate_atomic_witness :
  let res := serve (moderateHandler example_env_commit_fails
                      (mkContext example_session (Some 10)
                         (BodyOf (ModerateRequest.mk "spam"))))
               example_storage in
  res.1 = example_storage /\ forall id, res.2 <> JSON StatusCreated id.
Proof.
  apply (proj1 (proj2 (C6_moderate_atomic example_env_commit_fails
                         (mkContext example_session (Some 10)
                            (BodyOf (ModerateRequest.mk "spam")))
                         example_storage))).
  right. right. right. reflexivity.
Defined.

(** ** Posting a livecomment *)

Lemma select_livestream_head id st l ls :
  select_livestream id st = l :: ls -> LivestreamModel.ID l = id.
Proof.
  unfold select_livestream. intros Hsel.
  assert (l ∈ filter (fun l => LivestreamModel.ID l = id) (livestreams st)) as Hin
    by (rewrite Hsel; left).
  by apply list_elem_of_filter in Hin as [? _].
Qed.

Lemma select_livestream_nonempty id st :
  (exists l, l ∈ livestreams st /\ LivestreamModel.ID l = id) ->
  select_livestream id st <> [].
Proof.
  intros (l & Hin & Hid) Hnil.
  assert (l ∈ select_livestream id st) as Hl by (by apply list_elem_of_filter).
  rewrite Hnil in Hl. by apply elem_of_nil in Hl.
Qed.

Lemma select_user_head id st u us :
  select_user id st = u :: us -> UserModel.ID u = id.
Proof.
  unfold select_user. intros Hsel.
  assert (u ∈ filter (fun u => UserModel.ID u = id) (users st)) as Hin
    by (rewrite Hsel; left).
  by apply list_elem_of_filter in Hin as [? _].
Qed.


(** The spam test of [postLivecommentHandler] is a match of some rule of
    the livestream. *)
Lemma post_spam_test_spec st livestreamID comment :
  contains_ngword comment (select_ng_words_no_created_at livestreamID st) = true
  <-> rule_matches (ng_words st) livestreamID comment.
Proof.
  rewrite contains_ngword_spec.
  unfold select_ng_words_no_created_at, select_ng_words, rule_matches. split.
  - intros (w & Hw & Hsub).
    apply list_elem_of_fmap in Hw as (w0 & -> & Hw0).
    apply list_elem_of_filter in Hw0 as [Hl Hw0]. by exists w0.
  - intros (w & Hw & Hl & Hsub).
    exists (NGWord.mk (NGWord.ID w) (NGWord.UserID w) (NGWord.LivestreamID w)
              (NGWord.Word w) 0).
    split; [|done]. apply list_elem_of_fmap. exists w. split; [done|].
    by apply list_elem_of_filter.
Qed.

(** The ways [postLivecommentHandler] can end: without touching the
    tables and without success, the spam reply being given only on a
    match; or with the row inserted, after a spam test that found no
    match. *)
Lemma postLivecommentHandler_cases env c st :
  let res := serve (postLivecommentHandler env c) st in
  (res.1 = st
   /\ (forall b, res.2 <> JSON StatusCreated b)
   /\ (res.2 = HTTPError StatusBadRequest spam_message ->
       exists livestreamID req,
         param_livestream_id c = Some livestreamID
         /\ body c = BodyOf req
         /\ rule_matches (ng_words st) livestreamID
              (PostLivecommentRequest.Comment req)))
  \/ (exists userID livestreamID req,
        USERID (sess c) = Some userID
        /\ param_livestream_id c = Some livestreamID
        /\ body c = BodyOf req
        /\ ~ rule_matches (ng_words st) livestreamID
               (PostLivecommentRequest.Comment req)
        /\ res.1 = insert_livecomment
                     (LivecommentModel.mk 0 userID livestreamID
                        (PostLivecommentRequest.Comment req)
                        (PostLivecommentRequest.Tip req) (now env) false) st
        /\ res.2 <> HTTPError StatusBadRequest spam_message).
Proof.
  destruct c as [[serr ex uid] pid bd].
  run_handler.
  handler_cases ltac:(left; split; [done|split; by intros]).
  all: repeat match goal with
              | H : select_livestream _ _ = _ :: _ |- _ =>
                  apply select_livestream_head in H
              end.
  all: repeat match goal with
              | H : LivestreamModel.ID _ = _ |- _ => try rewrite H in *; clear H
              end.
  all: match goal with
       | H : contains_ngword _ _ = true |- _ =>
           left; split; [done|split; [by intros|]]; intros _;
           eexists _, _; repeat split; by apply post_spam_test_spec
       | H : contains_ngword _ _ = false |- _ =>
           right; eexists _, _, _; repeat split; try done;
           rewrite <- post_spam_test_spec; congruence
       end.
Qed.

Lemma postLivecommentHandler_spam env c st userID livestreamID req :
  session_valid env (sess c) userID ->
  param_livestream_id c = Some livestreamID ->
  body c = BodyOf req ->
  fails env StmtConnx = false ->
  fails env StmtSelectLivestream = false ->
  fails env StmtSelectNGWords = false ->
  (exists l, l ∈ livestreams st /\ LivestreamModel.ID l = livestreamID) ->
  rule_matches (ng_words st) livestreamID (PostLivecommentRequest.Comment req) ->
  serve (postLivecommentHandler env c) st
  = (st, HTTPError StatusBadRequest spam_message).
Proof.
  intros Hs Hp Hb Hconn Hsel Hng Hex Hm.
  destruct c as [s pid bd]. simpl in *. subst pid bd.
  destruct (session_valid_inv _ _ _ Hs) as (ex & -> & Hnow).
  apply select_livestream_nonempty in Hex.
  apply post_spam_test_spec in Hm.
  run_handler. rewrite Hnow. repeat (rewrite ?Hconn, ?Hsel, ?Hng; simpl).
  destruct (select_livestream livestreamID st) as [|l ls] eqn:Hl; [done|].
  apply select_livestream_head in Hl.
  repeat (rewrite ?Hconn, ?Hsel, ?Hng; simpl). rewrite Hl, Hm. done.
Qed.


(** The post-time rejection example of the specification: with the rule
    "banned", a comment "this is banned content" is refused and the
    tables stay as they were. *)
Example post_banned_example :
  serve (postLivecommentHandler example_env
           (mkContext example_session (Some 10)
              (BodyOf (PostLivecommentRequest.mk "this is banned content" 10))))
    example_storage_banned
  = (example_storage_banned, HTTPError StatusBadRequest spam_message).
Proof. vm_compute. reflexivity. Qed.



(** C9, as stated, fails: a request with tip -5 on livestream 10 is
    accepted with status 201 and stores a row whose tip is -5. *)
Lemma C9_negative_tip_is_stored :
  let res := serve (postLivecommentHandler example_env
                      (mkContext example_session (Some 10)
                         (BodyOf (PostLivecommentRequest.mk "hi" (-5)))))
               example_storage in
  livecomments res.1
  = livecomments example_storage ++ [LivecommentModel.mk 4 1 10 "hi" (-5) 100 false]
  /\ res.2 = JSON StatusCreated (Livecomment.mk 4 1 10 "hi" (-5) 100)
  /\ Exists (fun lc => LivecommentModel.Tip lc < 0) (livecomments res.1).
Proof.
  split; [|split].
  - vm_compute. reflexivity.
  - vm_compute. reflexivity.
  - apply (bool_decide_unpack _). vm_compute. exact I.
Qed.

(** C9 (amended): [postLivecommentHandler] stores the tip of the request
    as it is given, whatever its sign: a run creates no row, or exactly
    one row, appended with the tip, the text, the user and the
    livestream of the request and not hidden. *)
Theorem C9_post_stores_tip_as_given env c st :
  let res := serve (postLivecommentHandler env c) st in
  livecomments res.1 = livecomments st
  \/ (exists userID livestreamID req,
        USERID (sess c) = Some userID
        /\ param_livestream_id c = Some livestreamID
        /\ body c = BodyOf req
        /\ livecomments res.1
           = livecomments st
             ++ [LivecommentModel.mk (livecomments_auto_increment st) userID
                   livestreamID (PostLivecommentRequest.Comment req)
                   (PostLivecommentRequest.Tip req) (now env) false]).
Proof.
  intros res.
  destruct (postLivecommentHandler_cases env c st)
    as [(Hst & _)|(u & l & r & Hu & Hp & Hb & _ & Hst & _)]; fold res in Hst.
  - left. by rewrite Hst.
  - right. exists u, l, r. by rewrite Hst.
Qed.

(** ** The icon hash cache *)

Lemma RLock_acquired mu mu1 :
  RWMutex.RLock mu = RWMutex.Acquired mu1 ->
  mu1 = RWMutex.mk (S (RWMutex.readers mu)) false.
Proof. unfold RWMutex.RLock. destruct (RWMutex.writer mu); congruence. Qed.

(** A goroutine that holds a read lock cannot take the write lock. *)
Lemma Lock_while_reading n :
  RWMutex.Lock (RWMutex.mk (S n) false) = RWMutex.Waiting (RWMutex.mk (S n) true).
Proof. reflexivity. Qed.

(** [Set] on a free cache stores the value with expiry [now + ttl]. *)
Lemma IconHashCache_Set_stores c time_Now username iconHash :
  IconHashCache.mu c = RWMutex.mk 0 false ->
  IconHashCache.Set_ c time_Now username iconHash
  = Returns tt
      (IconHashCache.mk (RWMutex.mk 0 false)
         (<[username := IconHash.mk iconHash (time_Now + IconHashCache.ttl c)]>
            (IconHashCache.m c))
         (IconHashCache.ttl c)).
Proof. intros Hmu. unfold IconHashCache.Set_. by rewrite Hmu. Qed.

(** [Get] on a free cache, for an entry that has not expired, returns
    the stored value and leaves the cache as it was. *)
Lemma IconHashCache_Get_fresh c time_Now username entry :
  IconHashCache.mu c = RWMutex.mk 0 false ->
  IconHashCache.m c !! username = Some entry ->
  time_Now <= IconHash.ExpireTime entry ->
  IconHashCache.Get c time_Now username = Returns (IconHash.IconHash entry) c.
Proof.
  intros Hmu Hm Ht. destruct c as [mu m ttl]. simpl in *. subst mu.
  unfold IconHashCache.Get. simpl. rewrite Hm.
  destruct (Z.ltb_spec (IconHash.ExpireTime entry) time_Now); [lia|done].
Qed.

(** [Get] on a free cache, for a missing entry, returns the empty
    string. *)
Lemma IconHashCache_Get_absent c time_Now username :
  IconHashCache.mu c = RWMutex.mk 0 false ->
  IconHashCache.m c !! username = None ->
  IconHashCache.Get c time_Now username = Returns "" c.
Proof.
  intros Hmu Hm. destruct c as [mu m ttl]. simpl in *. subst mu.
  unfold IconHashCache.Get. simpl. by rewrite Hm.
Qed.

(** [Get] for an entry that has expired never returns, whatever the
    state of the lock: the entry stays in the map, and the lock is left
    marked for a writer. *)
Lemma IconHashCache_Get_expired c time_Now username entry :
  IconHashCache.m c !! username = Some entry ->
  IconHash.ExpireTime entry < time_Now ->
  exists c',
    IconHashCache.Get c time_Now username = Blocks c'
    /\ IconHashCache.m c' = IconHashCache.m c
    /\ RWMutex.writer (IconHashCache.mu c') = true.
Proof.
  intros Hm Ht. destruct c as [[n w] m ttl]. simpl in *.
  unfold IconHashCache.Get, RWMutex.RLock. simpl. destruct w; simpl.
  - by eexists.
  - rewrite Hm. simpl.
    destruct (Z.ltb_spec (IconHash.ExpireTime entry) time_Now); [|lia].
    by eexists.
Qed.

(** Once a writer is marked on the lock, every further [Get] and [Set]
    blocks. *)
Lemma IconHashCache_stuck c time_Now username iconHash :
  RWMutex.writer (IconHashCache.mu c) = true ->
  IconHashCache.Get c time_Now username = Blocks c
  /\ IconHashCache.Set_ c time_Now username iconHash = Blocks c.
Proof.
  destruct c as [[n w] m ttl]. simpl. intros ->.
  by unfold IconHashCache.Get, IconHashCache.Set_.
Qed.

(** C7, the code at the failing input.  After [Set("alice", "abc")] at
    instant 0 on the cache of the source (TTL 100 s), the entry expires
    at 100 s and [Get] at 50 s returns "abc"; but [Get] at 101 s does not
    return: it blocks with the read lock held and the entry still in the
    map, and a [Set] that follows blocks as well. *)
Theorem C7_get_after_expiry_blocks :
  IconHashCache.Set_ iconHashCache 0 "alice" "abc" = Returns tt example_cache
  /\ IconHashCache.Get example_cache (50 * time_Second) "alice"
     = Returns "abc" example_cache
  /\ (let stuck := IconHashCache.with_mu (RWMutex.mk 1 true) example_cache in
      IconHashCache.Get example_cache (101 * time_Second) "alice" = Blocks stuck
      /\ IconHashCache.m stuck !! "alice"
         = Some (IconHash.mk "abc" (100 * time_Second))
      /\ IconHashCache.Set_ stuck (102 * time_Second) "alice" "def" = Blocks stuck).
Proof. vm_compute. repeat split. Qed.

(** ** [getIconHandler] *)

Section IconFacts.
Variable getIconHash : string -> string.

(** While the entry has not expired, or when there is none, the handler
    answers 304 exactly when the cache holds a digest for the user that
    equals the header without its first and last character.  Digests
    are longer than two characters (64 hexadecimal digits). *)
Lemma getIconHandler_not_modified_iff env st time_Now username ifNoneMatch s :
  IconHashCache.mu (icon_cache s) = RWMutex.mk 0 false ->
  (forall entry,
      IconHashCache.m (icon_cache s) !! username = Some entry ->
      time_Now <= IconHash.ExpireTime entry
      /\ (2 < String.length (IconHash.IconHash entry))%nat) ->
  (exists s',
      getIconHandler getIconHash env st time_Now username ifNoneMatch s
      = Returns (NoContent StatusNotModified) s')
  <-> (exists entry,
         IconHashCache.m (icon_cache s) !! username = Some entry
         /\ IconHash.IconHash entry
            = String.substring 1 (String.length ifNoneMatch - 2) ifNoneMatch).
Proof.
  intros Hmu Hfresh. unfold getIconHandler.
  assert (Hresp : forall s0 s',
             icon_response getIconHash env st time_Now username s0
             <> Returns (NoContent StatusNotModified) s').
  { intros s0 s'. unfold icon_response.
    repeat (case_match; try done). }
  assert (Hstrip : forall d : string,
             (2 < String.length d)%nat ->
             (strip_quotes ifNoneMatch <> "" /\ d = strip_quotes ifNoneMatch)
             <-> d = String.substring 1 (String.length ifNoneMatch - 2) ifNoneMatch).
  { intros d Hd. unfold strip_quotes.
    destruct (decide (2 < String.length ifNoneMatch)%nat) as [Hlen|Hlen].
    - split; [by intros [_ ?]|]. intros ->. split; [|done].
      intros Hempty. rewrite Hempty in Hd. simpl in Hd. lia.
    - replace (String.length ifNoneMatch - 2)%nat with 0%nat by lia.
      assert (String.substring 1 0 ifNoneMatch = "") as ->.
      { destruct ifNoneMatch as [|a [|b r]]; reflexivity. }
      split.
      + intros [_ ->]. lia.
      + intros ->. simpl in Hd. lia. }
  destruct (IconHashCache.m (icon_cache s) !! username) as [entry|] eqn:Hm.
  - destruct (Hfresh entry eq_refl) as [Ht Hd].
    rewrite (IconHashCache_Get_fresh _ _ _ entry) by done.
    destruct (decide (strip_quotes ifNoneMatch <> ""
                      /\ IconHash.IconHash entry = strip_quotes ifNoneMatch))
      as [Hyes|Hno].
    + split; [|by eexists]. intros _. exists entry. split; [done|].
      by apply Hstrip.
    + split.
      * intros [s' Hs']. by apply Hresp in Hs'.
      * intros (entry' & Heq & Hd'). simplify_eq. exfalso.
        apply Hno. by apply Hstrip.
  - rewrite IconHashCache_Get_absent by done.
    destruct (decide (strip_quotes ifNoneMatch <> "" /\ "" = strip_quotes ifNoneMatch))
      as [[Hne Heq]|Hno]; [congruence|].
    split.
    + intros [s' Hs']. by apply Hresp in Hs'.
    + by intros (entry & ? & _).
Qed.

(** A request for a user whose cache entry has expired gets no reply at
    all. *)
Lemma getIconHandler_expired_blocks env st time_Now username ifNoneMatch s entry :
  IconHashCache.m (icon_cache s) !! username = Some entry ->
  IconHash.ExpireTime entry < time_Now ->
  exists s', getIconHandler getIconHash env st time_Now username ifNoneMatch s
             = Blocks s'.
Proof.
  intros Hm Ht. unfold getIconHandler.
  destruct (IconHashCache_Get_expired _ _ _ _ Hm Ht) as (c' & -> & _).
  by eexists.
Qed.

End IconFacts.

(** C10, the code at the failing input.  With the entry of "alice"
    expired (it expired at 100 s, the request comes at 101 s), a request
    for her icon with [If-None-Match: "abc"] gets neither the image nor
    a 304: the handler blocks inside [iconHashCache.Get].  The same
    request at 50 s gets the 304. *)
Theorem C10_icon_request_on_expired_entry_blocks (getIconHash : string -> string) :
  getIconHandler getIconHash example_env example_storage (50 * time_Second)
    "alice" example_if_none_match (mkIconState example_cache ∅)
  = Returns (NoContent StatusNotModified) (mkIconState example_cache ∅)
  /\ getIconHandler getIconHash example_env example_storage (101 * time_Second)
       "alice" example_if_none_match (mkIconState example_cache ∅)
     = Blocks (mkIconState
                 (IconHashCache.with_mu (RWMutex.mk 1 true) example_cache) ∅).
Proof. split; vm_compute; reflexivity. Qed.

(** ** Scores *)

Lemma scan_rows_ok {B} message rows m db :
  Forall (fun r : Z * Z => Int64.in_range r.2) rows ->
  scan_rows (B:=B) message rows m db = (db, inl (rows_to_map rows m)).
Proof.
  revert m. induction rows as [|[k v] rows IH]; intros m Hall; simpl.
  - done.
  - apply Forall_cons in Hall as [Hv Hall]. simpl in Hv.
    rewrite decide_True by done. by rewrite IH.
Qed.

Lemma rows_to_map_notin rows (m : gmap Z Z) k :
  k ∉ rows.*1 -> rows_to_map rows m !! k = m !! k.
Proof.
  revert m. induction rows as [|[k' v'] rows IH]; intros m Hk; simpl; [done|].
  rewrite fmap_cons in Hk. apply not_elem_of_cons in Hk as [Hne Hk].
  unfold rows_to_map in *. simpl. rewrite IH by done. simpl in Hne.
  by rewrite lookup_insert_ne.
Qed.

Lemma rows_to_map_in rows (m : gmap Z Z) k v :
  NoDup (rows.*1) -> (k, v) ∈ rows -> rows_to_map rows m !! k = Some v.
Proof.
  revert m. induction rows as [|[k' v'] rows IH]; intros m Hnd Hin.
  - by apply elem_of_nil in Hin.
  - rewrite fmap_cons in Hnd. apply NoDup_cons in Hnd as [Hk' Hnd].
    apply elem_of_cons in Hin as [Heq|Hin].
    + simplify_eq. unfold rows_to_map. simpl.
      fold (rows_to_map rows (<[k':=v']> m)).
      rewrite rows_to_map_notin by done. apply lookup_insert_eq.
    + unfold rows_to_map in *. simpl. by apply IH.
Qed.

Lemma sum_by_notin k rows : k ∉ rows.*1 -> sum_by k rows = 0.
Proof.
  unfold sum_by. induction rows as [|[k' v'] rows IH]; intros Hk; [done|].
  rewrite fmap_cons in Hk. apply not_elem_of_cons in Hk as [Hne Hk].
  rewrite filter_cons_False by (simpl in *; congruence). by apply IH.
Qed.

Lemma group_by_sum_keys rows : (group_by_sum rows).*1 = remove_dups (rows.*1).
Proof.
  unfold group_by_sum. rewrite <- list_fmap_compose.
  rewrite <- (list_fmap_id (remove_dups (rows.*1))) at 2.
  by apply list_fmap_ext.
Qed.

Lemma group_by_sum_elem k v rows :
  (k, v) ∈ group_by_sum rows <-> k ∈ rows.*1 /\ v = sum_by k rows.
Proof.
  unfold group_by_sum. rewrite list_elem_of_fmap. split.
  - intros (k' & Heq & Hk'). simplify_eq.
    rewrite elem_of_remove_dups in Hk'. split; [done|reflexivity].
  - intros [Hk ->]. exists k. split; [done|]. by rewrite elem_of_remove_dups.
Qed.

(** Reading the Go map built from a [GROUP BY] result gives the sum over
    the rows with that key, zero when there is none. *)
Lemma map_get_group_by_sum rows k :
  map_get (rows_to_map (group_by_sum rows) ∅) k = sum_by k rows.
Proof.
  unfold map_get. destruct (decide (k ∈ rows.*1)) as [Hin|Hnot].
  - rewrite (rows_to_map_in _ _ k (sum_by k rows)); [done| |].
    + rewrite group_by_sum_keys. apply NoDup_remove_dups.
    + by apply group_by_sum_elem.
  - rewrite rows_to_map_notin.
    + rewrite lookup_empty. simpl. by rewrite sum_by_notin.
    + rewrite group_by_sum_keys. by rewrite elem_of_remove_dups.
Qed.

Lemma group_by_sum_in_range rows :
  (forall k, k ∈ rows.*1 -> Int64.in_range (sum_by k rows)) ->
  Forall (fun r : Z * Z => Int64.in_range r.2) (group_by_sum rows).
Proof.
  intros Hfit. apply Forall_forall. intros [k v] Hin.
  apply group_by_sum_elem in Hin as [Hk ->]. by apply Hfit.
Qed.

Lemma sum_Z_cons z l : sum_Z (z :: l) = z + sum_Z l.
Proof. reflexivity. Qed.

Lemma sum_by_app k rows1 rows2 :
  sum_by k (rows1 ++ rows2) = sum_by k rows1 + sum_by k rows2.
Proof.
  unfold sum_by. rewrite filter_app, fmap_app.
  induction (filter _ rows1).*2 as [|z l IH]; [done|].
  rewrite <- app_comm_cons, !sum_Z_cons, IH. lia.
Qed.

Lemma sum_by_cons k k' v rows :
  sum_by k ((k', v) :: rows) = (if decide (k' = k) then v else 0) + sum_by k rows.
Proof.
  unfold sum_by, sum_Z. rewrite filter_cons. simpl.
  destruct (decide (k' = k)); reflexivity.
Qed.

Lemma sum_by_fmap {A} (f g : A -> Z) (l : list A) k :
  sum_by k ((fun x => (f x, g x)) <$> l)
  = sum_Z (g <$> filter (fun x => f x = k) l).
Proof.
  induction l as [|x l IH]; [done|].
  rewrite fmap_cons, sum_by_cons, IH, filter_cons.
  destruct (decide (f x = k)); reflexivity.
Qed.

Lemma sum_Z_ones {A} (l : list A) : sum_Z ((fun _ => 1) <$> l) = Z.of_nat (length l).
Proof.
  induction l as [|x l IH]; [done|].
  rewrite fmap_cons, sum_Z_cons, IH. simpl length. lia.
Qed.

Lemma filter_iff {A} (P Q : A -> Prop)
  `{forall x, Decision (P x)} `{forall x, Decision (Q x)} (l : list A) :
  (forall x, P x <-> Q x) -> filter P l = filter Q l.
Proof.
  intros HPQ. induction l as [|x l IH]; [done|].
  rewrite !filter_cons, IH.
  destruct (decide (P x)) as [HP|HP].
  - rewrite decide_True by (by apply HPQ). done.
  - rewrite decide_False by (by rewrite <- HPQ). done.
Qed.

(** *** The livestream scores *)

Lemma livestream_reactions_sum (ids : list Z) st k :
  k ∈ ids ->
  sum_by k ((fun r => (ReactionModel.LivestreamID r, 1))
              <$> filter (fun r => ReactionModel.LivestreamID r ∈ ids) (reactions st))
  = reaction_count st k.
Proof.
  intros Hk. rewrite (sum_by_fmap ReactionModel.LivestreamID (fun _ => 1)).
  rewrite sum_Z_ones. unfold reaction_count. do 2 f_equal.
  apply list_filter_filter_l. by intros r ->.
Qed.

Lemma livestream_tips_sum (ids : list Z) st k :
  k ∈ ids ->
  sum_by k ((fun lc => (LivecommentModel.LivestreamID lc, LivecommentModel.Tip lc))
              <$> filter (fun lc => LivecommentModel.LivestreamID lc ∈ ids
                                    /\ LivecommentModel.IsDeleted lc = false)
                    (livecomments st))
  = visible_tips st k.
Proof.
  intros Hk. rewrite (sum_by_fmap LivecommentModel.LivestreamID LivecommentModel.Tip).
  unfold visible_tips. do 2 f_equal. rewrite list_filter_filter.
  apply filter_iff. intros lc. split; [by intros (? & _ & ?)|].
  intros [Hl ?]. by rewrite Hl.
Qed.

Lemma rows_keys_in_ids {A} (f g : A -> Z) (P : A -> Prop)
  `{forall x, Decision (P x)} (ids : list Z) (l : list A) k :
  (forall x, P x -> f x ∈ ids) ->
  k ∈ ((fun x => (f x, g x)) <$> filter P l).*1 -> k ∈ ids.
Proof.
  intros HP Hk. apply list_elem_of_fmap in Hk as ([k' v] & -> & Hin).
  apply list_elem_of_fmap in Hin as (x & Heq & Hx). simplify_eq.
  apply list_elem_of_filter in Hx as [Hx _]. simpl. by apply HP.
Qed.

Lemma livestream_score_maps_ok {B} env ids st :
  no_faults env ->
  ids <> [] ->
  livestream_scores_fit st ->
  exists reactionsMap tipsMap,
    livestream_score_maps (B:=B) env ids (mkDB st None)
    = (mkDB st None, inl (reactionsMap, tipsMap))
    /\ forall k, k ∈ ids ->
         map_get reactionsMap k = reaction_count st k
         /\ map_get tipsMap k = visible_tips st k.
Proof.
  intros Hnf Hne Hfit.
  unfold livestream_score_maps, sqlx_In, query, mbind, M_bind, mret, M_ret, view.
  destruct ids as [|id ids]; [done|]. simpl. rewrite !Hnf.
  unfold livestream_reactions_rows, livestream_tips_rows.
  rewrite scan_rows_ok.
  2:{ apply group_by_sum_in_range. intros k Hk.
      rewrite livestream_reactions_sum; [apply Hfit|].
      eapply (rows_keys_in_ids ReactionModel.LivestreamID); [|exact Hk]. done. }
  rewrite scan_rows_ok.
  2:{ apply group_by_sum_in_range. intros k Hk.
      rewrite livestream_tips_sum; [apply Hfit|].
      eapply (rows_keys_in_ids LivecommentModel.LivestreamID); [|exact Hk].
      by intros lc [? _]. }
  eexists _, _. split; [done|]. intros k Hk.
  rewrite !map_get_group_by_sum.
  by rewrite livestream_reactions_sum, livestream_tips_sum.
Qed.

Lemma livestream_ranking_spec st reactionsMap tipsMap :
  livestream_scores_fit st ->
  (forall k, k ∈ LivestreamModel.ID <$> livestreams st ->
     map_get reactionsMap k = reaction_count st k
     /\ map_get tipsMap k = visible_tips st k) ->
  livestream_ranking (livestreams st) reactionsMap tipsMap
  = spec_livestream_ranking st.
Proof.
  intros Hfit Hmaps. unfold livestream_ranking, spec_livestream_ranking.
  apply list_fmap_ext. intros i l Hl. f_equal.
  destruct (Hmaps (LivestreamModel.ID l)) as [Hr Ht].
  { apply list_elem_of_fmap_2. by eapply list_elem_of_lookup_2. }
  unfold score. rewrite Hr, Ht. apply Int64_add_exact. apply Hfit.
Qed.

(** *** The user scores *)

Lemma filter_key_unique {A} (f : A -> Z) (l : list A) k :
  NoDup (f <$> l) ->
  filter (fun x => f x = k) l = [] \/ exists x, filter (fun x => f x = k) l = [x].
Proof.
  induction l as [|x l IH]; intros Hnd; [by left|].
  rewrite fmap_cons in Hnd. apply NoDup_cons in Hnd as [Hx Hnd].
  rewrite filter_cons. destruct (decide (f x = k)) as [Hk|Hk]; [|by apply IH].
  right. exists x. f_equal. apply elem_of_nil_inv. intros y Hy.
  apply list_elem_of_filter in Hy as [Hfy Hy]. apply Hx. rewrite Hk, <- Hfy.
  by apply list_elem_of_fmap_2.
Qed.

Lemma select_livestream_unique st livestreamID :
  NoDup (LivestreamModel.ID <$> livestreams st) ->
  select_livestream livestreamID st = []
  \/ exists l, select_livestream livestreamID st = [l].
Proof. apply filter_key_unique. Qed.

Lemma owned_by_select_nil st userID livestreamID :
  select_livestream livestreamID st = [] -> ~ owned_by st userID livestreamID.
Proof.
  intros Hnil (l & Hin & Hid & _).
  assert (l ∈ select_livestream livestreamID st) as Hl
    by (by apply list_elem_of_filter).
  rewrite Hnil in Hl. by apply elem_of_nil in Hl.
Qed.

Lemma owned_by_select_one st userID livestreamID l :
  select_livestream livestreamID st = [l] ->
  owned_by st userID livestreamID <-> LivestreamModel.UserID l = userID.
Proof.
  intros Hone. split.
  - intros (l' & Hin & Hid & Hu).
    assert (l' ∈ select_livestream livestreamID st) as Hl
      by (by apply list_elem_of_filter).
    rewrite Hone in Hl. apply list_elem_of_singleton in Hl. by subst.
  - intros Hu.
    assert (l ∈ select_livestream livestreamID st) as Hl by (rewrite Hone; left).
    apply list_elem_of_filter in Hl as [Hid Hin]. by exists l.
Qed.

(** The rows that one reaction or livecomment contributes through the
    join with [livestreams]. *)
Lemma join_sum st userID livestreamID (g : Z -> list (Z * Z))
  (cond : Z -> Prop) `{forall o, Decision (cond o)} v :
  (forall o, g o = if decide (cond o) then [(o, v)] else []) ->
  NoDup (LivestreamModel.ID <$> livestreams st) ->
  sum_by userID (joined_owners livestreamID st ≫= g)
  = if decide (owned_by st userID livestreamID /\ cond userID) then v else 0.
Proof.
  intros Hg Hnd. unfold joined_owners.
  destruct (select_livestream_unique st livestreamID Hnd) as [Hnil|[l Hone]].
  - rewrite Hnil. simpl.
    rewrite decide_False; [done|]. intros [Hown _].
    by apply (owned_by_select_nil _ _ _ Hnil) in Hown.
  - rewrite Hone. simpl. rewrite app_nil_r, Hg.
    pose proof (owned_by_select_one st userID livestreamID l Hone) as Hiff.
    destruct (decide (cond (LivestreamModel.UserID l))) as [Hc|Hc].
    + rewrite sum_by_cons. change (sum_by userID []) with 0.
      destruct (decide (LivestreamModel.UserID l = userID)) as [Heq|Hne].
      * rewrite decide_True; [lia|]. split; [by apply Hiff|by subst].
      * rewrite decide_False; [lia|]. intros [Hown _]. by apply Hne, Hiff.
    + rewrite decide_False; [done|]. intros [Hown Hcu].
      apply Hiff in Hown. by subst.
Qed.

Lemma sum_by_bind {A} (inner : A -> list (Z * Z)) (l : list A) k :
  sum_by k (l ≫= inner) = sum_Z ((fun x => sum_by k (inner x)) <$> l).
Proof.
  induction l as [|x l IH]; [done|].
  rewrite bind_cons, sum_by_app, IH, fmap_cons, sum_Z_cons. done.
Qed.

Lemma sum_Z_filter {A} (P : A -> Prop) `{forall x, Decision (P x)}
  (g : A -> Z) (l : list A) :
  sum_Z ((fun x => if decide (P x) then g x else 0) <$> l)
  = sum_Z (g <$> filter P l).
Proof.
  induction l as [|x l IH]; [done|].
  rewrite fmap_cons, sum_Z_cons, IH, filter_cons.
  destruct (decide (P x)); [by rewrite fmap_cons, sum_Z_cons|done].
Qed.

Lemma user_reactions_sum (ids : list Z) st k :
  NoDup (LivestreamModel.ID <$> livestreams st) ->
  k ∈ ids ->
  sum_by k (reactions st ≫= fun r =>
              joined_owners (ReactionModel.LivestreamID r) st ≫= fun owner =>
                if decide (owner ∈ ids) then [(owner, 1)] else [])
  = user_reaction_count st k.
Proof.
  intros Hnd Hk. rewrite sum_by_bind.
  rewrite (list_fmap_ext _
             (fun r => if decide (owned_by st k (ReactionModel.LivestreamID r))
                       then 1 else 0) (reactions st)).
  - rewrite (sum_Z_filter _ (fun _ => 1)), sum_Z_ones. done.
  - intros i r _.
    rewrite (join_sum st k _ _ (fun o => o ∈ ids) 1) by done.
    destruct (decide (owned_by st k (ReactionModel.LivestreamID r))).
    + by rewrite decide_True.
    + rewrite decide_False; [done|]. by intros [? _].
Qed.

Lemma user_tips_sum (ids : list Z) st k :
  NoDup (LivestreamModel.ID <$> livestreams st) ->
  k ∈ ids ->
  sum_by k (livecomments st ≫= fun lc =>
              joined_owners (LivecommentModel.LivestreamID lc) st ≫= fun owner =>
                if decide (owner ∈ ids /\ LivecommentModel.IsDeleted lc = false)
                then [(owner, LivecommentModel.Tip lc)] else [])
  = user_visible_tips st k.
Proof.
  intros Hnd Hk. rewrite sum_by_bind.
  rewrite (list_fmap_ext _
             (fun lc => if decide (owned_by st k (LivecommentModel.LivestreamID lc)
                                   /\ LivecommentModel.IsDeleted lc = false)
                        then LivecommentModel.Tip lc else 0) (livecomments st)).
  - by rewrite (sum_Z_filter _ LivecommentModel.Tip).
  - intros i lc _.
    rewrite (join_sum st k _ _
               (fun o => o ∈ ids /\ LivecommentModel.IsDeleted lc = false)
               (LivecommentModel.Tip lc)) by done.
    destruct (decide (owned_by st k (LivecommentModel.LivestreamID lc)
                      /\ LivecommentModel.IsDeleted lc = false)) as [[? ?]|Hno].
    + by rewrite decide_True.
    + rewrite decide_False; [done|]. intros (? & _ & ?). by apply Hno.
Qed.

Lemma join_keys_in_ids {A} (l : list A) (lid : A -> Z) (cond : A -> Z -> Prop)
  `{forall x o, Decision (cond x o)} (v : A -> Z) (ids : list Z) st k :
  (forall x o, cond x o -> o ∈ ids) ->
  k ∈ (l ≫= fun x => joined_owners (lid x) st ≫= fun owner =>
         if decide (cond x owner) then [(owner, v x)] else []).*1 ->
  k ∈ ids.
Proof.
  intros Hc Hk. apply list_elem_of_fmap in Hk as ([k' w] & -> & Hin).
  apply list_elem_of_bind in Hin as (x & Hin & _).
  apply list_elem_of_bind in Hin as (o & Hin & _).
  destruct (decide (cond x o)) as [Hco|]; [|by apply elem_of_nil in Hin].
  apply list_elem_of_singleton in Hin. simplify_eq. simpl. by eapply Hc.
Qed.

Lemma user_score_maps_ok {B} env ids st :
  no_faults env ->
  ids <> [] ->
  NoDup (LivestreamModel.ID <$> livestreams st) ->
  user_scores_fit st ->
  exists reactionsMap tipsMap,
    user_score_maps (B:=B) env ids (mkDB st None)
    = (mkDB st None, inl (reactionsMap, tipsMap))
    /\ forall k, k ∈ ids ->
         map_get reactionsMap k = user_reaction_count st k
         /\ map_get tipsMap k = user_visible_tips st k.
Proof.
  intros Hnf Hne Hnd Hfit.
  unfold user_score_maps, sqlx_In, query, mbind at 1 2 3 4 5 6, M_bind,
    mret, M_ret, view.
  destruct ids as [|id ids]; [done|]. simpl. rewrite !Hnf.
  unfold user_reactions_rows, user_tips_rows.
  rewrite scan_rows_ok.
  2:{ apply group_by_sum_in_range. intros k Hk.
      rewrite user_reactions_sum; [apply Hfit|done|].
      eapply (join_keys_in_ids (reactions st) ReactionModel.LivestreamID
                (fun _ o => o ∈ id :: ids) (fun _ => 1)); [|exact Hk]. done. }
  rewrite scan_rows_ok.
  2:{ apply group_by_sum_in_range. intros k Hk.
      rewrite user_tips_sum; [apply Hfit|done|].
      eapply (join_keys_in_ids (livecomments st) LivecommentModel.LivestreamID
                (fun lc o => o ∈ id :: ids /\ LivecommentModel.IsDeleted lc = false)
                LivecommentModel.Tip); [|exact Hk].
      by intros lc o [? _]. }
  eexists _, _. split; [done|]. intros k Hk.
  rewrite !map_get_group_by_sum.
  by rewrite user_reactions_sum, user_tips_sum.
Qed.

Lemma user_ranking_spec st reactionsMap tipsMap :
  user_scores_fit st ->
  (forall k, k ∈ UserModel.ID <$> users st ->
     map_get reactionsMap k = user_reaction_count st k
     /\ map_get tipsMap k = user_visible_tips st k) ->
  user_ranking (users st) reactionsMap tipsMap = spec_user_ranking st.
Proof.
  intros Hfit Hmaps. unfold user_ranking, spec_user_ranking.
  apply list_fmap_ext. intros i u Hu. f_equal.
  destruct (Hmaps (UserModel.ID u)) as [Hr Ht].
  { apply list_elem_of_fmap_2. by eapply list_elem_of_lookup_2. }
  unfold score. rewrite Hr, Ht. apply Int64_add_exact. apply Hfit.
Qed.

(** *** Hiding a comment *)







(** The scenario of the specification: three reactions and visible tips
    of 150 give the score 153; with the comment that carries 50 hidden,
    103. *)
Example score_scenario :
  spec_livestream_score example_storage 10 = 153
  /\ spec_livestream_score (update_is_deleted [2] example_storage) 10 = 103
  /\ spec_user_score example_storage 1 = 153
  /\ spec_user_score (update_is_deleted [2] example_storage) 1 = 103.
Proof. vm_compute. auto. Qed.

Lemma livestream_ranking_scores env st :
  no_faults env ->
  livestreams st <> [] ->
  livestream_scores_fit st ->
  exists reactionsMap tipsMap,
    livestream_score_maps (B:=Z) env (LivestreamModel.ID <$> livestreams st)
      (mkDB st None)
    = (mkDB st None, inl (reactionsMap, tipsMap))
    /\ livestream_ranking (livestreams st) reactionsMap tipsMap
       = spec_livestream_ranking st.
Proof.
  intros Hnf Hne Hfit.
  destruct (livestream_score_maps_ok (B:=Z) env
              (LivestreamModel.ID <$> livestreams st) st)
    as (rm & tm & Hrun & Hmaps); try done.
  { by destruct (livestreams st). }
  exists rm, tm. split; [done|]. by apply livestream_ranking_spec.
Qed.

Lemma user_ranking_scores env st :
  no_faults env ->
  users st <> [] ->
  NoDup (LivestreamModel.ID <$> livestreams st) ->
  user_scores_fit st ->
  exists reactionsMap tipsMap,
    user_score_maps (B:=Z) env (UserModel.ID <$> users st) (mkDB st None)
    = (mkDB st None, inl (reactionsMap, tipsMap))
    /\ user_ranking (users st) reactionsMap tipsMap = spec_user_ranking st.
Proof.
  intros Hnf Hne Hnd Hfit.
  destruct (user_score_maps_ok (B:=Z) env (UserModel.ID <$> users st) st)
    as (rm & tm & Hrun & Hmaps); try done.
  { by destruct (users st). }
  exists rm, tm. split; [done|]. by apply user_ranking_spec.
Qed.

(** The replies of the two statistics handlers carry the rank computed
    from these scores. *)
Lemma getLivestreamStatisticsHandler_rank env c st userID livestreamID :
  no_faults env ->
  session_valid env (sess c) userID ->
  param_livestream_id c = Some livestreamID ->
  (exists l, l ∈ livestreams st /\ LivestreamModel.ID l = livestreamID) ->
  livestream_scores_fit st ->
  serve (getLivestreamStatisticsHandler env c) st
  = (st, JSON StatusOK (compute_rank Z.ltb livestreamID (spec_livestream_ranking st))).
Proof.
  intros Hnf Hs Hp Hex Hfit.
  destruct c as [s pid bd]. simpl in *. subst pid.
  destruct (session_valid_inv _ _ _ Hs) as (ex & -> & Hnow).
  assert (livestreams st <> []) as Hne.
  { destruct Hex as (l & Hl & _). intros Hnil. rewrite Hnil in Hl.
    by apply elem_of_nil in Hl. }
  apply select_livestream_nonempty in Hex.
  destruct (livestream_ranking_scores env st Hnf Hne Hfit)
    as (rm & tm & Hrun & Hrank).
  unfold getLivestreamStatisticsHandler, serve, verifyUserSession,
    livestream_id_param, attempt, query, abort, mbind, M_bind, mret, M_ret, view.
  simpl. rewrite Hnow. repeat (rewrite ?Hnf; simpl).
  destruct (select_livestream livestreamID st) as [|l ls]; [done|].
  simpl. rewrite Hrun. simpl. by rewrite Hrank.
Qed.

Lemma getUserStatisticsHandler_rank env s st userID username :
  no_faults env ->
  session_valid env s userID ->
  (exists u, u ∈ users st /\ UserModel.Name u = username) ->
  NoDup (LivestreamModel.ID <$> livestreams st) ->
  user_scores_fit st ->
  serve (getUserStatisticsHandler env s username) st
  = (st, JSON StatusOK (compute_rank String.ltb username (spec_user_ranking st))).
Proof.
  intros Hnf Hs Hex Hnd Hfit.
  destruct (session_valid_inv _ _ _ Hs) as (ex & -> & Hnow).
  assert (users st <> []) as Hne.
  { destruct Hex as (u & Hu & _). intros Hnil. rewrite Hnil in Hu.
    by apply elem_of_nil in Hu. }
  assert (filter (fun u => UserModel.Name u = username) (users st) <> []) as Hfound.
  { destruct Hex as (u & Hu & Hname). intros Hnil.
    assert (u ∈ filter (fun u => UserModel.Name u = username) (users st)) as Hin
      by (by apply list_elem_of_filter).
    rewrite Hnil in Hin. by apply elem_of_nil in Hin. }
  destruct (user_ranking_scores env st Hnf Hne Hnd Hfit)
    as (rm & tm & Hrun & Hrank).
  unfold getUserStatisticsHandler, serve, verifyUserSession,
    attempt, query, abort, mbind, M_bind, mret, M_ret, view.
  simpl. rewrite Hnow. repeat (rewrite ?Hnf; simpl).
  destruct (filter _ (users st)) as [|u us]; [done|].
  simpl. rewrite Hrun. simpl. by rewrite Hrank.
Qed.




(** * Part III: further properties of the code *)

(** ** The rankings *)

Section RankingMore.
Context {K : Type} `{EqDecision K}.
Context (key_ltb : K -> K -> bool) `{!KeyOrder key_ltb}.

(** An entry that [Less] puts before another one gets the worse rank. *)
Lemma compute_rank_Less a b pop :
  NoDup (Key <$> pop) ->
  a ∈ pop -> b ∈ pop ->
  Less key_ltb a b = true ->
  Z.of_nat (length pop) < Int64.max_int ->
  compute_rank key_ltb (Key b) pop < compute_rank key_ltb (Key a) pop.
Proof.
  intros Hnd Ha Hb Hab Hlen.
  rewrite !(compute_rank_count key_ltb) by done.
  enough (count_above key_ltb b pop < count_above key_ltb a pop)%nat by lia.
  unfold count_above. apply (filter_length_lt _ _ pop b).
  - intros y Hy. by eapply Less_trans.
  - done.
  - done.
  - rewrite Less_irrefl; done.
Qed.

(** The entry at index [i] of the sorted slice read from its end has
    rank [i + 1]. *)
Lemma compute_rank_at_index pop i e :
  NoDup (Key <$> pop) ->
  Z.of_nat (length pop) < Int64.max_int ->
  reverse (sort_Sort key_ltb pop) !! i = Some e ->
  compute_rank key_ltb (Key e) pop = Z.of_nat i + 1.
Proof.
  intros Hnd Hlen Hi.
  assert (Hperm : reverse (sort_Sort key_ltb pop) ≡ₚ pop)
    by (by rewrite reverse_Permutation, sort_Sort_Permutation).
  unfold compute_rank.
  pose proof (take_drop_middle _ _ _ Hi) as Hsplit.
  assert (Hi' : (i < length (reverse (sort_Sort key_ltb pop)))%nat)
    by (by eapply lookup_lt_Some).
  rewrite <- Hsplit.
  assert (Hnd' : NoDup (Key <$> take i (reverse (sort_Sort key_ltb pop))
                          ++ e :: drop (S i) (reverse (sort_Sort key_ltb pop)))).
  { rewrite Hsplit. by rewrite Hperm. }
  rewrite fmap_app, fmap_cons in Hnd'.
  apply NoDup_app in Hnd' as (_ & Hdisj & _).
  rewrite rank_loop_found.
  - rewrite length_take. lia.
  - apply Forall_forall. intros x Hx Heq.
    apply (Hdisj (Key x)); [by apply list_elem_of_fmap_2|]. rewrite Heq. left.
  - done.
  - unfold Int64.min_int. lia.
  - rewrite length_take. rewrite Hperm in Hi'. lia.
Qed.

Lemma ranks_in_order pop :
  NoDup (Key <$> pop) ->
  Z.of_nat (length pop) < Int64.max_int ->
  (fun e => compute_rank key_ltb (Key e) pop) <$> reverse (sort_Sort key_ltb pop)
  = (fun i => Z.of_nat i + 1) <$> seq 0 (length pop).
Proof.
  intros Hnd Hlen.
  assert (Hperm : reverse (sort_Sort key_ltb pop) ≡ₚ pop)
    by (by rewrite reverse_Permutation, sort_Sort_Permutation).
  apply list_eq. intros i. rewrite !list_lookup_fmap.
  destruct (reverse (sort_Sort key_ltb pop) !! i) as [e|] eqn:Hi; simpl.
  - assert (i < length pop)%nat
      by (rewrite <- Hperm; by eapply lookup_lt_Some).
    rewrite lookup_seq_lt by done. simpl.
    by rewrite (compute_rank_at_index pop i e).
  - apply lookup_ge_None in Hi. rewrite Hperm in Hi.
    by rewrite lookup_seq_ge.
Qed.

Lemma ranks_Permutation pop :
  NoDup (Key <$> pop) ->
  Z.of_nat (length pop) < Int64.max_int ->
  (fun e => compute_rank key_ltb (Key e) pop) <$> pop
  ≡ₚ (fun i => Z.of_nat i + 1) <$> seq 0 (length pop).
Proof.
  intros Hnd Hlen. rewrite <- ranks_in_order by done.
  by rewrite reverse_Permutation, sort_Sort_Permutation.
Qed.

End RankingMore.

(** X1: [LivestreamRanking.Less] and [UserRanking.Less] are strict total
    orders on entries: no entry is less than itself, the relation is
    transitive, and two entries neither of which is less than the other
    are the same entry (same key, same score).  So [sort.Sort], which is
    not stable, has only one possible result. *)
Theorem X1_Less_is_strict_total_order :
  ((forall a, LivestreamRanking_Less a a = false)
   /\ (forall a b c, LivestreamRanking_Less a b = true ->
                     LivestreamRanking_Less b c = true ->
                     LivestreamRanking_Less a c = true)
   /\ (forall a b, LivestreamRanking_Less a b = false ->
                   LivestreamRanking_Less b a = false -> a = b))
  /\ ((forall a, UserRanking_Less a a = false)
      /\ (forall a b c, UserRanking_Less a b = true ->
                        UserRanking_Less b c = true ->
                        UserRanking_Less a c = true)
      /\ (forall a b, UserRanking_Less a b = false ->
                      UserRanking_Less b a = false -> a = b)).
Proof.
  split; (split; [|split]).
  - apply (Less_irrefl Z.ltb).
  - apply (Less_trans Z.ltb).
  - apply (Less_total Z.ltb).
  - apply (Less_irrefl String.ltb).
  - apply (Less_trans String.ltb).
  - apply (Less_total String.ltb).
Qed.

Lemma X1_Less_witness :
  LivestreamRanking_Less (mkEntry 1 5) (mkEntry 7 9) = true
  /\ (mkEntry "bob" 5 : UserRankingEntry) = mkEntry "bob" 5.
Proof.
  split.
  - apply (proj1 (proj2 (proj1 X1_Less_is_strict_total_order))
             (mkEntry 1 5) (mkEntry 2 5) (mkEntry 7 9)); reflexivity.
  - apply (proj2 (proj2 (proj2 X1_Less_is_strict_total_order))); reflexivity.
Defined.

(** X2: in a population with distinct keys, the rank that the loop
    computes for an entry is one plus the number of entries that [Less]
    places after it, that is, entries with a higher score or with the
    same score and a greater key. *)
Theorem X2_rank_counts_entries_above :
  (forall (pop : list LivestreamRankingEntry) e,
      NoDup (LivestreamID <$> pop) ->
      e ∈ pop ->
      Z.of_nat (length pop) < Int64.max_int ->
      compute_rank Z.ltb (LivestreamID e) pop
      = 1 + Z.of_nat (length (filter (fun x => LivestreamRanking_Less e x = true) pop)))
  /\ (forall (pop : list UserRankingEntry) e,
      NoDup (Username <$> pop) ->
      e ∈ pop ->
      Z.of_nat (length pop) < Int64.max_int ->
      compute_rank String.ltb (Username e) pop
      = 1 + Z.of_nat (length (filter (fun x => UserRanking_Less e x = true) pop))).
Proof.
  split; intros pop e Hnd He Hlen.
  - by apply (compute_rank_count Z.ltb).
  - by apply (compute_rank_count String.ltb).
Qed.

Lemma X2_rank_counts_witness :
  compute_rank Z.ltb 1 [mkEntry 3 5; mkEntry 1 5; mkEntry 2 7]
  = 1 + Z.of_nat (length (filter (fun x => LivestreamRanking_Less (mkEntry 1 5) x = true)
                            [mkEntry 3 5; mkEntry 1 5; mkEntry 2 7])).
Proof.
  apply (proj1 X2_rank_counts_entries_above
           [mkEntry 3 5; mkEntry 1 5; mkEntry 2 7] (mkEntry 1 5)).
  - apply (bool_decide_unpack _). vm_compute. exact I.
  - apply (bool_decide_unpack _). vm_compute. exact I.
  - vm_compute. reflexivity.
Defined.

(** X3: in a population of [N] entries with distinct keys, the ranks of
    the entries are the numbers 1 to [N], each exactly once: no gap and
    no shared rank, even among equal scores. *)
Theorem X3_ranks_are_one_to_N :
  (forall (pop : list LivestreamRankingEntry),
      NoDup (LivestreamID <$> pop) ->
      Z.of_nat (length pop) < Int64.max_int ->
      (fun e => compute_rank Z.ltb (LivestreamID e) pop) <$> pop
      ≡ₚ (fun i => Z.of_nat i + 1) <$> seq 0 (length pop))
  /\ (forall (pop : list UserRankingEntry),
      NoDup (Username <$> pop) ->
      Z.of_nat (length pop) < Int64.max_int ->
      (fun e => compute_rank String.ltb (Username e) pop) <$> pop
      ≡ₚ (fun i => Z.of_nat i + 1) <$> seq 0 (length pop)).
Proof.
  split; intros pop Hnd Hlen.
  - by apply (ranks_Permutation Z.ltb).
  - by apply (ranks_Permutation String.ltb).
Qed.

Lemma X3_ranks_witness :
  (fun e => compute_rank Z.ltb (LivestreamID e) [mkEntry 3 5; mkEntry 1 5; mkEntry 2 5])
    <$> [mkEntry 3 5; mkEntry 1 5; mkEntry 2 5]
  ≡ₚ (fun i => Z.of_nat i + 1) <$> seq 0 3.
Proof.
  apply (proj1 X3_ranks_are_one_to_N [mkEntry 3 5; mkEntry 1 5; mkEntry 2 5]).
  - apply (bool_decide_unpack _). vm_compute. exact I.
  - vm_compute. reflexivity.
Defined.

(** X4: in a population with distinct keys, an entity with a strictly
    higher score has a strictly better (smaller) rank. *)
Theorem X4_higher_score_better_rank :
  (forall (pop : list LivestreamRankingEntry) a b,
      NoDup (LivestreamID <$> pop) ->
      a ∈ pop -> b ∈ pop ->
      Score a < Score b ->
      Z.of_nat (length pop) < Int64.max_int ->
      compute_rank Z.ltb (LivestreamID b) pop
      < compute_rank Z.ltb (LivestreamID a) pop)
  /\ (forall (pop : list UserRankingEntry) a b,
      NoDup (Username <$> pop) ->
      a ∈ pop -> b ∈ pop ->
      Score a < Score b ->
      Z.of_nat (length pop) < Int64.max_int ->
      compute_rank String.ltb (Username b) pop
      < compute_rank String.ltb (Username a) pop).
Proof.
  split; intros pop a b Hnd Ha Hb Hs Hlen.
  - apply (compute_rank_Less Z.ltb a b pop); try done.
    unfold Less. destruct (Z.eqb_spec (Score a) (Score b)); [lia|].
    by apply Z.ltb_lt.
  - apply (compute_rank_Less String.ltb a b pop); try done.
    unfold Less. destruct (Z.eqb_spec (Score a) (Score b)); [lia|].
    by apply Z.ltb_lt.
Qed.

Lemma X4_higher_score_witness :
  compute_rank Z.ltb 2 [mkEntry 3 5; mkEntry 1 5; mkEntry 2 7]
  < compute_rank Z.ltb 3 [mkEntry 3 5; mkEntry 1 5; mkEntry 2 7].
Proof.
  apply (proj1 X4_higher_score_better_rank
           [mkEntry 3 5; mkEntry 1 5; mkEntry 2 7] (mkEntry 3 5) (mkEntry 2 7)).
  - apply (bool_decide_unpack _). vm_compute. exact I.
  - apply (bool_decide_unpack _). vm_compute. exact I.
  - apply (bool_decide_unpack _). vm_compute. exact I.
  - simpl. lia.
  - vm_compute. reflexivity.
Defined.

(** ** Moderation and posting as operations on the tables *)

Lemma moderate_committed_livecomments env userID livestreamID word st :
  livecomments (moderate_committed env userID livestreamID word st)
  = hide_row
      (collect_ng_livecomment_ids
         (select_visible_livecomments livestreamID
            (insert_ng_word (NGWord.mk 0 userID livestreamID word (now env)) st))
         (select_ng_words livestreamID
            (insert_ng_word (NGWord.mk 0 userID livestreamID word (now env)) st)))
      <$> livecomments st.
Proof. reflexivity. Qed.

Lemma moderate_committed_ng_words env userID livestreamID word st :
  ng_words (moderate_committed env userID livestreamID word st)
  = ng_words st ++ [NGWord.mk (ng_words_auto_increment st) userID livestreamID
                      word (now env)].
Proof. reflexivity. Qed.




(** X6: the two handlers never remove a livecomment row, never change
    its text, tip, author or livestream, and never make a hidden comment
    visible again: [postLivecommentHandler] leaves every existing row as
    it is, and [moderateHandler] leaves every row as it is or sets its
    [is_deleted] flag, keeping the number of rows. *)
Theorem X6_rows_change_only_by_hiding :
  (forall env c st i lc,
      livecomments st !! i = Some lc ->
      livecomments (serve (postLivecommentHandler env c) st).1 !! i = Some lc)
  /\ (forall env c st i lc,
      livecomments st !! i = Some lc ->
      livecomments (serve (moderateHandler env c) st).1 !! i = Some lc
      \/ livecomments (serve (moderateHandler env c) st).1 !! i = Some (hidden lc))
  /\ (forall env c st,
      length (livecomments (serve (moderateHandler env c) st).1)
      = length (livecomments st)).
Proof.
  split; [|split].
  - intros env c st i lc Hi.
    destruct (postLivecommentHandler_cases env c st)
      as [(-> & _)|(u & l & r & _ & _ & _ & _ & -> & _)]; [done|].
    simpl. by apply lookup_app_l_Some.
  - intros env c st i lc Hi.
    destruct (moderateHandler_cases env c st)
      as [(-> & _)|(u & l & r & _ & _ & _ & -> & _)]; [by left|].
    rewrite moderate_committed_livecomments, list_lookup_fmap, Hi. simpl.
    rewrite hide_row_cases. destruct (decide _); [by right|by left].
  - intros env c st.
    destruct (moderateHandler_cases env c st)
      as [(-> & _)|(u & l & r & _ & _ & _ & -> & _)]; [done|].
    by rewrite moderate_committed_livecomments, length_fmap.
Qed.

Lemma X6_rows_witness :
  livecomments
    (serve (postLivecommentHandler example_env
              (mkContext example_session (Some 10)
                 (BodyOf (PostLivecommentRequest.mk "hi" 3))))
       example_storage).1 !! 1%nat
  = Some (LivecommentModel.mk 2 2 10 "spam here" 50 0 false).
Proof.
  apply (proj1 X6_rows_change_only_by_hiding). reflexivity.
Defined.

Lemma contains_empty_word comment ngwords w :
  w ∈ ngwords -> NGWord.Word w = "" -> contains_ngword comment ngwords = true.
Proof.
  intros Hw Hempty. apply contains_ngword_spec. exists w. split; [done|].
  rewrite Hempty. exists "", comment. by rewrite !append_empty.
Qed.

(** X7: [moderateHandler] accepts the empty word.  Registering it hides
    every livecomment of the livestream, and from then on every post to
    the livestream that reaches the spam test is refused as spam,
    whatever its text. *)
Theorem X7_empty_word_hides_everything env c st userID livestreamID req :
  no_faults env ->
  session_valid env (sess c) userID ->
  param_livestream_id c = Some livestreamID ->
  body c = BodyOf req ->
  owned_by st userID livestreamID ->
  ModerateRequest.NGWord req = "" ->
  let st' := (serve (moderateHandler env c) st).1 in
  (forall lc, lc ∈ livecomments st' ->
              LivecommentModel.LivestreamID lc = livestreamID ->
              LivecommentModel.IsDeleted lc = true)
  /\ (forall env' c' userID' req',
        session_valid env' (sess c') userID' ->
        param_livestream_id c' = Some livestreamID ->
        body c' = BodyOf req' ->
        fails env' StmtConnx = false ->
        fails env' StmtSelectLivestream = false ->
        fails env' StmtSelectNGWords = false ->
        serve (postLivecommentHandler env' c') st'
        = (st', HTTPError StatusBadRequest spam_message)).
Proof.
  intros Hnf Hs Hp Hb Hown Hempty st'. subst st'.
  rewrite (moderateHandler_ok env c st userID livestreamID req) by done.
  simpl fst. rewrite Hempty.
  set (rule := NGWord.mk (ng_words_auto_increment st) userID livestreamID "" (now env)).
  assert (Hrule : rule ∈ ng_words (moderate_committed env userID livestreamID "" st)).
  { rewrite moderate_committed_ng_words. apply elem_of_app. right. left. }
  split.
  - intros lc' Hin' Hl'.
    rewrite moderate_committed_livecomments in Hin'.
    apply list_elem_of_fmap in Hin' as (lc & -> & Hin).
    rewrite hide_row_cases in *.
    destruct (decide (LivecommentModel.ID lc ∈ _)) as [Hhit|Hmiss]; [done|].
    destruct (LivecommentModel.IsDeleted lc) eqn:Hvis; [done|].
    exfalso. apply Hmiss. apply collect_ng_livecomment_ids_spec.
    exists lc. repeat split.
    + by apply list_elem_of_filter.
    + apply (contains_empty_word _ _ rule); [|done].
      apply list_elem_of_filter. split; [done|].
      change (rule ∈ ng_words st ++ [rule]). apply elem_of_app. right. left.
  - intros env' c' userID' req' Hs' Hp' Hb' H1 H2 H3.
    apply (postLivecommentHandler_spam env' c' _ userID' livestreamID req');
      try done.
    + destruct Hown as (l & Hl & Hid & _). by exists l.
    + exists rule. repeat split; [done|].
      exists "", (PostLivecommentRequest.Comment req'). by rewrite !append_empty.
Qed.

Lemma X7_empty_word_witness :
  let st' := (serve (moderateHandler example_env
                       (mkContext example_session (Some 10)
                          (BodyOf (ModerateRequest.mk ""))))
                example_storage).1 in
  (forall lc, lc ∈ livecomments st' ->
              LivecommentModel.LivestreamID lc = 10 ->
              LivecommentModel.IsDeleted lc = true)
  /\ (forall env' c' userID' req',
        session_valid env' (sess c') userID' ->
        param_livestream_id c' = Some 10 ->
        body c' = BodyOf req' ->
        fails env' StmtConnx = false ->
        fails env' StmtSelectLivestream = false ->
        fails env' StmtSelectNGWords = false ->
        serve (postLivecommentHandler env' c') st'
        = (st', HTTPError StatusBadRequest spam_message)).
Proof.
  apply (X7_empty_word_hides_everything example_env
           (mkContext example_session (Some 10) (BodyOf (ModerateRequest.mk "")))
           example_storage 1 10 (ModerateRequest.mk "")).
  - intros s. reflexivity.
  - unfold session_valid. simpl. repeat split. exists 1000. split; [reflexivity|lia].
  - reflexivity.
  - reflexivity.
  - exists (LivestreamModel.mk 10 1). repeat split. apply (bool_decide_unpack _).
    vm_compute. exact I.
  - reflexivity.
Defined.



(** ** The icon hash cache, once more *)

(** X9: on a cache whose lock is free, [Set(k, v)] at instant [t]
    returns, and a [Get(k)] at any instant up to and including
    [t + ttl] then returns [v] and leaves the cache as [Set] left it; an
    older entry for [k] is replaced, entries of other keys are kept. *)
Theorem X9_set_then_get_returns_value c t username iconHash t' :
  IconHashCache.mu c = RWMutex.mk 0 false ->
  t' <= t + IconHashCache.ttl c ->
  exists c1,
    IconHashCache.Set_ c t username iconHash = Returns tt c1
    /\ IconHashCache.Get c1 t' username = Returns iconHash c1
    /\ IconHashCache.m c1 !! username
       = Some (IconHash.mk iconHash (t + IconHashCache.ttl c))
    /\ forall other, other <> username ->
         IconHashCache.m c1 !! other = IconHashCache.m c !! other.
Proof.
  intros Hmu Ht. eexists. split; [by apply IconHashCache_Set_stores|].
  split; [|split].
  - rewrite (IconHashCache_Get_fresh _ _ _
               (IconHash.mk iconHash (t + IconHashCache.ttl c))); try done.
    simpl. apply lookup_insert_eq.
  - simpl. apply lookup_insert_eq.
  - intros other Hne. simpl. by rewrite lookup_insert_ne.
Qed.

Lemma X9_set_then_get_witness :
  exists c1,
    IconHashCache.Set_ iconHashCache 0 "alice" "abc" = Returns tt c1
    /\ IconHashCache.Get c1 (100 * time_Second) "alice" = Returns "abc" c1
    /\ IconHashCache.m c1 !! "alice"
       = Some (IconHash.mk "abc" (0 + IconHashCache.ttl iconHashCache))
    /\ forall other, other <> "alice" ->
         IconHashCache.m c1 !! other = IconHashCache.m iconHashCache !! other.
Proof.
  apply (X9_set_then_get_returns_value iconHashCache 0 "alice" "abc"
           (100 * time_Second)).
  - reflexivity.
  - vm_compute. discriminate.
Defined.

(** X10: whenever [Get] returns, the cache is exactly as it was before
    the call: [Get] never removes an entry, expired or not.  It returns
    only when no writer is marked on the lock and the entry is missing
    (the result is the empty string) or has not expired (the result is
    its hash). *)
Theorem X10_get_never_evicts c t username result c' :
  IconHashCache.Get c t username = Returns result c' ->
  c' = c
  /\ RWMutex.writer (IconHashCache.mu c) = false
  /\ ((IconHashCache.m c !! username = None /\ result = "")
      \/ exists entry,
           IconHashCache.m c !! username = Some entry
           /\ t <= IconHash.ExpireTime entry
           /\ result = IconHash.IconHash entry).
Proof.
  destruct c as [[n w] m ttl]. unfold IconHashCache.Get, RWMutex.RLock. simpl.
  destruct w; [done|]. simpl.
  destruct (m !! username) as [entry|] eqn:Hm.
  - destruct (Z.ltb_spec (IconHash.ExpireTime entry) t) as [Hexp|Hfresh]; [done|].
    intros [= <- <-]. repeat split. right. by exists entry.
  - intros [= <- <-]. repeat split. by left.
Qed.

Lemma X10_get_never_evicts_witness :
  example_cache = example_cache
  /\ RWMutex.writer (IconHashCache.mu example_cache) = false
  /\ ((IconHashCache.m example_cache !! "alice" = None /\ "abc" = "")
      \/ exists entry,
           IconHashCache.m example_cache !! "alice" = Some entry
           /\ 50 * time_Second <= IconHash.ExpireTime entry
           /\ "abc" = IconHash.IconHash entry).
Proof.
  apply (X10_get_never_evicts example_cache (50 * time_Second) "alice" "abc"
           example_cache).
  vm_compute. reflexivity.
Defined.

(** ** [getIconHandler], once more *)

Lemma substring_0_append (h r : string) :
  String.substring 0 (String.length h) (String.append h r) = h.
Proof.
  induction h as [|a h IH].
  - rewrite append_empty. by destruct r.
  - rewrite append_String. simpl. by rewrite IH.
Qed.

Lemma length_append_one (h : string) a :
  String.length (String.append h (String a EmptyString)) = S (String.length h).
Proof.
  induction h as [|b h IH]; [done|]. rewrite append_String. simpl. by rewrite IH.
Qed.

(** A digest between two characters is what [strip_quotes] compares. *)
Lemma strip_quotes_quoted (h : string) a b :
  h <> "" ->
  strip_quotes (String a (String.append h (String b EmptyString))) = h.
Proof.
  intros Hne. unfold strip_quotes. simpl String.length.
  rewrite length_append_one.
  destruct h as [|x h]; [done|]. simpl String.length.
  rewrite decide_True by lia.
  replace (S (S (S (String.length h))) - 2)%nat with (String.length (String x h))
    by (simpl; lia).
  change (String.substring 1 ?n (String a ?s)) with (String.substring 0 n s).
  apply substring_0_append.
Qed.

Section IconMore.
Variable getIconHash : string -> string.

(** X12: an icon that is served from the database row is written to
    the icon file and its hash is put into the cache, so that until the
    entry expires a request whose [If-None-Match] is that hash between
    two quotes (or any two characters) is answered 304. *)
Theorem X12_icon_from_database_fills_cache
  env st t username ifNoneMatch s user others image rows t' quote :
  no_faults env ->
  IconHashCache.mu (icon_cache s) = RWMutex.mk 0 false ->
  IconHashCache.m (icon_cache s) !! username = None ->
  filter (fun u => UserModel.Name u = username) (users st) = user :: others ->
  icon_files s !! UserModel.ID user = None ->
  filter (fun row => row.1 = UserModel.ID user) (icons st)
  = (UserModel.ID user, image) :: rows ->
  getIconHash image <> "" ->
  t' <= t + IconHashCache.ttl (icon_cache s) ->
  let s1 := mkIconState
              (IconHashCache.mk (RWMutex.mk 0 false)
                 (<[username := IconHash.mk (getIconHash image)
                                  (t + IconHashCache.ttl (icon_cache s))]>
                    (IconHashCache.m (icon_cache s)))
                 (IconHashCache.ttl (icon_cache s)))
              (<[UserModel.ID user := image]> (icon_files s)) in
  getIconHandler getIconHash env st t username ifNoneMatch s
  = Returns (Blob StatusOK "image/jpeg" image) s1
  /\ getIconHandler getIconHash env st t' username
       (String quote (String.append (getIconHash image) (String quote EmptyString))) s1
     = Returns (NoContent StatusNotModified) s1.
Proof.
  intros Hnf Hmu Hm Huser Hfile Hrow Hhash Ht s1.
  destruct s as [[mu m ttl] files]. simpl in *. subst mu.
  split.
  - unfold getIconHandler. rewrite IconHashCache_Get_absent by done.
    rewrite decide_False by (intros [Hne Heq]; by apply Hne).
    unfold icon_response.
    repeat (rewrite ?Hnf, ?Huser, ?Hfile, ?Hrow; simpl). done.
  - unfold getIconHandler.
    rewrite (IconHashCache_Get_fresh _ _ _
               (IconHash.mk (getIconHash image) (t + ttl))); try done.
    + simpl. rewrite strip_quotes_quoted by done.
      by rewrite decide_True.
    + simpl. apply lookup_insert_eq.
Qed.

(** X13: an icon that is served from its file is returned as it is and
    nothing else happens: the cache and the files stay as they were,
    and so the hash of a file-served icon does not enter the cache. *)
Theorem X13_icon_from_file_leaves_cache
  env st t username ifNoneMatch s user others image :
  no_faults env ->
  IconHashCache.mu (icon_cache s) = RWMutex.mk 0 false ->
  IconHashCache.m (icon_cache s) !! username = None ->
  filter (fun u => UserModel.Name u = username) (users st) = user :: others ->
  icon_files s !! UserModel.ID user = Some image ->
  image <> "" ->
  getIconHandler getIconHash env st t username ifNoneMatch s
  = Returns (Blob StatusOK "image/jpeg" image) s.
Proof.
  intros Hnf Hmu Hm Huser Hfile Himage.
  destruct s as [[mu m ttl] files]. simpl in *. subst mu.
  unfold getIconHandler. rewrite IconHashCache_Get_absent by done.
  rewrite decide_False by (intros [Hne Heq]; by apply Hne).
  unfold icon_response.
  repeat (rewrite ?Hnf, ?Huser, ?Hfile; simpl).
  rewrite decide_False; [done|].
  destruct image; [done|]. simpl. lia.
Qed.

End IconMore.

Lemma X12_icon_from_database_witness :
  let s1 := mkIconState
              (IconHashCache.mk (RWMutex.mk 0 false)
                 (<["alice" := IconHash.mk "abc" (7 + IconHashCache.ttl iconHashCache)]>
                    (IconHashCache.m iconHashCache))
                 (IconHashCache.ttl iconHashCache))
              (<[1 := "image-bytes"]> ∅) in
  getIconHandler (fun _ => "abc") example_env example_storage_icon 7 "alice" ""
    (mkIconState iconHashCache ∅)
  = Returns (Blob StatusOK "image/jpeg" "image-bytes") s1
  /\ getIconHandler (fun _ => "abc") example_env example_storage_icon 8 "alice"
       (String (Ascii.ascii_of_nat 34)
          (String.append "abc" (String (Ascii.ascii_of_nat 34) EmptyString))) s1
     = Returns (NoContent StatusNotModified) s1.
Proof.
  apply (X12_icon_from_database_fills_cache (fun _ => "abc") example_env
           example_storage_icon 7 "alice" "" (mkIconState iconHashCache ∅)
           (UserModel.mk 1 "alice" "" "" "") [] "image-bytes" [] 8
           (Ascii.ascii_of_nat 34)).
  - intros s. reflexivity.
  - reflexivity.
  - reflexivity.
  - reflexivity.
  - reflexivity.
  - reflexivity.
  - discriminate.
  - vm_compute. discriminate.
Defined.

Lemma X13_icon_from_file_witness :
  getIconHandler (fun _ => "abc") example_env example_storage_icon 7 "alice" ""
    (mkIconState iconHashCache (<[1 := "file-bytes"]> ∅))
  = Returns (Blob StatusOK "image/jpeg" "file-bytes")
      (mkIconState iconHashCache (<[1 := "file-bytes"]> ∅)).
Proof.
  apply (X13_icon_from_file_leaves_cache (fun _ => "abc") example_env
           example_storage_icon 7 "alice" "" _ (UserModel.mk 1 "alice" "" "" "") []).
  - intros s. reflexivity.
  - reflexivity.
  - reflexivity.
  - reflexivity.
  - reflexivity.
  - discriminate.
Defined.

(** X11: for a user whose cache entry is missing or has not expired (and
    holds a digest of more than two characters, as every SHA-256 digest
    is), [getIconHandler] answers 304 exactly when the cache holds a
    digest for the user that equals [If-None-Match] without its first
    and its last character, whatever these two characters are; in
    particular a missing or empty header is never answered 304. *)
Theorem X11_not_modified_exactly_on_cached_digest
  (getIconHash : string -> string) env st t username ifNoneMatch s :
  IconHashCache.mu (icon_cache s) = RWMutex.mk 0 false ->
  (forall entry,
      IconHashCache.m (icon_cache s) !! username = Some entry ->
      t <= IconHash.ExpireTime entry
      /\ (2 < String.length (IconHash.IconHash entry))%nat) ->
  ((exists s',
       getIconHandler getIconHash env st t username ifNoneMatch s
       = Returns (NoContent StatusNotModified) s')
   <-> (exists entry,
          IconHashCache.m (icon_cache s) !! username = Some entry
          /\ IconHash.IconHash entry
             = String.substring 1 (String.length ifNoneMatch - 2) ifNoneMatch))
  /\ (ifNoneMatch = "" ->
      forall s', getIconHandler getIconHash env st t username ifNoneMatch s
                 <> Returns (NoContent StatusNotModified) s').
Proof.
  intros Hmu Hfresh.
  pose proof (getIconHandler_not_modified_iff getIconHash env st t username
                ifNoneMatch s Hmu Hfresh) as Hiff.
  split; [done|].
  intros -> s' Hs'.
  destruct (proj1 Hiff (ex_intro _ s' Hs')) as (entry & Hentry & Hd).
  destruct (Hfresh entry Hentry) as [_ Hlen].
  rewrite Hd in Hlen. simpl in Hlen. lia.
Qed.

Lemma X11_not_modified_witness :
  (exists s',
      getIconHandler (fun _ => "abc") example_env example_storage (50 * time_Second)
        "alice" example_if_none_match (mkIconState example_cache ∅)
      = Returns (NoContent StatusNotModified) s')
  <-> (exists entry,
         IconHashCache.m example_cache !! "alice" = Some entry
         /\ IconHash.IconHash entry
            = String.substring 1 (String.length example_if_none_match - 2)
                example_if_none_match).
Proof.
  refine (proj1 (X11_not_modified_exactly_on_cached_digest (fun _ => "abc")
                  example_env example_storage (50 * time_Second) "alice"
                  example_if_none_match (mkIconState example_cache ∅)
                  eq_refl _)).
  intros entry H. unfold example_cache in H. simpl in H.
  rewrite lookup_insert_eq in H. injection H as <-.
  simpl. unfold time_Second. lia.
Defined.

(** ** Payment *)

Ltac run_handler2 :=
  unfold serve, GetPaymentResult, postReactionHandler, fillReactionResponse,
    verifyUserSessionWithUserID, query2, exec2,
    moderateHandler, postLivecommentHandler, fillLivecommentResponse,
    verifyUserSession, livestream_id_param, session_userID, decode_body, deref,
    sqlx_In, BeginTxx, Commit, defer, attempt, query, exec, abort,
    mbind, M_bind, mret, M_ret, view, apply_update, Rollback; simpl.

Lemma hide_row_Tip ids lc :
  LivecommentModel.Tip (hide_row ids lc) = LivecommentModel.Tip lc.
Proof. unfold hide_row. by destruct (decide _). Qed.

Lemma select_sum_tip_moderate_committed env userID livestreamID word st :
  select_sum_tip (moderate_committed env userID livestreamID word st)
  = select_sum_tip st.
Proof.
  unfold select_sum_tip. rewrite moderate_committed_livecomments.
  rewrite <- list_fmap_compose. f_equal. apply list_fmap_ext.
  intros i lc _. apply hide_row_Tip.
Qed.

Lemma sum_Z_app l1 l2 : sum_Z (l1 ++ l2) = sum_Z l1 + sum_Z l2.
Proof.
  induction l1 as [|x l1 IH]; [done|].
  change (sum_Z ((x :: l1) ++ l2)) with (x + sum_Z (l1 ++ l2)).
  change (sum_Z (x :: l1)) with (x + sum_Z l1).
  rewrite IH. change (sum_Z []) with 0. lia.
Qed.

Lemma select_sum_tip_insert_livecomment row st :
  select_sum_tip (insert_livecomment row st)
  = select_sum_tip st + LivecommentModel.Tip row.
Proof.
  unfold select_sum_tip. simpl. rewrite fmap_app, sum_Z_app.
  change (sum_Z (LivecommentModel.Tip <$> [?r])) with (LivecommentModel.Tip r + 0).
  simpl. lia.
Qed.

Lemma GetPaymentResult_reply env st :
  serve (GetPaymentResult env) st
  = (st,
     if fails (base env) StmtConnx
     then HTTPError StatusInternalServerError "failed to get connection: "
     else if fails2 env StmtSumTips
     then HTTPError StatusInternalServerError "failed to count total tip: "
     else if decide (Int64.in_range (select_sum_tip st))
     then JSON StatusOK (select_sum_tip st)
     else HTTPError StatusInternalServerError "failed to count total tip: ").
Proof.
  run_handler2.
  destruct (fails (base env) StmtConnx); [done|]. simpl.
  destruct (fails2 env StmtSumTips); [done|]. simpl.
  by destruct (decide _).
Qed.

(** X14: the total that [GetPaymentResult] reports counts the tips of
    hidden livecomments too: whatever [moderateHandler] does in a
    request, [GetPaymentResult] gives the same reply after it as before
    it, and it changes no table itself. *)
Theorem X14_moderation_keeps_payment_total env2 env c st :
  (serve (GetPaymentResult env2) (serve (moderateHandler env c) st).1).2
  = (serve (GetPaymentResult env2) st).2
  /\ (serve (GetPaymentResult env2) st).1 = st.
Proof.
  rewrite !GetPaymentResult_reply. simpl. split; [|done].
  destruct (moderateHandler_cases env c st)
    as [(-> & _)|(u & l & r & _ & _ & _ & -> & _)]; [done|].
  by rewrite select_sum_tip_moderate_committed.
Qed.

(** X15: a livecomment posted with tip [t] raises the total of
    [GetPaymentResult] by exactly [t]: when the post is answered 201,
    the tip in the reply is the tip of the request and a
    [GetPaymentResult] that succeeded before with total [total] and is
    run after the post with nothing failing replies [total + t], or 500
    when that does not fit an [int64]. *)
Theorem X15_post_raises_payment_total env2 env c st lc total :
  (serve (postLivecommentHandler env c) st).2 = JSON StatusCreated lc ->
  (serve (GetPaymentResult env2) st).2 = JSON StatusOK total ->
  (exists req, body c = BodyOf req
               /\ Livecomment.Tip lc = PostLivecommentRequest.Tip req)
  /\ (serve (GetPaymentResult env2) (serve (postLivecommentHandler env c) st).1).2
     = if decide (Int64.in_range (total + Livecomment.Tip lc))
       then JSON StatusOK (total + Livecomment.Tip lc)
       else HTTPError StatusInternalServerError "failed to count total tip: ".
Proof.
  intros Hpost Hpay.
  assert (Htip : exists req, body c = BodyOf req
                   /\ Livecomment.Tip lc = PostLivecommentRequest.Tip req).
  { revert Hpost. destruct c as [[serr ex uid] pid bd].
    run_handler. handler_cases ltac:(done).
    all: intros; simplify_eq; by eexists. }
  split; [done|].
  destruct Htip as (req & Hb & Htip).
  rewrite GetPaymentResult_reply in Hpay. simpl in Hpay.
  rewrite GetPaymentResult_reply. simpl.
  destruct (fails (base env2) StmtConnx); [done|].
  destruct (fails2 env2 StmtSumTips); [done|].
  destruct (decide (Int64.in_range (select_sum_tip st))); [|done].
  injection Hpay as <-.
  destruct (postLivecommentHandler_cases env c st)
    as [(_ & Hno & _)|(u & l & r & _ & _ & Hb' & _ & -> & _)].
  - by destruct (Hno lc).
  - rewrite select_sum_tip_insert_livecomment. simpl.
    rewrite Hb in Hb'. injection Hb' as <-. by rewrite Htip.
Qed.

Lemma X15_post_raises_payment_witness :
  (exists req,
      BodyOf (PostLivecommentRequest.mk "hi" 3) = BodyOf req
      /\ Livecomment.Tip (Livecomment.mk 4 1 10 "hi" 3 100)
         = PostLivecommentRequest.Tip req)
  /\ (serve (GetPaymentResult example_env2)
        (serve (postLivecommentHandler example_env
                  (mkContext example_session (Some 10)
                     (BodyOf (PostLivecommentRequest.mk "hi" 3))))
           example_storage).1).2
     = if decide (Int64.in_range (150 + Livecomment.Tip (Livecomment.mk 4 1 10 "hi" 3 100)))
       then JSON StatusOK (150 + Livecomment.Tip (Livecomment.mk 4 1 10 "hi" 3 100))
       else HTTPError StatusInternalServerError "failed to count total tip: ".
Proof.
  apply (X15_post_raises_payment_total example_env2 example_env
           (mkContext example_session (Some 10)
              (BodyOf (PostLivecommentRequest.mk "hi" 3)))
           example_storage (Livecomment.mk 4 1 10 "hi" 3 100) 150).
  - vm_compute. reflexivity.
  - vm_compute. reflexivity.
Defined.

(** X16: [postLivecommentHandler] is not atomic.  Its statements run on
    a plain connection, so when the [INSERT] went through and reading
    the new id fails, the request is answered 500 and the livecomment
    is stored all the same. *)
Theorem X16_failed_post_may_store_the_comment env c st userID livestreamID req :
  session_valid env (sess c) userID ->
  param_livestream_id c = Some livestreamID ->
  body c = BodyOf req ->
  (exists l, l ∈ livestreams st /\ LivestreamModel.ID l = livestreamID) ->
  ~ rule_matches (ng_words st) livestreamID (PostLivecommentRequest.Comment req) ->
  fails env StmtConnx = false ->
  fails env StmtSelectLivestream = false ->
  fails env StmtSelectNGWords = false ->
  fails env StmtInsertLivecomment = false ->
  fails env StmtLastInsertId = true ->
  serve (postLivecommentHandler env c) st
  = (insert_livecomment
       (LivecommentModel.mk 0 userID livestreamID
          (PostLivecommentRequest.Comment req) (PostLivecommentRequest.Tip req)
          (now env) false) st,
     HTTPError StatusInternalServerError
       "failed to get last inserted livecomment id: ").
Proof.
  intros Hs Hp Hb Hex Hm H1 H2 H3 H4 H5.
  destruct c as [s pid bd]. simpl in *. subst pid bd.
  destruct (session_valid_inv _ _ _ Hs) as (ex & -> & Hnow).
  apply select_livestream_nonempty in Hex.
  assert (Hm' : contains_ngword (PostLivecommentRequest.Comment req)
                  (select_ng_words_no_created_at livestreamID st) = false).
  { destruct (contains_ngword _ _) eqn:Hc; [|done].
    by apply post_spam_test_spec in Hc. }
  run_handler. rewrite Hnow. repeat (rewrite ?H1, ?H2, ?H3, ?H4, ?H5; simpl).
  destruct (select_livestream livestreamID st) as [|l ls] eqn:Hl; [done|].
  apply select_livestream_head in Hl.
  repeat (rewrite ?H1, ?H2, ?H3, ?H4, ?H5; simpl). rewrite Hl, Hm'.
  repeat (rewrite ?H1, ?H2, ?H3, ?H4, ?H5; simpl). done.
Qed.

Lemma X16_failed_post_witness :
  serve (postLivecommentHandler
           (mkEnv 100 (fun s => match s with StmtLastInsertId => true | _ => false end))
           (mkContext example_session (Some 10)
              (BodyOf (PostLivecommentRequest.mk "hi" 3))))
    example_storage
  = (insert_livecomment (LivecommentModel.mk 0 1 10 "hi" 3 100 false) example_storage,
     HTTPError StatusInternalServerError
       "failed to get last inserted livecomment id: ").
Proof.
  apply (X16_failed_post_may_store_the_comment
           (mkEnv 100 (fun s => match s with StmtLastInsertId => true | _ => false end))
           (mkContext example_session (Some 10)
              (BodyOf (PostLivecommentRequest.mk "hi" 3)))
           example_storage 1 10 (PostLivecommentRequest.mk "hi" 3)).
  - unfold session_valid. simpl. repeat split. exists 1000. split; [reflexivity|lia].
  - reflexivity.
  - reflexivity.
  - exists (LivestreamModel.mk 10 1). split; [|reflexivity].
    apply (bool_decide_unpack _). vm_compute. exact I.
  - intros (w & Hw & _). by apply elem_of_nil in Hw.
  - reflexivity.
  - reflexivity.
  - reflexivity.
  - reflexivity.
  - reflexivity.
Defined.

(** ** Sessions *)


(** ** Reactions *)

Lemma select_user_in id st u us :
  select_user id st = u :: us -> u ∈ users st.
Proof.
  unfold select_user. intros Hsel.
  assert (u ∈ filter (fun u => UserModel.ID u = id) (users st)) as Hin
    by (rewrite Hsel; left).
  by apply list_elem_of_filter in Hin as [_ ?].
Qed.

Lemma select_livestream_in id st l ls :
  select_livestream id st = l :: ls -> l ∈ livestreams st.
Proof.
  unfold select_livestream. intros Hsel.
  assert (l ∈ filter (fun l => LivestreamModel.ID l = id) (livestreams st)) as Hin
    by (rewrite Hsel; left).
  by apply list_elem_of_filter in Hin as [_ ?].
Qed.

(** Every run of [postReactionHandler] either leaves the tables as they
    were and does not reply 201, or commits the reaction and replies 201
    with it; the second happens only when the rows of the user and of
    the livestream exist. *)
Lemma postReactionHandler_cases env c st :
  let res := serve (postReactionHandler env c) st in
  (res.1 = st /\ forall b, res.2 <> JSON StatusCreated b)
  \/ (exists userID livestreamID req,
        USERID (sess c) = Some userID
        /\ param_livestream_id c = Some livestreamID
        /\ body c = BodyOf req
        /\ res.1 = reaction_committed env userID livestreamID
                     (PostReactionRequest.EmojiName req) st
        /\ res.2 = JSON StatusCreated
                     (Reaction.mk (last_insert_id env)
                        (PostReactionRequest.EmojiName req) userID livestreamID
                        (now (base env)))
        /\ (exists u, u ∈ users st /\ UserModel.ID u = userID)
        /\ (exists l, l ∈ livestreams st /\ LivestreamModel.ID l = livestreamID)).
Proof.
  destruct c as [[serr ex uid] pid bd].
  run_handler2.
  handler_cases ltac:(left; split; [done|by intros]).
  all: right; eexists _, _, _; repeat split; try done.
  all: repeat match goal with
              | H : select_livestream _ _ = _ :: _ |- _ =>
                  pose proof (select_livestream_head _ _ _ _ H);
                  apply select_livestream_in in H
              | H : select_user _ _ = _ :: _ |- _ =>
                  pose proof (select_user_head _ _ _ _ H);
                  apply select_user_in in H
              end.
  all: simpl in *; try congruence.
  all: by eexists.
Qed.

(** X18: [postReactionHandler] is atomic and stores a reaction only for
    an existing user and an existing livestream: every run either
    leaves the tables exactly as they were and does not reply 201, or
    appends one reaction row with the emoji of the request, the user of
    the session, the livestream of the path and the time of the request,
    and replies 201 with it; in the second case the rows of that user
    and of that livestream exist. *)
Theorem X18_reaction_is_atomic env c st :
  let res := serve (postReactionHandler env c) st in
  (res.1 = st /\ forall b, res.2 <> JSON StatusCreated b)
  \/ (exists userID livestreamID req,
        USERID (sess c) = Some userID
        /\ param_livestream_id c = Some livestreamID
        /\ body c = BodyOf req
        /\ reactions res.1
           = reactions st
             ++ [ReactionModel.mk (last_insert_id env)
                   (PostReactionRequest.EmojiName req) userID livestreamID
                   (now (base env))]
        /\ users res.1 = users st
        /\ livestreams res.1 = livestreams st
        /\ livecomments res.1 = livecomments st
        /\ ng_words res.1 = ng_words st
        /\ res.2 = JSON StatusCreated
                     (Reaction.mk (last_insert_id env)
                        (PostReactionRequest.EmojiName req) userID livestreamID
                        (now (base env)))
        /\ (exists u, u ∈ users st /\ UserModel.ID u = userID)
        /\ (exists l, l ∈ livestreams st /\ LivestreamModel.ID l = livestreamID)).
Proof.
  intros res.
  destruct (postReactionHandler_cases env c st)
    as [?|(u & l & r & Hu & Hp & Hb & Hst & Hr & Hue & Hle)]; [by left|].
  right. exists u, l, r. fold res in Hst, Hr. rewrite Hst. by repeat split.
Qed.







(** ** Scores under moderation and posting *)

(** Hiding rows that a sum of visible tips does not count leaves the
    sum as it was. *)
Lemma hide_rows_outside (Q : Z -> Prop) `{forall z, Decision (Q z)} (ids : list Z)
  (lcs : list LivecommentModel.t) :
  (forall lc, lc ∈ lcs -> Q (LivecommentModel.LivestreamID lc) ->
              LivecommentModel.IsDeleted lc = false ->
              LivecommentModel.ID lc ∉ ids) ->
  sum_Z (LivecommentModel.Tip
           <$> filter (fun x => Q (LivecommentModel.LivestreamID x)
                                /\ LivecommentModel.IsDeleted x = false)
                 (hide_row ids <$> lcs))
  = sum_Z (LivecommentModel.Tip
             <$> filter (fun x => Q (LivecommentModel.LivestreamID x)
                                  /\ LivecommentModel.IsDeleted x = false) lcs).
Proof.
  induction lcs as [|x lcs IH]; intros Hout; [done|].
  rewrite fmap_cons, !filter_cons.
  assert (IH' := IH (fun lc Hlc => Hout lc (proj2 (elem_of_cons _ _ _) (or_intror Hlc)))).
  destruct (decide (Q (LivecommentModel.LivestreamID x)
                    /\ LivecommentModel.IsDeleted x = false)) as [[HQ Hvis]|Hno].
  - assert (hide_row ids x = x) as ->.
    { unfold hide_row. rewrite decide_False; [done|]. apply Hout; [left|done..]. }
    rewrite decide_True by done. by rewrite !fmap_cons, !sum_Z_cons, IH'.
  - rewrite decide_False; [done|].
    rewrite hide_row_cases. destruct (decide _); [by intros [_ ?]|done].
Qed.

(** X21: moderating one livestream never changes the score of another
    one: with livecomment ids unique, whatever a run of
    [moderateHandler] for livestream [l] does, the score of every other
    livestream, and of every user who does not own [l], is after the
    request what it was before. *)
Theorem X21_moderation_is_confined_to_its_livestream env c st livestreamID :
  NoDup (LivecommentModel.ID <$> livecomments st) ->
  param_livestream_id c = Some livestreamID ->
  let st' := (serve (moderateHandler env c) st).1 in
  (forall id, id <> livestreamID ->
              spec_livestream_score st' id = spec_livestream_score st id)
  /\ (forall owner, ~ owned_by st owner livestreamID ->
                    spec_user_score st' owner = spec_user_score st owner).
Proof.
  intros Hnd Hp st'. subst st'.
  destruct (moderateHandler_cases env c st)
    as [(-> & _)|(u & l & r & _ & Hp' & _ & -> & _)]; [done|].
  rewrite Hp in Hp'. injection Hp' as <-.
  set (st1 := insert_ng_word
                (NGWord.mk 0 u livestreamID (ModerateRequest.NGWord r) (now env)) st).
  assert (Hout : forall (Q : Z -> Prop) lc,
             ~ Q livestreamID -> lc ∈ livecomments st ->
             Q (LivecommentModel.LivestreamID lc) ->
             LivecommentModel.ID lc
               ∉ collect_ng_livecomment_ids
                   (select_visible_livecomments livestreamID st1)
                   (select_ng_words livestreamID st1)).
  { intros Q lc HQ Hin HQlc Hid.
    apply (sweep_hits_row st1 livestreamID lc Hnd Hin) in Hid as [Hl _].
    apply HQ. by rewrite <- Hl. }
  split.
  - intros id Hne. unfold spec_livestream_score.
    change (reaction_count (moderate_committed _ _ _ _ st) id)
      with (reaction_count st id).
    f_equal. unfold visible_tips. rewrite moderate_committed_livecomments.
    refine (hide_rows_outside (fun z => z = id) _ _ _).
    intros lc Hin Hl _. apply (Hout (fun z => z = id) lc); [congruence|done..].
  - intros owner Hown. unfold spec_user_score.
    change (user_reaction_count (moderate_committed _ _ _ _ st) owner)
      with (user_reaction_count st owner).
    f_equal. unfold user_visible_tips. rewrite moderate_committed_livecomments.
    refine (hide_rows_outside (owned_by st owner) _ _ _).
    intros lc Hin Hl _. by apply (Hout (owned_by st owner) lc).
Qed.

Lemma X21_moderation_is_confined_witness :
  let st' := (serve (moderateHandler example_env
                       (mkContext example_session (Some 10)
                          (BodyOf (ModerateRequest.mk "spam"))))
                example_storage).1 in
  (forall id, id <> 10 ->
              spec_livestream_score st' id = spec_livestream_score example_storage id)
  /\ (forall owner, ~ owned_by example_storage owner 10 ->
                    spec_user_score st' owner = spec_user_score example_storage owner).
Proof.
  apply (X21_moderation_is_confined_to_its_livestream example_env
           (mkContext example_session (Some 10) (BodyOf (ModerateRequest.mk "spam")))
           example_storage 10).
  - apply (bool_decide_unpack _). vm_compute. exact I.
  - reflexivity.
Defined.





(** ** [postIconHandler] *)

Lemma verifyUserSession_valid {B} env s userID db :
  session_valid env s userID ->
  verifyUserSession (B:=B) env s db = (db, inl tt) /\ USERID s = Some userID.
Proof.
  intros Hs. destruct (session_valid_inv _ _ _ Hs) as (ex & -> & Hnow).
  unfold verifyUserSession. simpl. by rewrite Hnow.
Qed.

Lemma verifyUserSession_invalid {B} env s db :
  (forall userID, ~ session_valid env s userID) ->
  exists reply, verifyUserSession (B:=B) env s db = (db, inr reply).
Proof.
  intros Hno. destruct s as [serr ex uid]. unfold verifyUserSession, abort. simpl.
  destruct serr; [by eexists|].
  destruct ex as [ex|]; [|by eexists].
  destruct uid as [uid|]; [|by eexists].
  destruct (Z.gtb_spec (now env) ex); [by eexists|].
  exfalso. apply (Hno uid). unfold session_valid. simpl.
  repeat split. exists ex. split; [done|lia].
Qed.

Lemma filter_icons_delete userID (rows : list (Z * string)) :
  filter (fun row => row.1 = userID) (filter (fun row => row.1 <> userID) rows) = [].
Proof.
  induction rows as [|row rows IH]; [done|].
  rewrite filter_cons. destruct (decide (row.1 <> userID)) as [Hne|Heq].
  - rewrite filter_cons, decide_False by done. done.
  - done.
Qed.

Lemma filter_icons_others userID (rows : list (Z * string)) :
  filter (fun row => row.1 <> userID) (filter (fun row => row.1 <> userID) rows)
  = filter (fun row => row.1 <> userID) rows.
Proof.
  induction rows as [|row rows IH]; [done|].
  rewrite filter_cons. destruct (decide (row.1 <> userID)) as [Hne|Heq].
  - rewrite filter_cons, decide_True by done. by rewrite IH.
  - done.
Qed.

Section PostIconFacts.
Variable getIconHash : string -> string.

(** X23: the icon that a user posts is the icon that is served.  When
    nothing fails and the cache is not locked, [postIconHandler]
    replies 201 and leaves exactly one row for the user in the icons
    table, holding the posted image; from then on, until the cache
    entry expires, [getIconHandler] for that user serves the posted
    image, and answers 304 to a request whose [If-None-Match] is the
    hash of the image between quotes. *)
Theorem X23_posted_icon_is_served
  env time_Now session username req st s userID user others user' others'
  env' t' quote :
  no_faults (base env) ->
  (forall x, fails2 env x = false) ->
  no_faults env' ->
  session_valid (base env) session userID ->
  IconHashCache.mu (icon_cache s) = RWMutex.mk 0 false ->
  select_user userID st = user :: others ->
  UserModel.Name user = username ->
  filter (fun u => UserModel.Name u = username) (users st) = user' :: others' ->
  UserModel.ID user' = userID ->
  PostIconRequest.Image req <> "" ->
  getIconHash (PostIconRequest.Image req) <> "" ->
  t' <= time_Now + IconHashCache.ttl (icon_cache s) ->
  exists st' s',
    postIconHandler getIconHash env time_Now session (Some username) (BodyOf req) st s
    = Returns (JSON StatusCreated (last_insert_id env)) (st', s')
    /\ filter (fun row => row.1 = userID) (icons st')
       = [(userID, PostIconRequest.Image req)]
    /\ getIconHandler getIconHash env' st' t' username "" s'
       = Returns (Blob StatusOK "image/jpeg" (PostIconRequest.Image req)) s'
    /\ getIconHandler getIconHash env' st' t' username
         (String quote (String.append (getIconHash (PostIconRequest.Image req))
                          (String quote EmptyString))) s'
       = Returns (NoContent StatusNotModified) s'.
Proof.
  intros Hnf Hnf2 Hnf' Hs Hmu Huser Hname Hbyname Hid Himage Hhash Ht.
  destruct (verifyUserSession_valid (B:=Z) _ _ _ (mkDB st None) Hs) as [Hv Huid].
  destruct s as [[mu m ttl] files]. simpl in *. subst mu.
  unfold postIconHandler. rewrite Hv, Huid. simpl.
  repeat (rewrite ?Hnf, ?Hnf2; simpl).
  change (select_user userID (insert_icon userID _ (delete_icons userID st)))
    with (select_user userID st).
  rewrite Huser, Hname. simpl.
  eexists _, _. split; [done|]. split; [|split].
  - simpl. rewrite filter_app, filter_icons_delete, filter_cons, filter_nil. simpl.
    by rewrite decide_True.
  - unfold getIconHandler.
    rewrite (IconHashCache_Get_fresh _ _ _
               (IconHash.mk (getIconHash (PostIconRequest.Image req)) (time_Now + ttl)));
      [|done|simpl; apply lookup_insert_eq|done].
    simpl. unfold icon_response. simpl.
    repeat (rewrite ?Hnf', ?Hbyname, ?Hid; simpl).
    rewrite lookup_insert_eq. simpl.
    rewrite decide_False; [done|].
    destruct (PostIconRequest.Image req); [done|]. simpl. lia.
  - unfold getIconHandler.
    rewrite (IconHashCache_Get_fresh _ _ _
               (IconHash.mk (getIconHash (PostIconRequest.Image req)) (time_Now + ttl)));
      [|done|simpl; apply lookup_insert_eq|done].
    simpl. rewrite strip_quotes_quoted by done.
    by rewrite decide_True.
Qed.

(** X24: [postIconHandler] is not atomic.  When the [DELETE] of the old
    row went through and the [INSERT] of the new one fails, the request
    is answered 500 and the user is left without any row in the icons
    table, while the icon file and the cache already hold the new
    image. *)
Theorem X24_failed_icon_upload_deletes_the_old_icon
  env time_Now session username req st s userID :
  session_valid (base env) session userID ->
  IconHashCache.mu (icon_cache s) = RWMutex.mk 0 false ->
  fails (base env) StmtWriteFile = false ->
  fails (base env) StmtConnx = false ->
  fails2 env StmtDeleteIcons = false ->
  fails2 env StmtInsertIcon = true ->
  exists st' s',
    postIconHandler getIconHash env time_Now session (Some username) (BodyOf req) st s
    = Returns (HTTPError StatusInternalServerError "failed to insert new user icon: ")
        (st', s')
    /\ filter (fun row => row.1 = userID) (icons st') = []
    /\ icon_files s' !! userID = Some (PostIconRequest.Image req)
    /\ IconHashCache.m (icon_cache s') !! username
       = Some (IconHash.mk (getIconHash (PostIconRequest.Image req))
                 (time_Now + IconHashCache.ttl (icon_cache s))).
Proof.
  intros Hs Hmu H1 H2 H3 H4.
  destruct (verifyUserSession_valid (B:=Z) _ _ _ (mkDB st None) Hs) as [Hv Huid].
  destruct s as [[mu m ttl] files]. simpl in *. subst mu.
  unfold postIconHandler. rewrite Hv, Huid. simpl.
  rewrite H1, H2, H3, H4. simpl.
  eexists _, _. split; [done|]. simpl. split; [|split].
  - apply filter_icons_delete.
  - apply lookup_insert_eq.
  - apply lookup_insert_eq.
Qed.

(** X25: [postIconHandler] touches nothing but the caller's own icon.
    Whatever the request and whatever fails, the other tables are left
    as they were, the icon rows and the icon files of the other users
    are left as they were, and a request that [verifyUserSession]
    rejects changes nothing at all. *)
Theorem X25_icon_upload_touches_only_own_icon
  env time_Now session USERNAME body st s :
  let res := final_state
               (postIconHandler getIconHash env time_Now session USERNAME body st s) in
  users res.1 = users st
  /\ livestreams res.1 = livestreams st
  /\ reactions res.1 = reactions st
  /\ livecomments res.1 = livecomments st
  /\ ng_words res.1 = ng_words st
  /\ (forall userID,
        USERID session = Some userID ->
        filter (fun row => row.1 <> userID) (icons res.1)
        = filter (fun row => row.1 <> userID) (icons st)
        /\ forall other, other <> userID ->
             icon_files res.2 !! other = icon_files s !! other)
  /\ ((forall userID, ~ session_valid (base env) session userID) -> res = (st, s)).
Proof.
  intros res. subst res. unfold postIconHandler.
  destruct (verifyUserSession (base env) session (mkDB st None)) as [db [[]|reply]] eqn:Hv.
  2:{ simpl. repeat split; done. }
  simpl.
  assert (Hvalid : ~ forall userID, ~ session_valid (base env) session userID).
  { intros Hno. destruct (verifyUserSession_invalid (B:=Z) _ _ (mkDB st None) Hno)
      as (reply & Hr). congruence. }
  destruct (USERID session) as [userID|] eqn:Huid; [|by repeat split].
  assert (Hothers : forall image,
             filter (fun row => row.1 <> userID)
               (filter (fun row => row.1 <> userID) (icons st) ++ [(userID, image)])
             = filter (fun row => row.1 <> userID) (icons st)).
  { intros image. rewrite filter_app, filter_icons_others, filter_cons, filter_nil.
    simpl. rewrite decide_False by (intros Hne; by apply Hne).
    by rewrite app_nil_r. }
  repeat (case_match; simpl; simplify_eq).
  all: split; [done|]; split; [done|]; split; [done|]; split; [done|];
    split; [done|]; split.
  all: try (intros Hno; by destruct (Hvalid Hno)).
  all: intros u [= <-]; split; [|intros other Hne; by rewrite ?lookup_insert_ne].
  all: by rewrite ?Hothers, ?filter_icons_others.
Qed.

End PostIconFacts.

Lemma X23_posted_icon_witness :
  exists st' s',
    postIconHandler (fun _ => "abc") example_env2 7 example_session (Some "alice")
      (BodyOf (PostIconRequest.mk "image-bytes")) example_storage
      (mkIconState iconHashCache ∅)
    = Returns (JSON StatusCreated (last_insert_id example_env2)) (st', s')
    /\ filter (fun row => row.1 = 1) (icons st')
       = [(1, PostIconRequest.Image (PostIconRequest.mk "image-bytes"))]
    /\ getIconHandler (fun _ => "abc") example_env st' 8 "alice" "" s'
       = Returns (Blob StatusOK "image/jpeg"
                    (PostIconRequest.Image (PostIconRequest.mk "image-bytes"))) s'
    /\ getIconHandler (fun _ => "abc") example_env st' 8 "alice"
         (String (Ascii.ascii_of_nat 34)
            (String.append "abc" (String (Ascii.ascii_of_nat 34) EmptyString))) s'
       = Returns (NoContent StatusNotModified) s'.
Proof.
  apply (X23_posted_icon_is_served (fun _ => "abc") example_env2 7 example_session
           "alice" (PostIconRequest.mk "image-bytes") example_storage
           (mkIconState iconHashCache ∅) 1
           (UserModel.mk 1 "alice" "" "" "") [] (UserModel.mk 1 "alice" "" "" "") []
           example_env 8 (Ascii.ascii_of_nat 34)).
  - intros x. reflexivity.
  - intros x. reflexivity.
  - intros x. reflexivity.
  - unfold session_valid. simpl. repeat split. exists 1000. split; [reflexivity|lia].
  - reflexivity.
  - reflexivity.
  - reflexivity.
  - reflexivity.
  - reflexivity.
  - discriminate.
  - discriminate.
  - vm_compute. discriminate.
Defined.

Lemma X24_failed_icon_upload_witness :
  exists st' s',
    postIconHandler (fun _ => "abc")
      (mkEnv2 example_env
         (fun x => match x with StmtInsertIcon => true | _ => false end) 4)
      7 example_session (Some "alice")
      (BodyOf (PostIconRequest.mk "new-image")) example_storage_icon
      (mkIconState iconHashCache ∅)
    = Returns (HTTPError StatusInternalServerError "failed to insert new user icon: ")
        (st', s')
    /\ filter (fun row => row.1 = 1) (icons st') = []
    /\ icon_files s' !! 1 = Some (PostIconRequest.Image (PostIconRequest.mk "new-image"))
    /\ IconHashCache.m (icon_cache s') !! "alice"
       = Some (IconHash.mk "abc"
                 (7 + IconHashCache.ttl (icon_cache (mkIconState iconHashCache ∅)))).
Proof.
  apply (X24_failed_icon_upload_deletes_the_old_icon (fun _ => "abc")
           (mkEnv2 example_env
              (fun x => match x with StmtInsertIcon => true | _ => false end) 4)
           7 example_session "alice" (PostIconRequest.mk "new-image")
           example_storage_icon (mkIconState iconHashCache ∅) 1).
  - unfold session_valid. simpl. repeat split. exists 1000. split; [reflexivity|lia].
  - reflexivity.
  - reflexivity.
  - reflexivity.
  - reflexivity.
  - reflexivity.
Defined.

(** ** Listing livecomments *)

Lemma map_by_id_values ids k v :
  map_by_id ids !! k = Some v -> v = k.
Proof.
  unfold map_by_id.
  assert (Hgen : forall (m : gmap Z Z),
             (forall k v, m !! k = Some v -> v = k) ->
             forall k v, foldl (fun m id => <[id := id]> m) m ids !! k = Some v -> v = k).
  { induction ids as [|id ids IH]; intros m Hm k' v'; simpl; [apply Hm|].
    apply IH. intros k0 v0. destruct (decide (id = k0)) as [->|Hne].
    - rewrite lookup_insert_eq. congruence.
    - rewrite lookup_insert_ne by done. apply Hm. }
  apply Hgen. intros k0 v0. by rewrite lookup_empty.
Qed.

Lemma build_livecomments_inv {B} message userMap livestreamMap models db :
  (forall k v, userMap !! k = Some v -> v = k) ->
  (forall k v, livestreamMap !! k = Some v -> v = k) ->
  (build_livecomments (B:=B) message userMap livestreamMap models db).1 = db
  /\ (forall l,
       (build_livecomments (B:=B) message userMap livestreamMap models db).2 = inl l ->
       l = Livecomment_of <$> models)
  /\ (forall r,
       (build_livecomments (B:=B) message userMap livestreamMap models db).2 = inr r ->
       r = HTTPError StatusInternalServerError message).
Proof.
  intros Hu Hl. induction models as [|lc models (IH1 & IH2 & IH3)]; simpl.
  { split; [done|]. split; intros; by simplify_eq. }
  destruct (userMap !! LivecommentModel.UserID lc) as [owner|] eqn:Ho.
  2:{ split; [done|]. split; [done|]. by intros r [= <-]. }
  destruct (livestreamMap !! LivecommentModel.LivestreamID lc) as [ls|] eqn:Hls.
  2:{ split; [done|]. split; [done|]. by intros r [= <-]. }
  apply Hu in Ho. apply Hl in Hls. subst.
  unfold mbind, M_bind, mret, M_ret.
  destruct (build_livecomments message userMap livestreamMap models db)
    as [db' [l'|r]]; simpl in *; subst.
  - split; [done|]. split; [|done]. intros l [= <-]. by rewrite (IH2 l').
  - split; [done|]. split; [done|]. intros r' [= <-]. by apply IH3.
Qed.

Lemma fillLivecommentResponses_inv {B} env message models db :
  (fillLivecommentResponses (B:=B) env message models db).1 = db
  /\ (forall l,
       (fillLivecommentResponses (B:=B) env message models db).2 = inl l ->
       l = Livecomment_of <$> models)
  /\ (forall r,
       (fillLivecommentResponses (B:=B) env message models db).2 = inr r ->
       r = HTTPError StatusInternalServerError message).
Proof.
  unfold fillLivecommentResponses, fillUserResponses, fillLivestreamResponses,
    sqlx_In, query2, attempt, query, abort, mbind, M_bind, mret, M_ret.
  repeat (case_match; simplify_eq/=; try done).
  all: try (split; [done|]; split; intros; by simplify_eq).
  all: try (split; [done|]; split; [|done]; intros l [= <-]; by destruct models).
  all: match goal with
       | |- context [build_livecomments ?m ?um ?lm ?ms ?d] =>
           apply (build_livecomments_inv m um lm ms d); apply map_by_id_values
       end.
Qed.

Lemma fillLivecommentResponses_nil {B} env message db :
  fillLivecommentResponses (B:=B) env message [] db = (db, inl []).
Proof. reflexivity. Qed.

Lemma sorted_desc_take {A} (key : A -> Z) n (l : list A) :
  sorted_desc key l -> sorted_desc key (take n l).
Proof.
  unfold sorted_desc. intros Hs. rewrite <- (take_drop n l) in Hs.
  by apply StronglySorted_app_1_l in Hs.
Qed.

Lemma example_order_by_desc_Permutation A key (l : list A) :
  example_order_by_desc A key l ≡ₚ l.
Proof. apply merge_sort_Permutation. Qed.

Lemma example_order_by_desc_sorted A key (l : list A) :
  sorted_desc key (example_order_by_desc A key l).
Proof.
  apply StronglySorted_merge_sort.
  - intros a b c Hab Hbc. lia.
  - intros a b. lia.
Qed.

Section ListingFacts.
Variable order_by_desc : forall A : Type, (A -> Z) -> list A -> list A.
Hypothesis order_by_desc_Permutation :
  forall A key (l : list A), order_by_desc A key l ≡ₚ l.
Hypothesis order_by_desc_sorted :
  forall A key (l : list A), sorted_desc key (order_by_desc A key l).

Lemma select_livecomments_newest_first_elem livestreamID limit st lc :
  lc ∈ select_livecomments_newest_first order_by_desc livestreamID limit st ->
  lc ∈ livecomments st
  /\ LivecommentModel.LivestreamID lc = livestreamID
  /\ LivecommentModel.IsDeleted lc = false.
Proof.
  unfold select_livecomments_newest_first. intros Hin.
  assert (lc ∈ select_visible_livecomments livestreamID st) as Hvis.
  { rewrite <- (order_by_desc_Permutation _ LivecommentModel.CreatedAt).
    destruct limit; [by eapply subseteq_take|done]. }
  apply list_elem_of_filter in Hvis as [[? ?] ?]. done.
Qed.

(** What a successful listing lists. *)
Lemma getLivecommentsHandler_listed env c limit st l :
  (serve (getLivecommentsHandler order_by_desc env c limit) st).2 = JSON StatusOK l ->
  exists livestreamID lim,
    param_livestream_id c = Some livestreamID
    /\ match limit with
       | ParamAbsent => lim = None
       | ParamMalformed => False
       | ParamOf n => lim = Some n /\ 0 <= n
       end
    /\ l = Livecomment_of
             <$> select_livecomments_newest_first order_by_desc livestreamID lim st.
Proof.
  destruct c as [[serr ex uid] pid bd].
  unfold serve, getLivecommentsHandler, verifyUserSession, livestream_id_param,
    attempt, query, abort, mbind, M_bind, mret, M_ret, view. simpl.
  intros Hr.
  repeat (case_match; simplify_eq/=; try done).
  all: match goal with
       | H : fillLivecommentResponses ?e ?m ?ms ?d = (_, inr _) |- _ =>
           pose proof (proj2 (proj2 (fillLivecommentResponses_inv
                                       (B:=list Livecomment.t) e m ms d))) as Hl;
           rewrite H in Hl; by specialize (Hl _ eq_refl)
       | H : fillLivecommentResponses ?e ?m ?ms ?d = _ |- _ =>
           pose proof (proj1 (proj2 (fillLivecommentResponses_inv
                                       (B:=list Livecomment.t) e m ms d)) l) as Hl;
           rewrite H in Hl; specialize (Hl eq_refl)
       end.
  all: eexists _, _; split; [done|]; split;
    [first [reflexivity | split; [reflexivity|lia]]|exact Hl].
Qed.

(** X26: a listing that [getLivecommentsHandler] answers with 200
    changes no table and lists rows of the livecomments table as they
    are stored, only visible ones and only of the livestream of the
    path, newest first; with a limit [n] it lists at most [n] of them
    ([n] is not negative then), without a limit all of them. *)
Theorem X26_listing_shows_visible_comments_newest_first env c limit st l :
  (serve (getLivecommentsHandler order_by_desc env c limit) st).2 = JSON StatusOK l ->
  (serve (getLivecommentsHandler order_by_desc env c limit) st).1 = st
  /\ exists livestreamID rows,
       param_livestream_id c = Some livestreamID
       /\ l = Livecomment_of <$> rows
       /\ (forall lc, lc ∈ rows ->
                      lc ∈ livecomments st
                      /\ LivecommentModel.LivestreamID lc = livestreamID
                      /\ LivecommentModel.IsDeleted lc = false)
       /\ sorted_desc LivecommentModel.CreatedAt rows
       /\ match limit with
          | ParamOf n => 0 <= n /\ (length rows <= Z.to_nat n)%nat
          | _ => rows ≡ₚ select_visible_livecomments livestreamID st
          end.
Proof.
  intros Hr. split.
  - clear Hr. destruct c as [[serr ex uid] pid bd].
    unfold serve, getLivecommentsHandler, verifyUserSession, livestream_id_param,
      attempt, query, abort, mbind, M_bind, mret, M_ret, view. simpl.
    repeat (case_match; simplify_eq/=; try done).
    all: match goal with
         | H : fillLivecommentResponses ?e ?m ?ms ?d = _ |- _ =>
             pose proof (proj1 (fillLivecommentResponses_inv (B:=list Livecomment.t) e m ms d)) as Hd;
             rewrite H in Hd; simpl in Hd; by subst
         end.
  - destruct (getLivecommentsHandler_listed env c limit st l Hr)
      as (livestreamID & lim & Hp & Hlim & ->).
    exists livestreamID, (select_livecomments_newest_first order_by_desc livestreamID lim st).
    split; [done|]. split; [done|]. split.
    { intros lc. apply select_livecomments_newest_first_elem. }
    unfold select_livecomments_newest_first.
    destruct limit as [| |n]; [subst lim|done|destruct Hlim as [-> Hn]].
    + split; [apply order_by_desc_sorted|apply order_by_desc_Permutation].
    + split; [apply sorted_desc_take, order_by_desc_sorted|].
      split; [done|]. rewrite length_take. lia.
Qed.

(** X27: banned words are never shown.  On tables in which no visible
    livecomment contains a banned word of its livestream (an invariant
    of [postLivecommentHandler] and [moderateHandler]), no livecomment
    that [getLivecommentsHandler] lists contains a banned word of its
    livestream. *)
Theorem X27_listing_shows_no_banned_word env c limit st l :
  no_visible_spam st ->
  (serve (getLivecommentsHandler order_by_desc env c limit) st).2 = JSON StatusOK l ->
  Forall (fun x => ~ rule_matches (ng_words st) (Livecomment.Livestream x)
                      (Livecomment.Comment x)) l.
Proof.
  intros Hinv Hr. apply Forall_forall. intros x Hx.
  destruct (getLivecommentsHandler_listed env c limit st l Hr)
    as (livestreamID & lim & _ & _ & ->).
  apply list_elem_of_fmap in Hx as (lc & -> & Hlc).
  apply select_livecomments_newest_first_elem in Hlc as (Hin & _ & Hvis).
  by apply (Hinv lc).
Qed.

(** X28: for a livestream without a visible livecomment, and for the
    limit 0, the listing is the empty list with status 200 even when
    every call of [fillLivecommentResponses] would fail: on an empty
    slice it makes no call. *)
Theorem X28_empty_listing_needs_no_fill env c limit st userID livestreamID :
  session_valid (base env) (sess c) userID ->
  param_livestream_id c = Some livestreamID ->
  fails (base env) StmtConnx = false ->
  fails (base env) StmtSelectLivecomments = false ->
  (limit = ParamAbsent /\ select_visible_livecomments livestreamID st = [])
  \/ limit = ParamOf 0 ->
  serve (getLivecommentsHandler order_by_desc env c limit) st = (st, JSON StatusOK []).
Proof.
  intros Hs Hp H1 H2 Hempty.
  destruct c as [s pid bd]. simpl in *. subst pid.
  destruct (session_valid_inv _ _ _ Hs) as (ex & -> & Hnow).
  unfold serve, getLivecommentsHandler, verifyUserSession, livestream_id_param,
    attempt, query, abort, mbind, M_bind, mret, M_ret, view. simpl.
  rewrite Hnow, H1. simpl.
  destruct Hempty as [[-> Hnil]| ->]; simpl; rewrite H2; simpl.
  - unfold select_livecomments_newest_first. rewrite Hnil.
    assert (order_by_desc _ LivecommentModel.CreatedAt [] = []) as ->.
    { apply Permutation_nil_r. apply order_by_desc_Permutation. }
    done.
  - done.
Qed.

End ListingFacts.

Lemma X26_listing_witness :
  (serve (getLivecommentsHandler example_order_by_desc example_env2
            (mkContext example_session (Some 10) BodyNull) (ParamOf 2))
     example_storage).1 = example_storage
  /\ exists livestreamID rows,
       param_livestream_id (mkContext example_session (Some 10) (BodyNull (R:=unit)))
       = Some livestreamID
       /\ [Livecomment.mk 3 2 10 "clean" 0 0;
           Livecomment.mk 1 2 10 "hello world" 100 0] = Livecomment_of <$> rows
       /\ (forall lc, lc ∈ rows ->
                      lc ∈ livecomments example_storage
                      /\ LivecommentModel.LivestreamID lc = livestreamID
                      /\ LivecommentModel.IsDeleted lc = false)
       /\ sorted_desc LivecommentModel.CreatedAt rows
       /\ 0 <= 2 /\ (length rows <= Z.to_nat 2)%nat.
Proof.
  apply (X26_listing_shows_visible_comments_newest_first example_order_by_desc
           example_order_by_desc_Permutation example_order_by_desc_sorted
           example_env2 (mkContext example_session (Some 10) BodyNull) (ParamOf 2)
           example_storage).
  vm_compute. reflexivity.
Defined.

Lemma X27_listing_witness :
  Forall (fun x => ~ rule_matches (ng_words example_storage) (Livecomment.Livestream x)
                      (Livecomment.Comment x))
    [Livecomment.mk 3 2 10 "clean" 0 0; Livecomment.mk 1 2 10 "hello world" 100 0].
Proof.
  apply (X27_listing_shows_no_banned_word example_order_by_desc
           example_order_by_desc_Permutation
           example_env2 (mkContext example_session (Some 10) BodyNull) (ParamOf 2)
           example_storage).
  - intros lc _ _ (w & Hw & _). by apply elem_of_nil in Hw.
  - vm_compute. reflexivity.
Defined.

Lemma X28_empty_listing_witness :
  serve (getLivecommentsHandler example_order_by_desc
           (mkEnv2 (mkEnv 100 (fun s => match s with
                                        | StmtFillUser | StmtFillLivestream => true
                                        | _ => false
                                        end))
              (fun _ => true) 4)
           (mkContext example_session (Some 11) BodyNull) ParamAbsent)
    example_storage
  = (example_storage, JSON StatusOK []).
Proof.
  apply (X28_empty_listing_needs_no_fill example_order_by_desc
           example_order_by_desc_Permutation
           (mkEnv2 (mkEnv 100 (fun s => match s with
                                        | StmtFillUser | StmtFillLivestream => true
                                        | _ => false
                                        end))
              (fun _ => true) 4)
           (mkContext example_session (Some 11) BodyNull) ParamAbsent
           example_storage 1 11).
  - unfold session_valid. simpl. repeat split. exists 1000. split; [reflexivity|lia].
  - reflexivity.
  - reflexivity.
  - reflexivity.
  - left. split; reflexivity.
Defined.

(** ** Listing banned words *)

Section NgwordsFacts.
Variable order_by_desc : forall A : Type, (A -> Z) -> list A -> list A.
Hypothesis order_by_desc_Permutation :
  forall A key (l : list A), order_by_desc A key l ≡ₚ l.

(** X29: a banned word that [moderateHandler] registered is listed by
    [getNgwords].  When [moderateHandler] answers 201 with an id, a
    following [getNgwords] of the same user for the same livestream,
    with nothing failing, answers 200 with a list that holds the rule
    of that id with the word of the request; and the list holds rules
    of that user and that livestream only. *)
Theorem X29_registered_word_is_listed env c st wordID env' c' userID :
  (serve (moderateHandler env c) st).2 = JSON StatusCreated wordID ->
  session_valid env' (sess c') userID ->
  USERID (sess c) = Some userID ->
  param_livestream_id c' = param_livestream_id c ->
  fails env' StmtConnx = false ->
  fails env' StmtSelectNGWords = false ->
  let st' := (serve (moderateHandler env c) st).1 in
  exists req livestreamID l,
    body c = BodyOf req
    /\ param_livestream_id c = Some livestreamID
    /\ serve (getNgwords order_by_desc env' c') st' = (st', JSON StatusOK l)
    /\ NGWord.mk wordID userID livestreamID (ModerateRequest.NGWord req) (now env) ∈ l
    /\ Forall (fun w => NGWord.UserID w = userID
                        /\ NGWord.LivestreamID w = livestreamID) l.
Proof.
  intros Hr Hs Hu Hp H1 H2 st'. subst st'.
  destruct (moderateHandler_cases env c st)
    as [(_ & Hno)|(u & l & r & Hu' & Hp' & Hb & -> & Hr' & _)];
    [by destruct (Hno wordID)|].
  rewrite Hr' in Hr. injection Hr as <-.
  rewrite Hu in Hu'. injection Hu' as <-.
  exists r, l. eexists. split; [done|]. split; [done|].
  destruct c' as [s' pid' bd']. simpl in *. rewrite Hp' in Hp. subst pid'.
  destruct (session_valid_inv _ _ _ Hs) as (ex & -> & Hnow).
  unfold serve, getNgwords, verifyUserSession, session_userID, livestream_id_param,
    attempt, query, abort, mbind, M_bind, mret, M_ret, view. simpl.
  rewrite Hnow, H1. simpl. rewrite H2. simpl.
  split; [done|]. unfold select_own_ng_words. split.
  - rewrite order_by_desc_Permutation. apply list_elem_of_filter. split; [done|].
    rewrite moderate_committed_ng_words. apply elem_of_app. right. left.
  - apply Forall_forall. intros w Hw. rewrite order_by_desc_Permutation in Hw.
    by apply list_elem_of_filter in Hw as [? _].
Qed.

End NgwordsFacts.

Lemma X29_registered_word_witness :
  let st' := (serve (moderateHandler example_env
                       (mkContext example_session (Some 10)
                          (BodyOf (ModerateRequest.mk "spam"))))
                example_storage).1 in
  exists req livestreamID l,
    BodyOf (ModerateRequest.mk "spam") = BodyOf req
    /\ Some 10 = Some livestreamID
    /\ serve (getNgwords example_order_by_desc example_env
                (mkContext example_session (Some 10) BodyNull)) st'
       = (st', JSON StatusOK l)
    /\ NGWord.mk 1 1 livestreamID (ModerateRequest.NGWord req) (now example_env) ∈ l
    /\ Forall (fun w => NGWord.UserID w = 1 /\ NGWord.LivestreamID w = livestreamID) l.
Proof.
  apply (X29_registered_word_is_listed example_order_by_desc
           example_order_by_desc_Permutation example_env
           (mkContext example_session (Some 10) (BodyOf (ModerateRequest.mk "spam")))
           example_storage 1 example_env
           (mkContext example_session (Some 10) BodyNull) 1).
  - vm_compute. reflexivity.
  - unfold session_valid. simpl. repeat split. exists 1000. split; [reflexivity|lia].
  - reflexivity.
  - reflexivity.
  - reflexivity.
  - reflexivity.
Defined.

(** ** The totals of the user statistics *)

Lemma Int64_add_wrap_l a b : Int64.add (Int64.wrap a) b = Int64.wrap (a + b).
Proof.
  unfold Int64.add, Int64.wrap. f_equal.
  replace ((a + 2 ^ 63) mod 2 ^ 64 - 2 ^ 63 + b + 2 ^ 63)
    with ((a + 2 ^ 63) mod 2 ^ 64 + b) by lia.
  rewrite Zplus_mod_idemp_l. f_equal. lia.
Qed.

Lemma add_livecomments_wrap lcs n t :
  add_livecomments lcs (Int64.wrap n, Int64.wrap t)
  = (Int64.wrap (n + Z.of_nat (length lcs)),
     Int64.wrap (t + sum_Z (LivecommentModel.Tip <$> lcs))).
Proof.
  unfold add_livecomments. revert n t.
  induction lcs as [|lc lcs IH]; intros n t.
  - simpl. change (sum_Z []) with 0. by rewrite !Z.add_0_r.
  - rewrite fmap_cons, sum_Z_cons. cbn [foldl fst snd].
    rewrite !Int64_add_wrap_l, IH. f_equal; f_equal; simpl length; lia.
Qed.

Lemma sum_livestreams_ok {B} env ls totals st :
  fails env StmtSelectLivecomments = false ->
  sum_livestreams (B:=B) env ls totals (mkDB st None)
  = (mkDB st None,
     inl (foldl (fun totals l =>
                   add_livecomments
                     (select_visible_livecomments (LivestreamModel.ID l) st) totals)
            totals ls)).
Proof.
  intros Hf. revert totals. induction ls as [|l ls IH]; intros totals; [done|].
  simpl. unfold mbind, M_bind, query, view. rewrite Hf. simpl. apply IH.
Qed.

Lemma sum_livestreams_wrap ls st n t :
  foldl (fun totals l =>
           add_livecomments (select_visible_livecomments (LivestreamModel.ID l) st)
             totals)
    (Int64.wrap n, Int64.wrap t) ls
  = (Int64.wrap (n + sum_Z ((fun l => Z.of_nat (length (select_visible_livecomments
                                                         (LivestreamModel.ID l) st)))
                              <$> ls)),
     Int64.wrap (t + sum_Z ((fun l => visible_tips st (LivestreamModel.ID l)) <$> ls))).
Proof.
  revert n t. induction ls as [|l ls IH]; intros n t.
  - simpl. change (sum_Z []) with 0. by rewrite !Z.add_0_r.
  - rewrite !fmap_cons, !sum_Z_cons. cbn [foldl].
    rewrite add_livecomments_wrap, IH. unfold visible_tips.
    f_equal; f_equal; unfold select_visible_livecomments; lia.
Qed.

Lemma sum_Z_fmap_add {A} (a b : A -> Z) (l : list A) :
  sum_Z ((fun x => a x + b x) <$> l) = sum_Z (a <$> l) + sum_Z (b <$> l).
Proof.
  induction l as [|x l IH]; [done|].
  rewrite !fmap_cons, !sum_Z_cons, IH. lia.
Qed.

Lemma sum_Z_one_key (ls : list LivestreamModel.t) k (Q : Prop) `{Decision Q} v :
  NoDup (LivestreamModel.ID <$> ls) ->
  sum_Z ((fun l => if decide (k = LivestreamModel.ID l /\ Q) then v else 0) <$> ls)
  = if decide (k ∈ LivestreamModel.ID <$> ls /\ Q) then v else 0.
Proof.
  induction ls as [|l ls IH]; intros Hnd.
  - rewrite decide_False; [done|]. intros [Hin _]. by apply elem_of_nil in Hin.
  - rewrite fmap_cons in Hnd. apply NoDup_cons in Hnd as [Hl Hnd].
    rewrite !fmap_cons, sum_Z_cons, IH by done.
    destruct (decide (k = LivestreamModel.ID l /\ Q)) as [[-> HQ]|Hno].
    + rewrite decide_False by (by intros [? _]).
      rewrite decide_True; [lia|]. split; [left|done].
    + destruct (decide (k ∈ LivestreamModel.ID <$> ls /\ Q)) as [[Hin HQ]|Hno'].
      * rewrite decide_True; [lia|]. split; [by right|done].
      * rewrite decide_False; [lia|]. intros [Hin HQ].
        apply elem_of_cons in Hin as [->|Hin]; [by apply Hno|by apply Hno'].
Qed.

(** Summing per livestream is summing over the rows of these
    livestreams. *)
Lemma sum_over_livestreams {A} (key g : A -> Z) (P : A -> Prop)
  `{forall x, Decision (P x)} (ls : list LivestreamModel.t) (X : list A) :
  NoDup (LivestreamModel.ID <$> ls) ->
  sum_Z ((fun l => sum_Z (g <$> filter (fun x => key x = LivestreamModel.ID l /\ P x) X))
           <$> ls)
  = sum_Z (g <$> filter (fun x => key x ∈ LivestreamModel.ID <$> ls /\ P x) X).
Proof.
  intros Hnd. induction X as [|x X IH].
  - simpl. induction ls as [|l ls IHl]; [done|].
    rewrite fmap_cons, sum_Z_cons.
    rewrite fmap_cons in Hnd. apply NoDup_cons in Hnd as [_ Hnd].
    rewrite IHl by done. done.
  - rewrite (list_fmap_ext _
               (fun l => (if decide (key x = LivestreamModel.ID l /\ P x)
                          then g x else 0)
                         + sum_Z (g <$> filter (fun x => key x = LivestreamModel.ID l
                                                         /\ P x) X)) ls).
    2:{ intros i l _. rewrite filter_cons.
        destruct (decide (key x = LivestreamModel.ID l /\ P x)); [|done].
        by rewrite fmap_cons, sum_Z_cons. }
    rewrite sum_Z_fmap_add, IH, sum_Z_one_key by done.
    rewrite filter_cons.
    destruct (decide (key x ∈ LivestreamModel.ID <$> ls /\ P x)); [|done].
    by rewrite fmap_cons, sum_Z_cons.
Qed.

Lemma owned_livestream_ids st userID k :
  k ∈ LivestreamModel.ID
        <$> filter (fun l => LivestreamModel.UserID l = userID) (livestreams st)
  <-> owned_by st userID k.
Proof.
  unfold owned_by. split.
  - intros Hin. apply list_elem_of_fmap in Hin as (l & -> & Hl).
    apply list_elem_of_filter in Hl as [? ?]. by exists l.
  - intros (l & Hl & <- & Hu). apply list_elem_of_fmap_2.
    by apply list_elem_of_filter.
Qed.

Lemma NoDup_owned_livestreams st userID :
  NoDup (LivestreamModel.ID <$> livestreams st) ->
  NoDup (LivestreamModel.ID
           <$> filter (fun l => LivestreamModel.UserID l = userID) (livestreams st)).
Proof.
  intros Hnd. eapply sublist_NoDup; [exact Hnd|].
  apply fmap_sublist, sublist_filter.
Qed.

Lemma length_bind {A C} (f : A -> list C) (l : list A) :
  Z.of_nat (length (l ≫= f)) = sum_Z ((fun x => Z.of_nat (length (f x))) <$> l).
Proof.
  induction l as [|x l IH]; [done|].
  rewrite bind_cons, length_app, fmap_cons, sum_Z_cons. lia.
Qed.

Lemma count_user_reactions_spec st username user :
  filter (fun u => UserModel.Name u = username) (users st) = [user] ->
  NoDup (LivestreamModel.ID <$> livestreams st) ->
  count_user_reactions username st = user_reaction_count st (UserModel.ID user).
Proof.
  intros Huser Hnd. unfold count_user_reactions, user_reaction_count.
  rewrite Huser. simpl. rewrite app_nil_r, length_bind.
  rewrite (list_fmap_ext _
             (fun l => sum_Z ((fun _ => 1)
                                <$> filter (fun r => ReactionModel.LivestreamID r
                                                     = LivestreamModel.ID l /\ True)
                                      (reactions st)))
             (filter (fun l => LivestreamModel.UserID l = UserModel.ID user)
                (livestreams st))).
  2:{ intros i l _. rewrite sum_Z_ones. do 2 f_equal. apply filter_iff. tauto. }
  rewrite (sum_over_livestreams ReactionModel.LivestreamID (fun _ => 1) (fun _ => True))
    by (by apply NoDup_owned_livestreams).
  rewrite sum_Z_ones. do 2 f_equal. apply filter_iff. intros r.
  rewrite owned_livestream_ids. tauto.
Qed.

Lemma user_visible_tips_per_livestream st userID :
  NoDup (LivestreamModel.ID <$> livestreams st) ->
  sum_Z ((fun l => visible_tips st (LivestreamModel.ID l))
           <$> filter (fun l => LivestreamModel.UserID l = userID) (livestreams st))
  = user_visible_tips st userID.
Proof.
  intros Hnd. unfold visible_tips, user_visible_tips.
  rewrite (sum_over_livestreams LivecommentModel.LivestreamID LivecommentModel.Tip
             (fun lc => LivecommentModel.IsDeleted lc = false))
    by (by apply NoDup_owned_livestreams).
  do 2 f_equal. apply filter_iff. intros lc. by rewrite owned_livestream_ids.
Qed.

(** X30: the totals of [getUserStatisticsHandler] add up to the score
    of its ranking.  For a user whose name is unique, with unique
    livestream ids, nothing failing and the aggregates fitting an
    [int64], the handler's [TotalReactions] is the number of reactions
    on the user's livestreams, its [TotalTip] is the sum of the tips of
    their visible livecomments, computed with one query per livestream,
    and [TotalReactions + TotalTip] is the score by which the user is
    ranked. *)
Theorem X30_user_totals_add_up_to_the_score env st username user :
  fails2 env StmtCountReactions = false ->
  fails2 env StmtSelectUserLivestreams = false ->
  fails (base env) StmtSelectLivecomments = false ->
  filter (fun u => UserModel.Name u = username) (users st) = [user] ->
  NoDup (LivestreamModel.ID <$> livestreams st) ->
  user_scores_fit st ->
  exists totals,
    user_statistics_totals (B:=Z) env username user (mkDB st None)
    = (mkDB st None, inl totals)
    /\ UserStatistics.TotalReactions totals
       = user_reaction_count st (UserModel.ID user)
    /\ UserStatistics.TotalTip totals = user_visible_tips st (UserModel.ID user)
    /\ UserStatistics.TotalReactions totals + UserStatistics.TotalTip totals
       = spec_user_score st (UserModel.ID user).
Proof.
  intros H1 H2 H3 Huser Hnd Hfit.
  destruct (Hfit (UserModel.ID user)) as (Hr & Ht & _).
  unfold user_statistics_totals, query2, abort, mbind, M_bind, mret, M_ret, view.
  rewrite H1. simpl.
  rewrite (count_user_reactions_spec st username user) by done.
  rewrite decide_True by done. rewrite H2. simpl.
  rewrite (sum_livestreams_ok (B:=Z)) by done.
  change (0, 0) with (Int64.wrap 0, Int64.wrap 0).
  rewrite sum_livestreams_wrap, user_visible_tips_per_livestream by done.
  eexists. split; [done|]. simpl.
  rewrite Z.add_0_l, Int64_wrap_in_range by done. done.
Qed.

Lemma example_storage_user_scores_fit : user_scores_fit example_storage.
Proof.
  intros id.
  assert (Hown : forall k, owned_by example_storage id k <-> (k = 10 /\ id = 1)
                                                            \/ (k = 11 /\ id = 2)).
  { intros k. unfold owned_by, example_storage. simpl. split.
    - intros (l & Hl & <- & <-).
      apply elem_of_cons in Hl as [->|Hl]; [by left|].
      apply elem_of_cons in Hl as [->|Hl]; [by right|].
      by apply elem_of_nil in Hl.
    - intros [[-> ->]|[-> ->]].
      + exists (LivestreamModel.mk 10 1). split; [left|done].
      + exists (LivestreamModel.mk 11 2). split; [right; left|done]. }
  unfold spec_user_score, user_reaction_count, user_visible_tips.
  unfold example_storage at 2 4 6 8 10 12. simpl.
  rewrite !filter_cons, !filter_nil. simpl.
  destruct (decide (id = 1)) as [->|Hne].
  - rewrite !decide_True by (try split; try done; apply Hown; by left).
    simpl. repeat split; vm_compute; congruence.
  - rewrite !decide_False by (rewrite ?Hown; intros H; destruct_and?; destruct_or?;
                              destruct_and?; congruence).
    repeat split; vm_compute; congruence.
Qed.

Lemma X30_user_totals_witness :
  exists totals,
    user_statistics_totals (B:=Z) example_env2 "alice" (UserModel.mk 1 "alice" "" "" "")
      (mkDB example_storage None)
    = (mkDB example_storage None, inl totals)
    /\ UserStatistics.TotalReactions totals
       = user_reaction_count example_storage (UserModel.ID (UserModel.mk 1 "alice" "" "" ""))
    /\ UserStatistics.TotalTip totals
       = user_visible_tips example_storage (UserModel.ID (UserModel.mk 1 "alice" "" "" ""))
    /\ UserStatistics.TotalReactions totals + UserStatistics.TotalTip totals
       = spec_user_score example_storage (UserModel.ID (UserModel.mk 1 "alice" "" "" "")).
Proof.
  apply (X30_user_totals_add_up_to_the_score example_env2 example_storage "alice"
           (UserModel.mk 1 "alice" "" "" "")).
  - reflexivity.
  - reflexivity.
  - reflexivity.
  - reflexivity.
  - apply (bool_decide_unpack _). vm_compute. exact I.
  - exact example_storage_user_scores_fit.
Defined.
